(** * EdDSA multi-signature document backend: a shallow embedding

    The development follows the services of the backend:
    - [Js]      : JavaScript values, truthiness, property reads, thrown errors;
    - [JSON]    : [JSON.stringify] and [JSON.parse];
    - [Node]    : [Buffer] codecs (utf8, base64, hex), SHA-256 and SHA-512;
    - [Number]  : the doubles of the one division the services make;
    - [Nacl]    : the [tweetnacl] signing wrappers around an Ed25519 core;
    - [EdDSAService], [MultiSignatureService], [QRCodeService] : the services.

    JavaScript strings are modelled by [string]: one [ascii] per UTF-16 code
    unit, restricted to the code units below 256, so that [String.length] is
    the [.length] of the source.  Numbers are the integers, but for the
    progress percentage, which is computed on doubles.  Clock readings
    ([new Date()]) and fresh identifiers ([crypto.randomUUID()]) are explicit
    inputs of the functions that consume them. *)

From Stdlib Require Import ZArith List String Ascii Bool Lia Permutation.
From Stdlib Require Decimal DecimalString DecimalPos DecimalFacts.
From Stdlib Require SpecFloat.
From Stdlib.Strings Require Import Byte.
Import ListNotations.

Set Warnings "-register-all".

Local Open Scope string_scope.
Local Open Scope Z_scope.

(* ================================================================== *)
(** ** JavaScript values and completions *)

Module Js.

(** A call either returns a value or throws an [Error] carrying a message. *)
Inductive completion (A : Type) : Type :=
| Ret (a : A)
| Throw (message : string).
Arguments Ret {A} a.
Arguments Throw {A} message.

Definition bind {A B} (c : completion A) (k : A -> completion B) : completion B :=
  match c with
  | Ret a => k a
  | Throw m => Throw m
  end.

(** [try { c } catch (error) { throw new Error(prefix + error.message) }] *)
Definition rethrow {A} (prefix : string) (c : completion A) : completion A :=
  match c with
  | Ret a => Ret a
  | Throw m => Throw (prefix ++ m)
  end.

(** The values that flow through the services: JSON-like trees.  An object
    is the list of its own enumerable properties in insertion order, which
    is the order in which the engine enumerates keys that are not array
    indices (the services use no integer-like key). *)
Inductive value : Type :=
| Undefined
| Null
| Bool (b : bool)
| Num (n : Z)
| Str (s : string)
| Arr (items : list value)
| Obj (props : list (string * value)).

(** ToBoolean, as used by [||], [!] and [?:]. *)
Definition truthy (v : value) : bool :=
  match v with
  | Undefined | Null => false
  | Bool b => b
  | Num n => negb (n =? 0)
  | Str s => negb (String.eqb s "")
  | Arr _ | Obj _ => true
  end.

(** [a || b] *)
Definition or (a b : value) : value := if truthy a then a else b.

(** Own-property lookup; a later definition of a key shadows an earlier one. *)
Fixpoint lookup_own (k : string) (props : list (string * value)) : option value :=
  match props with
  | [] => None
  | (k', v) :: rest =>
      match lookup_own k rest with
      | Some found => Some found
      | None => if String.eqb k k' then Some v else None
      end
  end.

Definition lookup (k : string) (props : list (string * value)) : value :=
  match lookup_own k props with
  | Some v => v
  | None => Undefined
  end.

(** [v.k] for a key that is no built-in property of a primitive: a read on
    [undefined] or [null] throws a TypeError, a read on another primitive or
    on an array gives [undefined]. *)
Definition get (v : value) (k : string) : completion value :=
  match v with
  | Undefined => Throw ("Cannot read properties of undefined (reading '" ++ k ++ "')")
  | Null => Throw ("Cannot read properties of null (reading '" ++ k ++ "')")
  | Obj props => Ret (lookup k props)
  | _ => Ret Undefined
  end.

(** [v?.k] *)
Definition get_opt (v : value) (k : string) : value :=
  match v with
  | Obj props => lookup k props
  | _ => Undefined
  end.

(** [{...o, k: v}]: an existing key keeps its place and takes the new value,
    a new key goes last. *)
Fixpoint set (k : string) (v : value) (props : list (string * value))
  : list (string * value) :=
  match props with
  | [] => [(k, v)]
  | (k', v') :: rest =>
      if String.eqb k k' then (k', v) :: rest else (k', v') :: set k v rest
  end.

(** [s === v] for a string [s]: [v] is that string. *)
Definition strict_eq_string (s : string) (v : value) : bool :=
  match v with
  | Str t => String.eqb s t
  | _ => false
  end.

(** *** Methods that write to an object

    A method run on a mutable object (or on a global) maps the state
    before the call to its completion and the state after it; a [throw]
    keeps the writes made before it. *)
Definition method (S A : Type) : Type := S -> completion A * S.

Definition mret {S A} (a : A) : method S A := fun s => (Ret a, s).
Definition mthrow {S A} (message : string) : method S A := fun s => (Throw message, s).
Definition mbind {S A B} (m : method S A) (k : A -> method S B) : method S B :=
  fun s =>
    match m s with
    | (Ret a, s') => k a s'
    | (Throw e, s') => (Throw e, s')
    end.
Definition mread {S} : method S S := fun s => (Ret s, s).
Definition mwrite {S} (f : S -> S) : method S unit := fun s => (Ret tt, f s).
Definition mlift {S A} (c : completion A) : method S A := fun s => (c, s).
Definition mrethrow {S A} (prefix : string) (m : method S A) : method S A :=
  fun s => let (c, s') := m s in (rethrow prefix c, s').

End Js.

Import Js.

Declare Scope js_scope.
Delimit Scope js_scope with js.
Notation "x <- c ;; k" := (Js.bind c (fun x => k))
  (at level 61, c at next level, right associativity) : js_scope.
Local Open Scope js_scope.

Declare Scope method_scope.
Delimit Scope method_scope with method.
Notation "x <- c ;; k" := (Js.mbind c (fun x => k))
  (at level 61, c at next level, right associativity) : method_scope.
Notation "c ;; k" := (Js.mbind c (fun _ => k))
  (at level 61, right associativity) : method_scope.

(* ================================================================== *)
(** ** Node: buffers and SHA-256 *)

Module Node.

(** A [Buffer] (a [Uint8Array]) is its list of bytes. *)
Definition Buffer : Type := list byte.

Definition byte_of_Z (z : Z) : byte := byte_of_ascii (ascii_of_N (Z.to_N (z mod 256))).
Definition Z_of_byte (b : byte) : Z := Z.of_N (Byte.to_N b).
Definition Z_of_ascii (c : ascii) : Z := Z.of_N (N_of_ascii c).
Definition ascii_of_Z (z : Z) : ascii := ascii_of_N (Z.to_N (z mod 256)).

(** [Buffer.from(s, 'utf8')]: a code unit below 128 is one byte, one from
    128 to 255 is two. *)
Fixpoint from_utf8 (s : string) : Buffer :=
  match s with
  | EmptyString => []
  | String c rest =>
      let n := Z_of_ascii c in
      if n <? 128 then byte_of_Z n :: from_utf8 rest
      else byte_of_Z (Z.lor 192 (Z.shiftr n 6))
           :: byte_of_Z (Z.lor 128 (Z.land n 63)) :: from_utf8 rest
  end.


(** *** base64 *)

Definition base64_alphabet : string :=
  "ABCDEFGHIJKLMNOPQRSTUVWXYZabcdefghijklmnopqrstuvwxyz0123456789+/".

Definition base64_char (n : Z) : ascii :=
  match String.get (Z.to_nat n) base64_alphabet with
  | Some c => c
  | None => "="%char
  end.

(** The 6-bit value of a base64 or base64url character. *)
Definition unbase64 (c : ascii) : option Z :=
  let n := Z_of_ascii c in
  if (65 <=? n) && (n <=? 90) then Some (n - 65)
  else if (97 <=? n) && (n <=? 122) then Some (n - 71)
  else if (48 <=? n) && (n <=? 57) then Some (n + 4)
  else if (n =? 43) || (n =? 45) then Some 62
  else if (n =? 47) || (n =? 95) then Some 63
  else None.

(** The sextets of a base64 string: characters outside the alphabet are
    skipped and the first [=] ends the data. *)
Fixpoint sextets (s : string) : list Z :=
  match s with
  | EmptyString => []
  | String c rest =>
      if Ascii.eqb c "="%char then []
      else match unbase64 c with
           | Some v => v :: sextets rest
           | None => sextets rest
           end
  end.

Fixpoint bytes_of_sextets (l : list Z) : Buffer :=
  match l with
  | a :: b :: c :: d :: rest =>
      byte_of_Z (Z.lor (Z.shiftl a 2) (Z.shiftr b 4))
      :: byte_of_Z (Z.lor (Z.shiftl (Z.land b 15) 4) (Z.shiftr c 2))
      :: byte_of_Z (Z.lor (Z.shiftl (Z.land c 3) 6) d)
      :: bytes_of_sextets rest
  | [a; b; c] =>
      [byte_of_Z (Z.lor (Z.shiftl a 2) (Z.shiftr b 4));
       byte_of_Z (Z.lor (Z.shiftl (Z.land b 15) 4) (Z.shiftr c 2))]
  | [a; b] => [byte_of_Z (Z.lor (Z.shiftl a 2) (Z.shiftr b 4))]
  | _ => []
  end.

(** [Buffer.from(s, 'base64')]: lenient, it never throws on a string. *)
Definition from_base64 (s : string) : Buffer := bytes_of_sextets (sextets s).

(** [buf.toString('base64')] *)
Fixpoint to_base64 (b : Buffer) : string :=
  match b with
  | x :: y :: z :: rest =>
      let x := Z_of_byte x in let y := Z_of_byte y in let z := Z_of_byte z in
      String (base64_char (Z.shiftr x 2))
        (String (base64_char (Z.lor (Z.shiftl (Z.land x 3) 4) (Z.shiftr y 4)))
           (String (base64_char (Z.lor (Z.shiftl (Z.land y 15) 2) (Z.shiftr z 6)))
              (String (base64_char (Z.land z 63)) (to_base64 rest))))
  | [x; y] =>
      let x := Z_of_byte x in let y := Z_of_byte y in
      String (base64_char (Z.shiftr x 2))
        (String (base64_char (Z.lor (Z.shiftl (Z.land x 3) 4) (Z.shiftr y 4)))
           (String (base64_char (Z.shiftl (Z.land y 15) 2)) "="))
  | [x] =>
      let x := Z_of_byte x in
      String (base64_char (Z.shiftr x 2))
        (String (base64_char (Z.shiftl (Z.land x 3) 4)) "==")
  | [] => ""
  end.

(** *** hex *)

Definition hex_digit (n : Z) : ascii :=
  match String.get (Z.to_nat n) "0123456789abcdef" with
  | Some c => c
  | None => "0"%char
  end.

(** The [n] low-order hexadecimal digits of [x], most significant first. *)
Fixpoint hex_digits (n : nat) (x : Z) : string :=
  match n with
  | O => ""
  | S m => hex_digits m (Z.shiftr x 4) ++ String (hex_digit (Z.land x 15)) ""
  end.

(** *** SHA-2 (FIPS 180-4), on words held in [Z] *)

Section Sha2.
(** The word size, the rotation amounts of the four mixing functions, the
    round constants and the initial state. *)
Variable wbits : Z.
Variables (S0 S1 s0 s1 : Z * Z * Z).
Variables (K H : list Z).

Definition wmod (x : Z) : Z := x mod 2 ^ wbits.
Definition addw (x y : Z) : Z := wmod (x + y).
Definition rotr (n x : Z) : Z :=
  Z.lor (Z.shiftr x n) (wmod (Z.shiftl x (wbits - n))).
Definition notw (x : Z) : Z := Z.lxor x (2 ^ wbits - 1).
Definition Ch (x y z : Z) : Z := Z.lxor (Z.land x y) (Z.land (notw x) z).
Definition Maj (x y z : Z) : Z :=
  Z.lxor (Z.lxor (Z.land x y) (Z.land x z)) (Z.land y z).
Definition Sigma (r : Z * Z * Z) (x : Z) : Z :=
  let '(a, b, c) := r in Z.lxor (Z.lxor (rotr a x) (rotr b x)) (rotr c x).
Definition sigma (r : Z * Z * Z) (x : Z) : Z :=
  let '(a, b, c) := r in Z.lxor (Z.lxor (rotr a x) (rotr b x)) (Z.shiftr x c).

Definition wbytes : Z := wbits / 8.

(** The [n] low-order bytes of [x], most significant first. *)
Definition be_bytes (n : nat) (x : Z) : list Z :=
  map (fun i => Z.land (Z.shiftr x (8 * (Z.of_nat n - 1 - Z.of_nat i))) 255) (seq 0 n).

Fixpoint be_value (acc : Z) (bs : list Z) : Z :=
  match bs with
  | [] => acc
  | b :: rest => be_value (Z.lor (Z.shiftl acc 8) b) rest
  end.

(** The message, the bit 1, zeros, and the length in bits on two words:
    a whole number of 16-word blocks. *)
Definition pad (msg : list Z) : list Z :=
  let len := Z.of_nat (List.length msg) in
  let block := 16 * wbytes in
  let zeros := Z.to_nat ((block - 1 - 2 * wbytes - len) mod block) in
  (msg ++ [128] ++ repeat 0 zeros ++ be_bytes (Z.to_nat (2 * wbytes)) (8 * len))%list.

Fixpoint words (fuel : nat) (bs : list Z) : list Z :=
  match fuel, bs with
  | S fuel', _ :: _ =>
      be_value 0 (firstn (Z.to_nat wbytes) bs)
      :: words fuel' (skipn (Z.to_nat wbytes) bs)
  | _, _ => []
  end.

(** The message schedule, newest word first: [n] more words after [w]. *)
Fixpoint schedule (n : nat) (w : list Z) : list Z :=
  match n with
  | O => w
  | S m =>
      let wt := addw (addw (sigma s1 (nth 1 w 0)) (nth 6 w 0))
                     (addw (sigma s0 (nth 14 w 0)) (nth 15 w 0)) in
      schedule m (wt :: w)
  end.

Definition round (st : list Z) (kw : Z * Z) : list Z :=
  match st with
  | [a; b; c; d; e; f; g; h] =>
      let t1 := addw (addw (addw h (Sigma S1 e)) (addw (Ch e f g) (fst kw))) (snd kw) in
      let t2 := addw (Sigma S0 a) (Maj a b c) in
      [addw t1 t2; a; b; c; addw d t1; e; f; g]
  | _ => st
  end.

Definition compress (h : list Z) (block : list Z) : list Z :=
  let w := List.rev (schedule (List.length K - 16) (List.rev block)) in
  let st := fold_left round (combine K w) h in
  map (fun p => addw (fst p) (snd p)) (combine h st).

Fixpoint blocks (fuel : nat) (h : list Z) (ws : list Z) : list Z :=
  match fuel, ws with
  | S fuel', _ :: _ => blocks fuel' (compress h (firstn 16 ws)) (skipn 16 ws)
  | _, _ => h
  end.

(** The digest, as words. *)
Definition sha2 (msg : list Z) : list Z :=
  let p := pad msg in
  let ws := words (List.length p) p in
  blocks (List.length ws) H ws.

End Sha2.

(** The round constants are the leading fractional bits of the cube roots
    of the first primes, the initial states those of their square roots. *)
Definition is_prime (n : Z) : bool :=
  (2 <=? n) && forallb (fun d => negb (n mod Z.of_nat d =? 0)) (seq 2 (Z.to_nat n - 2)).

Definition primes (count : nat) : list Z :=
  firstn count (filter is_prime (map Z.of_nat (seq 2 420))).

(** The integer cube root of [n], below [2 ^ bits]. *)
Definition cbrt (bits : nat) (n : Z) : Z :=
  fold_left (fun r b => let r' := r + 2 ^ Z.of_nat b in if r' * r' * r' <=? n then r' else r)
            (List.rev (seq 0 bits)) 0.

Definition cbrt_fraction (w : Z) (p : Z) : Z :=
  cbrt (Z.to_nat w + 4) (p * 2 ^ (3 * w)) mod 2 ^ w.

Definition sqrt_fraction (w : Z) (p : Z) : Z :=
  Z.sqrt (p * 2 ^ (2 * w)) mod 2 ^ w.

Definition K256 : list Z := Eval vm_compute in map (cbrt_fraction 32) (primes 64).
Definition H256 : list Z := Eval vm_compute in map (sqrt_fraction 32) (primes 8).
Definition K512 : list Z := Eval vm_compute in map (cbrt_fraction 64) (primes 80).
Definition H512 : list Z := Eval vm_compute in map (sqrt_fraction 64) (primes 8).

Definition sha256_words : list Z -> list Z :=
  sha2 32 (2, 13, 22) (6, 11, 25) (7, 18, 3) (17, 19, 10) K256 H256.

Definition sha512_words : list Z -> list Z :=
  sha2 64 (28, 34, 39) (14, 18, 41) (1, 8, 7) (19, 61, 6) K512 H512.

(** SHA-512 of a byte list, as bytes. *)
Definition sha512 (msg : list Z) : list Z :=
  flat_map (be_bytes 8) (sha512_words msg).

(** [crypto.createHash('sha256').update(s).digest('hex')] *)
Definition sha256_hex (s : string) : string :=
  String.concat "" (map (hex_digits 8) (sha256_words (map Z_of_byte (from_utf8 s)))).

(** *** Buffer.from on a value that need not be a string

    [Buffer.from(v, 'base64')] decodes a string.  What Node does with
    another value (a TypeError for [undefined], [null], a boolean or a
    number, a byte copy for an array) is left to the platform. *)
Class BufferFrom : Type := {
  from_value : value -> completion Buffer;
  from_value_string : forall s, from_value (Str s) = Ret (from_base64 s)
}.

End Node.

(* ================================================================== *)
(** ** JSON *)

Module JSON.

Definition dquote : ascii := "034"%char.
Definition backslash : ascii := "092"%char.

(** QuoteJSONString, one code unit at a time. *)
Definition escape_char (c : ascii) : string :=
  let n := Node.Z_of_ascii c in
  if n =? 34 then String backslash (String dquote "")
  else if n =? 92 then String backslash (String backslash "")
  else if n =? 8 then String backslash "b"
  else if n =? 12 then String backslash "f"
  else if n =? 10 then String backslash "n"
  else if n =? 13 then String backslash "r"
  else if n =? 9 then String backslash "t"
  else if n <? 32 then String backslash ("u" ++ Node.hex_digits 4 n)
  else String c "".

Fixpoint escape (s : string) : string :=
  match s with
  | EmptyString => ""
  | String c rest => escape_char c ++ escape rest
  end.

Definition quote (s : string) : string :=
  String dquote (escape s ++ String dquote "").

(** Number::toString for an integer. *)
Definition number_to_string (n : Z) : string :=
  DecimalString.NilZero.string_of_int (Z.to_int n).

(** [JSON.stringify(v)]; [None] is the result [undefined].  A property whose
    value is [undefined] is left out of an object, an [undefined] item of
    an array is written [null]. *)
Fixpoint stringify (v : value) : option string :=
  match v with
  | Undefined => None
  | Null => Some "null"
  | Bool true => Some "true"
  | Bool false => Some "false"
  | Num n => Some (number_to_string n)
  | Str s => Some (quote s)
  | Arr items =>
      Some ("[" ++ String.concat ","
              (map (fun x => match stringify x with
                             | Some s => s
                             | None => "null"
                             end) items) ++ "]")
  | Obj props =>
      Some ("{" ++ String.concat ","
              ((fix members (ps : list (string * value)) : list string :=
                  match ps with
                  | [] => []
                  | (k, x) :: rest =>
                      match stringify x with
                      | Some s => (quote k ++ ":" ++ s) :: members rest
                      | None => members rest
                      end
                  end) props) ++ "}")
  end.

(** *** JSON.parse

    The grammar of ECMA-404 with integer number tokens; [\u] escapes above
    code unit 255 are outside the strings modelled here. *)

Definition is_ws (c : ascii) : bool :=
  let n := Node.Z_of_ascii c in (n =? 32) || (n =? 9) || (n =? 10) || (n =? 13).

Fixpoint skip_ws (s : string) : string :=
  match s with
  | String c rest => if is_ws c then skip_ws rest else s
  | EmptyString => s
  end.

Definition hex_value (c : ascii) : option Z :=
  let n := Node.Z_of_ascii c in
  if (48 <=? n) && (n <=? 57) then Some (n - 48)
  else if (97 <=? n) && (n <=? 102) then Some (n - 87)
  else if (65 <=? n) && (n <=? 70) then Some (n - 55)
  else None.

Definition hex4 (a b c d : ascii) : option Z :=
  match hex_value a, hex_value b, hex_value c, hex_value d with
  | Some x, Some y, Some z, Some w => Some (((x * 16 + y) * 16 + z) * 16 + w)
  | _, _, _, _ => None
  end.

(** The character a one-letter escape stands for. *)
Definition unescape (e : ascii) : option ascii :=
  let n := Node.Z_of_ascii e in
  if n =? 34 then Some dquote
  else if n =? 92 then Some backslash
  else if n =? 47 then Some "/"%char
  else if n =? 98 then Some "008"%char
  else if n =? 102 then Some "012"%char
  else if n =? 110 then Some "010"%char
  else if n =? 114 then Some "013"%char
  else if n =? 116 then Some "009"%char
  else None.

Definition prepend {A} (c : ascii) (r : option (string * A)) : option (string * A) :=
  match r with
  | Some (s, rest) => Some (String c s, rest)
  | None => None
  end.

(** The characters of a string literal after its opening quote, and what
    follows the closing quote. *)
Fixpoint parse_chars (s : string) : option (string * string) :=
  match s with
  | EmptyString => None
  | String c rest =>
      if Ascii.eqb c dquote then Some ("", rest)
      else if Ascii.eqb c backslash then
        match rest with
        | String e rest' =>
            if Ascii.eqb e "u"%char then
              match rest' with
              | String h1 (String h2 (String h3 (String h4 rest''))) =>
                  match hex4 h1 h2 h3 h4 with
                  | Some n =>
                      if n <? 256 then prepend (Node.ascii_of_Z n) (parse_chars rest'')
                      else None
                  | None => None
                  end
              | _ => None
              end
            else
              match unescape e with
              | Some c' => prepend c' (parse_chars rest')
              | None => None
              end
        | EmptyString => None
        end
      else if Node.Z_of_ascii c <? 32 then None
      else prepend c (parse_chars rest)
  end.

Definition digit_of (c : ascii) : option (Decimal.uint -> Decimal.uint) :=
  let n := Node.Z_of_ascii c in
  if n =? 48 then Some Decimal.D0 else if n =? 49 then Some Decimal.D1
  else if n =? 50 then Some Decimal.D2 else if n =? 51 then Some Decimal.D3
  else if n =? 52 then Some Decimal.D4 else if n =? 53 then Some Decimal.D5
  else if n =? 54 then Some Decimal.D6 else if n =? 55 then Some Decimal.D7
  else if n =? 56 then Some Decimal.D8 else if n =? 57 then Some Decimal.D9
  else None.

(** The longest run of digits at the head of [s], and what follows it. *)
Fixpoint parse_digits (s : string) : Decimal.uint * string :=
  match s with
  | EmptyString => (Decimal.Nil, s)
  | String c rest =>
      match digit_of c with
      | Some d => let (ds, rest') := parse_digits rest in (d ds, rest')
      | None => (Decimal.Nil, s)
      end
  end.

Definition starts_fraction (s : string) : bool :=
  match s with
  | String c _ =>
      let n := Node.Z_of_ascii c in (n =? 46) || (n =? 101) || (n =? 69)
  | EmptyString => false
  end.

(** An integer token: digits without a leading zero, no fraction or
    exponent after them. *)
Definition parse_unsigned (s : string) : option (Z * string) :=
  let (ds, rest) := parse_digits s in
  match ds with
  | Decimal.Nil => None
  | Decimal.D0 (Decimal.Nil) =>
      if starts_fraction rest then None else Some (0, rest)
  | Decimal.D0 _ => None
  | _ => if starts_fraction rest then None else Some (Z.of_uint ds, rest)
  end.

Definition parse_number (s : string) : option (Z * string) :=
  match s with
  | String c rest =>
      if Ascii.eqb c "-"%char then
        match parse_unsigned rest with
        | Some (n, rest') => Some (- n, rest')
        | None => None
        end
      else parse_unsigned s
  | EmptyString => None
  end.

(** [s] without the prefix [p], when it has it. *)
Fixpoint strip (p s : string) : option string :=
  match p, s with
  | EmptyString, _ => Some s
  | String a p', String b s' => if Ascii.eqb a b then strip p' s' else None
  | String _ _, EmptyString => None
  end.

Section Sequences.
(** The parser of one value, for the items of arrays and objects. *)
Variable parse_item : string -> option (value * string).

(** The items of an array after its first bracket, to the closing one. *)
Fixpoint parse_items (fuel : nat) (s : string) : option (list value * string) :=
  match fuel with
  | O => None
  | S fuel' =>
      match parse_item s with
      | None => None
      | Some (v, rest) =>
          match skip_ws rest with
          | String c rest' =>
              if Ascii.eqb c ","%char then
                match parse_items fuel' rest' with
                | Some (vs, rest'') => Some (v :: vs, rest'')
                | None => None
                end
              else if Ascii.eqb c "]"%char then Some ([v], rest')
              else None
          | EmptyString => None
          end
      end
  end.

(** The members of an object after its brace, to the closing one. *)
Fixpoint parse_members (fuel : nat) (s : string)
  : option (list (string * value) * string) :=
  match fuel with
  | O => None
  | S fuel' =>
      match skip_ws s with
      | String q s1 =>
          if Ascii.eqb q dquote then
            match parse_chars s1 with
            | None => None
            | Some (k, s2) =>
                match skip_ws s2 with
                | String colon s3 =>
                    if Ascii.eqb colon ":"%char then
                      match parse_item s3 with
                      | None => None
                      | Some (v, s4) =>
                          match skip_ws s4 with
                          | String c s5 =>
                              if Ascii.eqb c ","%char then
                                match parse_members fuel' s5 with
                                | Some (kvs, s6) => Some ((k, v) :: kvs, s6)
                                | None => None
                                end
                              else if Ascii.eqb c "}"%char then Some ([(k, v)], s5)
                              else None
                          | EmptyString => None
                          end
                      end
                    else None
                | EmptyString => None
                end
            end
          else None
      | EmptyString => None
      end
  end.
End Sequences.

Fixpoint parse_value (fuel : nat) (s : string) : option (value * string) :=
  match fuel with
  | O => None
  | S fuel' =>
      match skip_ws s with
      | EmptyString => None
      | String c rest as s' =>
          if Ascii.eqb c dquote then
            match parse_chars rest with
            | Some (str, rest') => Some (Str str, rest')
            | None => None
            end
          else if Ascii.eqb c "["%char then
            match skip_ws rest with
            | String c' rest' =>
                if Ascii.eqb c' "]"%char then Some (Arr [], rest')
                else match parse_items (parse_value fuel') fuel' rest with
                     | Some (items, rest'') => Some (Arr items, rest'')
                     | None => None
                     end
            | EmptyString => None
            end
          else if Ascii.eqb c "{"%char then
            match skip_ws rest with
            | String c' rest' =>
                if Ascii.eqb c' "}"%char then Some (Obj [], rest')
                else match parse_members (parse_value fuel') fuel' rest with
                     | Some (props, rest'') => Some (Obj props, rest'')
                     | None => None
                     end
            | EmptyString => None
            end
          else
            match strip "true" s', strip "false" s', strip "null" s' with
            | Some rest', _, _ => Some (Bool true, rest')
            | _, Some rest', _ => Some (Bool false, rest')
            | _, _, Some rest' => Some (Null, rest')
            | None, None, None =>
                match parse_number s' with
                | Some (n, rest') => Some (Num n, rest')
                | None => None
                end
            end
      end
  end.

(** [JSON.parse(text)]: one value, then nothing but white space. *)
Definition parse (text : string) : completion value :=
  match parse_value (S (String.length text)) text with
  | Some (v, rest) =>
      match skip_ws rest with
      | EmptyString => Ret v
      | String _ _ => Throw "Unexpected non-whitespace character after JSON"
      end
  | None => Throw "Unexpected token in JSON"
  end.

(** The text of an array item and the texts of the members of an object,
    as [stringify] writes them. *)
Definition stringify_item (x : value) : string :=
  match stringify x with
  | Some s => s
  | None => "null"
  end.

Fixpoint stringify_members (ps : list (string * value)) : list string :=
  match ps with
  | [] => []
  | (k, x) :: rest =>
      match stringify x with
      | Some s => (quote k ++ ":" ++ s) :: stringify_members rest
      | None => stringify_members rest
      end
  end.

(** What [JSON.parse(JSON.stringify(v))] reads back from [v]: the members
    that were [undefined] are gone and the [undefined] items are [null]. *)
Fixpoint readback (v : value) : value :=
  match v with
  | Arr items =>
      Arr (map (fun x => match x with
                         | Undefined => Null
                         | _ => readback x
                         end) items)
  | Obj props =>
      Obj ((fix members (ps : list (string * value)) : list (string * value) :=
              match ps with
              | [] => []
              | (k, x) :: rest =>
                  match x with
                  | Undefined => members rest
                  | _ => (k, readback x) :: members rest
                  end
              end) props)
  | _ => v
  end.

Definition readback_item (x : value) : value :=
  match x with
  | Undefined => Null
  | _ => readback x
  end.

Fixpoint readback_members (ps : list (string * value)) : list (string * value) :=
  match ps with
  | [] => []
  | (k, x) :: rest =>
      match x with
      | Undefined => readback_members rest
      | _ => (k, readback x) :: readback_members rest
      end
  end.

End JSON.

(* ================================================================== *)
(** ** Dates *)

Module Date.

(** A [Date] is its time value, the milliseconds since the epoch. *)
Definition t : Type := Z.

Definition digits (width : nat) (n : Z) : string :=
  let s := JSON.number_to_string n in
  String.concat "" (repeat "0" (width - String.length s)) ++ s.

(** [d.toISOString()], for the years 0000 to 9999. *)
Definition toISOString (d : t) : string :=
  let days := d / 86400000 in
  let ms := d mod 86400000 in
  let z := days + 719468 in
  let era := z / 146097 in
  let doe := z - era * 146097 in
  let yoe := (doe - doe / 1460 + doe / 36524 - doe / 146096) / 365 in
  let doy := doe - (365 * yoe + yoe / 4 - yoe / 100) in
  let mp := (5 * doy + 2) / 153 in
  let day := doy - (153 * mp + 2) / 5 + 1 in
  let month := if mp <? 10 then mp + 3 else mp - 9 in
  let year := yoe + era * 400 + (if month <=? 2 then 1 else 0) in
  digits 4 year ++ "-" ++ digits 2 month ++ "-" ++ digits 2 day ++ "T"
    ++ digits 2 (ms / 3600000) ++ ":" ++ digits 2 (ms / 60000 mod 60) ++ ":"
    ++ digits 2 (ms / 1000 mod 60) ++ "." ++ digits 3 (ms mod 1000) ++ "Z".

End Date.

(* ================================================================== *)
(** ** Numbers *)

Module Number.

(** A number is an IEEE 754 double; an integer below [2^53] is one
    exactly. *)
Definition t : Type := SpecFloat.spec_float.

Definition of_Z (n : Z) : t := SpecFloat.binary_normalize 53 1024 n 0 false.
Definition div : t -> t -> t := SpecFloat.SFdiv 53 1024.
Definition mul : t -> t -> t := SpecFloat.SFmul 53 1024.

(** What [Math.round] gives: an integer (the sign of a zero is dropped),
    [NaN], or an infinity. *)
Inductive rounded : Type :=
| Integer (n : Z)
| NaN
| Infinity (negative : bool).

(** [Math.round(x)]: the integer nearest to [x], a tie going up. *)
Definition round (x : t) : rounded :=
  match x with
  | SpecFloat.S754_zero _ => Integer 0
  | SpecFloat.S754_infinity s => Infinity s
  | SpecFloat.S754_nan => NaN
  | SpecFloat.S754_finite s m e =>
      let n := if s then Z.neg m else Z.pos m in
      if 0 <=? e then Integer (n * 2 ^ e)
      else Integer ((2 * n + 2 ^ (- e)) / 2 ^ (1 - e))
  end.

End Number.

(* ================================================================== *)
(** ** tweetnacl *)

Module Nacl.

Import Node.

(** The Ed25519 primitives below the size checks of the [nacl.sign]
    wrappers: [crypto_sign m sk] is the signed message (the 64-byte
    signature followed by [m]), [crypto_sign_open sm pk] is the message of
    a signed message that verifies under [pk]. *)
Class Ed25519 : Type := {
  crypto_sign : Buffer -> Buffer -> Buffer;
  crypto_sign_open : Buffer -> Buffer -> option Buffer
}.

Definition crypto_sign_BYTES : nat := 64.
Definition crypto_sign_PUBLICKEYBYTES : nat := 32.
Definition crypto_sign_SECRETKEYBYTES : nat := 64.

Section Wrappers.
Context {core : Ed25519}.

(** [nacl.sign.detached(msg, secretKey)] *)
Definition sign_detached (msg secretKey : Buffer) : completion Buffer :=
  if negb (List.length secretKey =? crypto_sign_SECRETKEYBYTES)%nat
  then Throw "bad secret key size"
  else Ret (firstn crypto_sign_BYTES (crypto_sign msg secretKey)).

(** [nacl.sign.detached.verify(msg, sig, publicKey)] *)
Definition sign_detached_verify (msg sig publicKey : Buffer) : completion bool :=
  if negb (List.length sig =? crypto_sign_BYTES)%nat
  then Throw "bad signature size"
  else if negb (List.length publicKey =? crypto_sign_PUBLICKEYBYTES)%nat
  then Throw "bad public key size"
  else Ret (match crypto_sign_open (sig ++ msg)%list publicKey with
            | Some _ => true
            | None => false
            end).

(** [nacl.sign.keyPair.fromSecretKey(secretKey).publicKey]: the second
    half of the secret key. *)
Definition keyPair_fromSecretKey_publicKey (secretKey : Buffer) : completion Buffer :=
  if negb (List.length secretKey =? crypto_sign_SECRETKEYBYTES)%nat
  then Throw "bad secret key size"
  else Ret (firstn crypto_sign_PUBLICKEYBYTES (skipn 32 secretKey)).

End Wrappers.

(** *** The Ed25519 core of tweetnacl, on integers

    Field elements are integers modulo [2^255 - 19], points are in extended
    coordinates with the library's addition formula, and the checks are the
    library's: no canonicity test on the encoded point or on the scalar
    half of a signature. *)

Module Ed25519Z.

Definition p : Z := 2 ^ 255 - 19.
Definition L : Z := 2 ^ 252 + 27742317777372353535851937790883648493.
Definition D : Z := 0x52036cee2b6ffe738cc740797779e89800700a4d4141d8ab75eb4dca135978a3.
Definition D2 : Z := 0x2406d9dc56dffce7198e80f2eef3d13000e0149a8283b156ebd69b9426b2f159.
Definition I : Z := 0x2b8324804fc1df0b2b4d00993dfbd7a72f431806ad2fe478c4ee1b274a0ea0b0.
Definition X : Z := 0x216936d3cd6e53fec0a4e231fdd6dc5c692cc7609525a7b2c9562d608f25d51a.
Definition Y : Z := 0x6666666666666666666666666666666666666666666666666666666666666658.

(** Reduction modulo [p] of a value below [2^512]. *)
Definition fred (x : Z) : Z :=
  let y := Z.land x (2 ^ 255 - 1) + 19 * Z.shiftr x 255 in
  let z := Z.land y (2 ^ 255 - 1) + 19 * Z.shiftr y 255 in
  if z >=? p then z - p else z.
Definition fmul (a b : Z) : Z := fred (a * b).
Definition fadd (a b : Z) : Z := fred (a + b).
Definition fsub (a b : Z) : Z := fred (a + 2 * p - b).

Fixpoint fpow_pos (a : Z) (e : positive) : Z :=
  match e with
  | xH => a
  | xO e' => let r := fpow_pos a e' in fmul r r
  | xI e' => let r := fpow_pos a e' in fmul (fmul r r) a
  end.
Definition fpow (a e : Z) : Z :=
  match e with
  | Zpos q => fpow_pos a q
  | _ => 1
  end.
(** [inv25519] and [pow2523] *)
Definition finv (a : Z) : Z := fpow a (p - 2).
Definition pow2523 (a : Z) : Z := fpow a ((p - 5) / 8).

Definition point : Type := (Z * Z * Z * Z)%type.

(** [add(p, q)] *)
Definition add (P Q : point) : point :=
  let '(x1, y1, z1, t1) := P in
  let '(x2, y2, z2, t2) := Q in
  let a := fmul (fsub y1 x1) (fsub y2 x2) in
  let b := fmul (fadd x1 y1) (fadd x2 y2) in
  let c := fmul (fmul t1 t2) D2 in
  let d := let zz := fmul z1 z2 in fadd zz zz in
  let e := fsub b a in
  let f := fsub d c in
  let g := fadd d c in
  let h := fadd b a in
  (fmul e f, fmul h g, fmul g f, fmul e h).

Definition zero : point := (0, 1, 1, 0).
Definition base : point := (X, Y, 1, fmul X Y).

Fixpoint scalarmult_pos (s : positive) (Q : point) : point :=
  match s with
  | xH => Q
  | xO s' => let r := scalarmult_pos s' Q in add r r
  | xI s' => let r := scalarmult_pos s' Q in add (add r r) Q
  end.
(** [scalarmult(p, q, s)]: the multiple [s.q], which the library reaches
    by a ladder with the same addition. *)
Definition scalarmult (s : Z) (Q : point) : point :=
  match s with
  | Zpos q => scalarmult_pos q Q
  | _ => zero
  end.
Definition scalarbase (s : Z) : point := scalarmult s base.

Fixpoint le_value (bs : list Z) : Z :=
  match bs with
  | [] => 0
  | b :: rest => b + 256 * le_value rest
  end.
Definition le_bytes (n : nat) (x : Z) : list Z :=
  map (fun i => Z.land (Z.shiftr x (8 * Z.of_nat i)) 255) (seq 0 n).

(** [pack(r, p)]: the affine [y] with the parity of [x] in the top bit. *)
Definition pack (P : point) : list Z :=
  let '(x, y, z, _) := P in
  let zi := finv z in
  let tx := fmul x zi in
  let ty := fmul y zi in
  le_bytes 32 (ty + Z.shiftl (Z.land tx 1) 255).

(** [unpackneg(r, p)]: the opposite of the point that [pk] encodes,
    [None] when no point has that [y]. *)
Definition unpackneg (pk : list Z) : option point :=
  let v := le_value pk in
  let y := fred (Z.land v (2 ^ 255 - 1)) in
  let sign := Z.shiftr v 255 in
  let y2 := fmul y y in
  let num := fsub y2 1 in
  let den := fadd 1 (fmul D y2) in
  let den2 := fmul den den in
  let den4 := fmul den2 den2 in
  let den6 := fmul den4 den2 in
  let t := fmul (fmul den6 num) den in
  let t := pow2523 t in
  let x := fmul (fmul (fmul (fmul t num) den) den) den in
  let x := if fmul (fmul x x) den =? num then x else fmul x I in
  if negb (fmul (fmul x x) den =? num) then None
  else
    let x := if Z.land x 1 =? sign then fsub 0 x else x in
    Some (x, y, 1, fmul x y).

(** The secret scalar of a hashed seed: [d[0] &= 248; d[31] &= 127;
    d[31] |= 64]. *)
Definition clamp (d : list Z) : Z :=
  let a := le_value (firstn 32 d) in
  Z.lor (Z.land a (2 ^ 254 - 8)) (2 ^ 254).

(** [crypto_sign(sm, m, n, sk)] *)
Definition sign (m sk : list Z) : list Z :=
  let d := Node.sha512 (firstn 32 sk) in
  let a := clamp d in
  let r := le_value (Node.sha512 (skipn 32 d ++ m)) mod L in
  let R := pack (scalarbase r) in
  let h := le_value (Node.sha512 (R ++ skipn 32 sk ++ m)) mod L in
  let S := (r + h * a) mod L in
  (R ++ le_bytes 32 S ++ m)%list.

Definition bytes_eqb (a b : list Z) : bool :=
  (List.length a =? List.length b)%nat
  && forallb (fun xy => fst xy =? snd xy) (combine a b).

(** The part of [crypto_sign_open] after [unpackneg]. *)
Definition open_with (sm pk : list Z) (q : option point) : option (list Z) :=
  match q with
  | None => None
  | Some q =>
      let m := skipn 64 sm in
      let h := le_value (Node.sha512 (firstn 32 sm ++ pk ++ m)) mod L in
      let P := add (scalarmult h q)
                   (scalarbase (le_value (firstn 32 (skipn 32 sm)))) in
      if bytes_eqb (firstn 32 sm) (pack P) then Some m else None
  end.

(** [crypto_sign_open(m, sm, n, pk)] *)
Definition open (sm pk : list Z) : option (list Z) :=
  if (List.length sm <? 64)%nat then None
  else open_with sm pk (unpackneg pk).

(** The public key of a 32-byte seed, as [crypto_sign_keypair] derives it. *)
Definition publicKey (seed : list Z) : list Z :=
  pack (scalarbase (clamp (Node.sha512 seed))).

End Ed25519Z.

#[export] Instance tweetnacl : Ed25519 := {
  crypto_sign m sk :=
    map byte_of_Z (Ed25519Z.sign (map Z_of_byte m) (map Z_of_byte sk));
  crypto_sign_open sm pk :=
    option_map (map byte_of_Z)
      (Ed25519Z.open (map Z_of_byte sm) (map Z_of_byte pk))
}.

(** [nacl.sign.keyPair()], as the pair of the public and the secret key:
    [seed] is the 32 bytes drawn from [randombytes], and the secret key is
    the seed followed by the public key. *)
Definition sign_keyPair (seed : Buffer) : Buffer * Buffer :=
  let publicKey := map byte_of_Z (Ed25519Z.publicKey (map Z_of_byte seed)) in
  (publicKey, (seed ++ publicKey)%list).

End Nacl.

(* ================================================================== *)
(** ** services/eddsaService.js *)

Module EdDSAService.

Import Node.

Module SignatureData.
Record t : Type := {
  signature : string;
  message : string;
  algorithm : string;
  timestamp : string;
  messageHash : string
}.
End SignatureData.

(** [hashDocument(content)]; [content] is [None] when the caller hands over
    [undefined], which [hash.update] refuses. *)
Definition hashDocument (content : option string) : completion string :=
  rethrow "Failed to hash document: "
    match content with
    | Some s => Ret (sha256_hex s)
    | None =>
        Throw ("The " ++ String JSON.dquote ("data" ++ String JSON.dquote
                 " argument must be of type string or an instance of Buffer, TypedArray, or DataView. Received undefined"))
    end.

(** [JSON.stringify(document.content || document)], hashed: the expression
    shared by [signDocument], [verifyDocumentSignature],
    [initializeMultiSigSession] and [verifyMultiSignature]. *)
Definition hashOfDocument (document : value) : completion string :=
  content <- Js.get document "content" ;;
  hashDocument (JSON.stringify (Js.or content document)).

Section WithCore.
Context {core : Nacl.Ed25519}.

Definition sign (message privateKey : string) (now : Date.t)
  : completion SignatureData.t :=
  rethrow "Failed to create signature: "
    (let messageBytes := from_utf8 message in
     let privateKeyBytes := from_base64 privateKey in
     signature <- Nacl.sign_detached messageBytes privateKeyBytes ;;
     messageHash <- hashDocument (Some message) ;;
     Ret {| SignatureData.signature := to_base64 signature;
            SignatureData.message := message;
            SignatureData.algorithm := "Ed25519";
            SignatureData.timestamp := Date.toISOString now;
            SignatureData.messageHash := messageHash |}).

Definition verify (signature message publicKey : string) : completion bool :=
  rethrow "Failed to verify signature: "
    (let signatureBytes := from_base64 signature in
     let messageBytes := from_utf8 message in
     let publicKeyBytes := from_base64 publicKey in
     Nacl.sign_detached_verify messageBytes signatureBytes publicKeyBytes).

Definition getPublicKeyFromPrivate (privateKey : string) : completion string :=
  rethrow "Failed to extract public key: "
    (let privateKeyBytes := from_base64 privateKey in
     publicKey <- Nacl.keyPair_fromSecretKey_publicKey privateKeyBytes ;;
     Ret (to_base64 publicKey)).

(** [signDocument(document, privateKey, signerInfo)]; [uuid] is the
    identifier [crypto.randomUUID()] would give. *)
Definition signDocument (document : value) (privateKey : string)
    (signerInfo : list (string * value)) (now : Date.t) (uuid : string)
  : completion value :=
  rethrow "Failed to sign document: "
    (documentHash <- hashOfDocument document ;;
     signatureData <- sign documentHash privateKey now ;;
     id <- Js.get document "id" ;;
     publicKey <- getPublicKeyFromPrivate privateKey ;;
     Ret (Obj [("documentId", Js.or id (Str uuid));
               ("documentHash", Str documentHash);
               ("signature", Str (SignatureData.signature signatureData));
               ("signer", Obj (Js.set "publicKey" (Str publicKey) signerInfo));
               ("metadata", Obj [("algorithm", Str "Ed25519");
                                 ("signedAt", Str (Date.toISOString now));
                                 ("version", Str "1.0")]);
               ("verification", Obj [("verified", Bool false);
                                     ("verifiedAt", Null)])])).

Definition testMessage : string := "test-message-for-validation".

(** [validateKeyPair]: its [catch] returns [false]. *)
Definition validateKeyPair (publicKey privateKey : string) (now : Date.t)
  : completion bool :=
  match (signature <- sign testMessage privateKey now ;;
         verify (SignatureData.signature signature) testMessage publicKey) with
  | Ret b => Ret b
  | Throw _ => Ret false
  end.

End WithCore.

(** [generateKeyPair()]; [seed] is the randomness [nacl.sign.keyPair]
    draws. *)
Definition generateKeyPair (seed : Buffer) (now : Date.t) : completion value :=
  rethrow "Failed to generate key pair: "
    (let keyPair := Nacl.sign_keyPair seed in
     Ret (Obj [("publicKey", Str (to_base64 (fst keyPair)));
               ("privateKey", Str (to_base64 (snd keyPair)));
               ("keyType", Str "ed25519");
               ("generated", Str (Date.toISOString now))])).

(** [config.EDDSA_CONFIG.PUBLIC_KEY_LENGTH] *)
Definition PUBLIC_KEY_LENGTH : Z := 32.

(** The own properties that [{...v}] copies from an object. *)
Definition spread (v : value) : list (string * value) :=
  match v with
  | Obj props => props
  | _ => []
  end.

(** [generateSignerKeyPair(role, name, email)]; the clock readings of the
    call are one instant [now], and [uuid] is the signer's fresh [id]. *)
Definition generateSignerKeyPair (role name email : value) (seed : Buffer)
    (now : Date.t) (uuid : string) : completion value :=
  rethrow "Failed to generate signer key pair: "
    (keyPair <- generateKeyPair seed now ;;
     Ret (Obj (Js.set "metadata"
                 (Obj [("algorithm", Str "Ed25519");
                       ("keyLength", Num PUBLIC_KEY_LENGTH);
                       ("created", Str (Date.toISOString now));
                       ("status", Str "active")])
                 (Js.set "signer"
                    (Obj [("role", role); ("name", name); ("email", email);
                          ("id", Str uuid)])
                    (spread keyPair))))).

Section WithBuffers.
Context {core : Nacl.Ed25519} {buffers : BufferFrom}.

(** [verify(signature, message, publicKey)] on members of a signature
    object, which need not be strings. *)
Definition verifyValues (signature : value) (message : string) (publicKey : value)
  : completion bool :=
  rethrow "Failed to verify signature: "
    (signatureBytes <- from_value signature ;;
     let messageBytes := from_utf8 message in
     publicKeyBytes <- from_value publicKey ;;
     Nacl.sign_detached_verify messageBytes signatureBytes publicKeyBytes).

(** [verifyDocumentSignature(signatureObject, document)] *)
Definition verifyDocumentSignature (signatureObject document : value) (now : Date.t)
  : completion value :=
  rethrow "Failed to verify document signature: "
    (documentHash <- hashOfDocument document ;;
     expected <- Js.get signatureObject "documentHash" ;;
     if negb (Js.strict_eq_string documentHash expected)
     then Ret (Obj [("valid", Bool false);
                    ("reason", Str "Document has been modified");
                    ("documentHashMatch", Bool false);
                    ("signatureValid", Bool false)])
     else
       signature <- Js.get signatureObject "signature" ;;
       signer <- Js.get signatureObject "signer" ;;
       publicKey <- Js.get signer "publicKey" ;;
       isSignatureValid <- verifyValues signature documentHash publicKey ;;
       signer <- Js.get signatureObject "signer" ;;
       metadata <- Js.get signatureObject "metadata" ;;
       signedAt <- Js.get metadata "signedAt" ;;
       Ret (Obj [("valid", Bool isSignatureValid);
                 ("reason", Str (if isSignatureValid then "Signature is valid"
                                 else "Invalid signature"));
                 ("documentHashMatch", Bool true);
                 ("signatureValid", Bool isSignatureValid);
                 ("signer", signer);
                 ("signedAt", signedAt);
                 ("verifiedAt", Str (Date.toISOString now))])).

End WithBuffers.

End EdDSAService.

(* ================================================================== *)
(** ** config/config.js *)

Module Config.
Definition MIN_SIGNERS : Z := 2.
Definition MAX_SIGNERS : Z := 5.
Definition DEFAULT_THRESHOLD : Z := 2.
End Config.

(* ================================================================== *)
(** ** services/multiSignatureService.js *)

Module MultiSignatureService.

Import EdDSAService.

(** A signer as the caller lists it. *)
Module SignerSpec.
Record t : Type := {
  role : string;
  name : string;
  email : string;
  required : option bool
}.
End SignerSpec.

Module RequiredSigner.
Record t : Type := {
  role : string;
  name : string;
  email : string;
  required : bool;
  status : string;
  signedAt : option Date.t
}.
End RequiredSigner.

(** [{...signerInfo, role: signerRole, publicKey: publicKey}] *)
Module Signer.
Record t : Type := {
  info : list (string * value);
  role : string;
  publicKey : string
}.
Definition name (s : t) : value := Js.lookup "name" (info s).
End Signer.

Module Signature.
Record t : Type := {
  signatureId : string;
  signature : string;
  signer : Signer.t;
  signedAt : Date.t;
  documentHash : string;
  valid : bool
}.
End Signature.

Module Metadata.
Record t : Type := {
  totalSigners : nat;
  signedCount : nat;
  pendingCount : nat
}.
End Metadata.

(** The session object.  Instants ([createdAt], [expiresAt], ...) are kept
    as time values; the source stores their ISO renderings and reads
    [expiresAt] back with [new Date(...)]. *)
Module Session.
Record t : Type := {
  sessionId : string;
  documentId : value;
  documentHash : string;
  requiredSigners : list RequiredSigner.t;
  threshold : Z;
  signatures : list Signature.t;
  status : string;
  createdAt : Date.t;
  expiresAt : Date.t;
  metadata : Metadata.t;
  completedAt : option Date.t;
  lastUpdated : option Date.t
}.
End Session.

Definition len {A} (l : list A) : Z := Z.of_nat (List.length l).

(** [initializeMultiSigSession(document, requiredSigners, threshold = null)];
    [uuid1] and [uuid2] are the two identifiers drawn in turn. *)
Definition initializeMultiSigSession (document : value)
    (requiredSigners : list SignerSpec.t) (threshold : option Z)
    (now : Date.t) (uuid1 uuid2 : string) : completion Session.t :=
  rethrow "Failed to initialize multi-signature session: "
    (documentHash <- hashOfDocument document ;;
     id <- Js.get document "id" ;;
     Ret {| Session.sessionId := uuid1;
            Session.documentId := Js.or id (Str uuid2);
            Session.documentHash := documentHash;
            Session.requiredSigners :=
              map (fun signer =>
                     {| RequiredSigner.role := SignerSpec.role signer;
                        RequiredSigner.name := SignerSpec.name signer;
                        RequiredSigner.email := SignerSpec.email signer;
                        RequiredSigner.required :=
                          match SignerSpec.required signer with
                          | Some false => false
                          | _ => true
                          end;
                        RequiredSigner.status := "pending";
                        RequiredSigner.signedAt := None |}) requiredSigners;
            Session.threshold :=
              (let default := Z.min Config.DEFAULT_THRESHOLD (len requiredSigners) in
               match threshold with
               | Some t => if t =? 0 then default else t
               | None => default
               end);
            Session.signatures := [];
            Session.status := "pending";
            Session.createdAt := now;
            Session.expiresAt := now + 7 * 24 * 60 * 60 * 1000;
            Session.metadata :=
              {| Metadata.totalSigners := List.length requiredSigners;
                 Metadata.signedCount := 0;
                 Metadata.pendingCount := List.length requiredSigners |};
            Session.completedAt := None;
            Session.lastUpdated := None |}).

(** [requiredSigner.status = 'signed'; requiredSigner.signedAt = ...] on the
    object that [find] returned: the first signer of that role. *)
Fixpoint markSigned (signerRole : string) (at_ : Date.t)
    (l : list RequiredSigner.t) : list RequiredSigner.t :=
  match l with
  | [] => []
  | s :: rest =>
      if String.eqb (RequiredSigner.role s) signerRole
      then {| RequiredSigner.role := RequiredSigner.role s;
              RequiredSigner.name := RequiredSigner.name s;
              RequiredSigner.email := RequiredSigner.email s;
              RequiredSigner.required := RequiredSigner.required s;
              RequiredSigner.status := "signed";
              RequiredSigner.signedAt := Some at_ |} :: rest
      else s :: markSigned signerRole at_ rest
  end.

Module SignatureResult.
Record t : Type := {
  signatureId : string;
  signer : Signer.t;
  valid : bool;
  signedAt : option Date.t;
  reason : string
}.
End SignatureResult.

(** The object [verifyMultiSignature] returns; the fields after
    [signatureResults] are absent from the hash-mismatch result. *)
Module Verification.
Record t : Type := {
  valid : bool;
  reason : string;
  documentHashMatch : bool;
  signatureResults : list SignatureResult.t;
  threshold : option Z;
  totalSignatures : option nat;
  validSignatures : option nat;
  sessionStatus : option string;
  verifiedAt : option Date.t
}.
End Verification.

(** Field writes on the session object. *)
Module Update.

Definition signatures (f : list Signature.t -> list Signature.t)
    (s : Session.t) : Session.t :=
  {| Session.sessionId := Session.sessionId s;
     Session.documentId := Session.documentId s;
     Session.documentHash := Session.documentHash s;
     Session.requiredSigners := Session.requiredSigners s;
     Session.threshold := Session.threshold s;
     Session.signatures := f (Session.signatures s);
     Session.status := Session.status s; Session.createdAt := Session.createdAt s;
     Session.expiresAt := Session.expiresAt s;
     Session.metadata := Session.metadata s;
     Session.completedAt := Session.completedAt s;
     Session.lastUpdated := Session.lastUpdated s |}.

Definition requiredSigners (f : list RequiredSigner.t -> list RequiredSigner.t)
    (s : Session.t) : Session.t :=
  {| Session.sessionId := Session.sessionId s;
     Session.documentId := Session.documentId s;
     Session.documentHash := Session.documentHash s;
     Session.requiredSigners := f (Session.requiredSigners s);
     Session.threshold := Session.threshold s;
     Session.signatures := Session.signatures s;
     Session.status := Session.status s; Session.createdAt := Session.createdAt s;
     Session.expiresAt := Session.expiresAt s;
     Session.metadata := Session.metadata s;
     Session.completedAt := Session.completedAt s;
     Session.lastUpdated := Session.lastUpdated s |}.

Definition metadata (f : Metadata.t -> Metadata.t) (s : Session.t) : Session.t :=
  {| Session.sessionId := Session.sessionId s;
     Session.documentId := Session.documentId s;
     Session.documentHash := Session.documentHash s;
     Session.requiredSigners := Session.requiredSigners s;
     Session.threshold := Session.threshold s;
     Session.signatures := Session.signatures s;
     Session.status := Session.status s; Session.createdAt := Session.createdAt s;
     Session.expiresAt := Session.expiresAt s;
     Session.metadata := f (Session.metadata s);
     Session.completedAt := Session.completedAt s;
     Session.lastUpdated := Session.lastUpdated s |}.

Definition status (v : string) (s : Session.t) : Session.t :=
  {| Session.sessionId := Session.sessionId s;
     Session.documentId := Session.documentId s;
     Session.documentHash := Session.documentHash s;
     Session.requiredSigners := Session.requiredSigners s;
     Session.threshold := Session.threshold s;
     Session.signatures := Session.signatures s; Session.status := v;
     Session.createdAt := Session.createdAt s;
     Session.expiresAt := Session.expiresAt s;
     Session.metadata := Session.metadata s;
     Session.completedAt := Session.completedAt s;
     Session.lastUpdated := Session.lastUpdated s |}.

Definition completedAt (v : Date.t) (s : Session.t) : Session.t :=
  {| Session.sessionId := Session.sessionId s;
     Session.documentId := Session.documentId s;
     Session.documentHash := Session.documentHash s;
     Session.requiredSigners := Session.requiredSigners s;
     Session.threshold := Session.threshold s;
     Session.signatures := Session.signatures s;
     Session.status := Session.status s; Session.createdAt := Session.createdAt s;
     Session.expiresAt := Session.expiresAt s;
     Session.metadata := Session.metadata s; Session.completedAt := Some v;
     Session.lastUpdated := Session.lastUpdated s |}.

Definition lastUpdated (v : Date.t) (s : Session.t) : Session.t :=
  {| Session.sessionId := Session.sessionId s;
     Session.documentId := Session.documentId s;
     Session.documentHash := Session.documentHash s;
     Session.requiredSigners := Session.requiredSigners s;
     Session.threshold := Session.threshold s;
     Session.signatures := Session.signatures s;
     Session.status := Session.status s; Session.createdAt := Session.createdAt s;
     Session.expiresAt := Session.expiresAt s;
     Session.metadata := Session.metadata s;
     Session.completedAt := Session.completedAt s;
     Session.lastUpdated := Some v |}.

Definition signedCount (n : nat) (m : Metadata.t) : Metadata.t :=
  {| Metadata.totalSigners := Metadata.totalSigners m;
     Metadata.signedCount := n;
     Metadata.pendingCount := Metadata.pendingCount m |}.

Definition pendingCount (n : nat) (m : Metadata.t) : Metadata.t :=
  {| Metadata.totalSigners := Metadata.totalSigners m;
     Metadata.signedCount := Metadata.signedCount m;
     Metadata.pendingCount := n |}.

End Update.

Definition isPending (s : RequiredSigner.t) : bool :=
  String.eqb (RequiredSigner.status s) "pending".

(** The session object once a signature by [signerRole] has been accepted:
    what the writes of [addSignature] below add up to. *)
Definition signedSession (session : Session.t) (signerRole signature publicKey : string)
    (signerInfo : list (string * value)) (now : Date.t) (uuid : string) : Session.t :=
  let newSignature :=
    {| Signature.signatureId := uuid;
       Signature.signature := signature;
       Signature.signer :=
         {| Signer.info := signerInfo;
            Signer.role := signerRole;
            Signer.publicKey := publicKey |};
       Signature.signedAt := now;
       Signature.documentHash := Session.documentHash session;
       Signature.valid := true |} in
  let signatures := (Session.signatures session ++ [newSignature])%list in
  let requiredSigners := markSigned signerRole now (Session.requiredSigners session) in
  let thresholdMet := len signatures >=? Session.threshold session in
  {| Session.sessionId := Session.sessionId session;
     Session.documentId := Session.documentId session;
     Session.documentHash := Session.documentHash session;
     Session.requiredSigners := requiredSigners;
     Session.threshold := Session.threshold session;
     Session.signatures := signatures;
     Session.status := if thresholdMet then "completed" else Session.status session;
     Session.createdAt := Session.createdAt session;
     Session.expiresAt := Session.expiresAt session;
     Session.metadata :=
       {| Metadata.totalSigners := Metadata.totalSigners (Session.metadata session);
          Metadata.signedCount := List.length signatures;
          Metadata.pendingCount := List.length (filter isPending requiredSigners) |};
     Session.completedAt := if thresholdMet then Some now else Session.completedAt session;
     Session.lastUpdated := Some now |}.

Section WithCore.
Context {core : Nacl.Ed25519}.

(** [addSignature(session, signerRole, privateKey, signerInfo)], a method
    on the [session] object, which it updates in place and returns.  The
    clock readings of one call are one instant [now]; [uuid] is the fresh
    [signatureId]. *)
Definition addSignature_body (signerRole privateKey : string)
    (signerInfo : list (string * value)) (now : Date.t) (uuid : string)
  : method Session.t Session.t :=
  (session <- mread ;;
   if String.eqb (Session.status session) "completed"
   then mthrow "Multi-signature session is already completed"
   else if now >? Session.expiresAt session
   then mthrow "Multi-signature session has expired"
   else
     match find (fun s => String.eqb (RequiredSigner.role s) signerRole)
                (Session.requiredSigners session) with
     | None =>
         mthrow ("Signer role '" ++ signerRole ++ "' is not required for this document")
     | Some requiredSigner =>
         match find (fun s => String.eqb (Signer.role (Signature.signer s)) signerRole)
                    (Session.signatures session) with
         | Some existingSignature =>
             mthrow ("Signer with role '" ++ signerRole
                       ++ "' has already signed this document")
         | None =>
             signatureData <- mlift (sign (Session.documentHash session) privateKey now) ;;
             publicKey <- mlift (getPublicKeyFromPrivate privateKey) ;;
             isValid <- mlift (verify (SignatureData.signature signatureData)
                                      (Session.documentHash session) publicKey) ;;
             if negb isValid then mthrow "Generated signature is invalid"
             else
               let newSignature :=
                 {| Signature.signatureId := uuid;
                    Signature.signature := SignatureData.signature signatureData;
                    Signature.signer :=
                      {| Signer.info := signerInfo;
                         Signer.role := signerRole;
                         Signer.publicKey := publicKey |};
                    Signature.signedAt := now;
                    Signature.documentHash := Session.documentHash session;
                    Signature.valid := true |} in
               mwrite (Update.signatures (fun l => l ++ [newSignature])%list) ;;
               mwrite (Update.requiredSigners (markSigned signerRole now)) ;;
               session <- mread ;;
               mwrite (Update.metadata
                         (Update.signedCount (List.length (Session.signatures session)))) ;;
               mwrite (Update.metadata
                         (Update.pendingCount
                            (List.length (filter isPending
                                            (Session.requiredSigners session))))) ;;
               (if len (Session.signatures session) >=? Session.threshold session
                then mwrite (Update.status "completed") ;;
                     mwrite (Update.completedAt now)
                else mret tt) ;;
               mwrite (Update.lastUpdated now) ;;
               mread
         end
     end)%method.

(** The completion of the call, and the session object after it. *)
Definition addSignature (session : Session.t) (signerRole privateKey : string)
    (signerInfo : list (string * value)) (now : Date.t) (uuid : string)
  : completion Session.t * Session.t :=
  mrethrow "Failed to add signature: "
    (addSignature_body signerRole privateKey signerInfo now uuid) session.

(** The body of the [for ... of session.signatures] loop: one result per
    stored signature, a verification that throws being caught there. *)
Definition verifyOne (session : Session.t) (signature : Signature.t)
  : SignatureResult.t :=
  match verify (Signature.signature signature) (Session.documentHash session)
               (Signer.publicKey (Signature.signer signature)) with
  | Ret isValid =>
      {| SignatureResult.signatureId := Signature.signatureId signature;
         SignatureResult.signer := Signature.signer signature;
         SignatureResult.valid := isValid;
         SignatureResult.signedAt := Some (Signature.signedAt signature);
         SignatureResult.reason :=
           if isValid then "Valid signature" else "Invalid signature" |}
  | Throw message =>
      {| SignatureResult.signatureId := Signature.signatureId signature;
         SignatureResult.signer := Signature.signer signature;
         SignatureResult.valid := false;
         SignatureResult.signedAt := None;
         SignatureResult.reason := "Verification error: " ++ message |}
  end.

Definition verifyMultiSignature (session : Session.t) (document : value)
    (now : Date.t) : completion Verification.t :=
  rethrow "Failed to verify multi-signature: "
    (documentHash <- hashOfDocument document ;;
     if negb (String.eqb documentHash (Session.documentHash session))
     then Ret {| Verification.valid := false;
                 Verification.reason := "Document has been modified after signing";
                 Verification.documentHashMatch := false;
                 Verification.signatureResults := [];
                 Verification.threshold := None;
                 Verification.totalSignatures := None;
                 Verification.validSignatures := None;
                 Verification.sessionStatus := None;
                 Verification.verifiedAt := None |}
     else
       let results := map (verifyOne session) (Session.signatures session) in
       let validSignatures := List.length (filter SignatureResult.valid results) in
       let isThresholdMet := Z.of_nat validSignatures >=? Session.threshold session in
       let counts :=
         JSON.number_to_string (Z.of_nat validSignatures) ++ "/"
           ++ JSON.number_to_string (Session.threshold session) in
       Ret {| Verification.valid := isThresholdMet;
              Verification.reason :=
                if isThresholdMet
                then "Valid multi-signature with " ++ counts ++ " required signatures"
                else "Insufficient valid signatures: " ++ counts;
              Verification.documentHashMatch := true;
              Verification.signatureResults := results;
              Verification.threshold := Some (Session.threshold session);
              Verification.totalSignatures :=
                Some (List.length (Session.signatures session));
              Verification.validSignatures := Some validSignatures;
              Verification.sessionStatus := Some (Session.status session);
              Verification.verifiedAt := Some now |}).

End WithCore.

(** [createAggregatedSignature(session)], as the object it builds. *)
Definition createAggregatedSignature (session : Session.t) : completion value :=
  rethrow "Failed to create aggregated signature: "
    (if negb (String.eqb (Session.status session) "completed")
     then Throw "Multi-signature session is not completed"
     else
       Ret (Obj
         [("type", Str "multi-signature");
          ("algorithm", Str "EdDSA-Multi");
          ("sessionId", Str (Session.sessionId session));
          ("documentId", Session.documentId session);
          ("documentHash", Str (Session.documentHash session));
          ("threshold", Num (Session.threshold session));
          ("signatures",
            Arr (map (fun sig =>
                        Obj [("signer",
                               Obj [("role", Str (Signer.role (Signature.signer sig)));
                                    ("name", Signer.name (Signature.signer sig));
                                    ("publicKey",
                                      Str (Signer.publicKey (Signature.signer sig)))]);
                             ("signature", Str (Signature.signature sig));
                             ("signedAt", Str (Date.toISOString (Signature.signedAt sig)))])
                     (Session.signatures session)));
          ("metadata",
            Obj [("totalSigners", Num (len (Session.signatures session)));
                 ("completedAt",
                   match Session.completedAt session with
                   | Some d => Str (Date.toISOString d)
                   | None => Undefined
                   end);
                 ("version", Str "1.0")]);
          ("verification", Obj [("verified", Bool false); ("verifiedAt", Null)])])).

(** *** getSigningProgress *)

Module Progress.

Module Counts.
Record t : Type := {
  signed : nat;
  total : nat;
  threshold : Z;
  percentage : Number.rounded
}.
End Counts.

Module Signed.
Record t : Type := { role : string; name : value; signedAt : Date.t }.
End Signed.

Module Pending.
Record t : Type := { role : string; name : string; required : bool }.
End Pending.

Module Signers.
Record t : Type := { signed : list Signed.t; pending : list Pending.t }.
End Signers.

Module TimeInfo.
Record t : Type := {
  createdAt : Date.t;
  expiresAt : Date.t;
  completedAt : option Date.t;
  isExpired : bool
}.
End TimeInfo.

Record t : Type := {
  sessionId : string;
  status : string;
  progress : Counts.t;
  signers : Signers.t;
  timeInfo : TimeInfo.t
}.

End Progress.

(** [Math.round((signed / threshold) * 100)] *)
Definition percentage (signed threshold : Z) : Number.rounded :=
  Number.round
    (Number.mul (Number.div (Number.of_Z signed) (Number.of_Z threshold))
                (Number.of_Z 100)).

(** [getSigningProgress(session)], read at the instant [now]. *)
Definition getSigningProgress (session : Session.t) (now : Date.t) : Progress.t :=
  let signedRoles :=
    map (fun s => Signer.role (Signature.signer s)) (Session.signatures session) in
  let pendingSigners :=
    filter (fun s => negb (existsb (String.eqb (RequiredSigner.role s)) signedRoles))
           (Session.requiredSigners session) in
  {| Progress.sessionId := Session.sessionId session;
     Progress.status := Session.status session;
     Progress.progress :=
       {| Progress.Counts.signed := List.length (Session.signatures session);
          Progress.Counts.total := List.length (Session.requiredSigners session);
          Progress.Counts.threshold := Session.threshold session;
          Progress.Counts.percentage :=
            percentage (len (Session.signatures session)) (Session.threshold session) |};
     Progress.signers :=
       {| Progress.Signers.signed :=
            map (fun s =>
                   {| Progress.Signed.role := Signer.role (Signature.signer s);
                      Progress.Signed.name := Signer.name (Signature.signer s);
                      Progress.Signed.signedAt := Signature.signedAt s |})
                (Session.signatures session);
          Progress.Signers.pending :=
            map (fun s =>
                   {| Progress.Pending.role := RequiredSigner.role s;
                      Progress.Pending.name := RequiredSigner.name s;
                      Progress.Pending.required := RequiredSigner.required s |})
                pendingSigners |};
     Progress.timeInfo :=
       {| Progress.TimeInfo.createdAt := Session.createdAt session;
          Progress.TimeInfo.expiresAt := Session.expiresAt session;
          Progress.TimeInfo.completedAt := Session.completedAt session;
          Progress.TimeInfo.isExpired := now >? Session.expiresAt session |} |}.

(** *** validateMultiSigConfig *)

Module Validation.
Record t : Type := { valid : bool; errors : list string }.
End Validation.

(** [roles.indexOf(role)]; -1 when absent. *)
Fixpoint indexOf (role : string) (roles : list string) : Z :=
  match roles with
  | [] => -1
  | r :: rest =>
      if String.eqb r role then 0
      else let i := indexOf role rest in if i <? 0 then -1 else i + 1
  end.

(** [l.filter((x, index) => p(x, index))], the indices counted from [i]. *)
Fixpoint filter_index {A} (p : A -> Z -> bool) (i : Z) (l : list A) : list A :=
  match l with
  | [] => []
  | x :: rest =>
      if p x i then x :: filter_index p (i + 1) rest else filter_index p (i + 1) rest
  end.

Definition duplicateRoles (roles : list string) : list string :=
  filter_index (fun role index => negb (indexOf role roles =? index)) 0 roles.

Definition err_no_signer : string := "At least one signer is required".
Definition err_max_signers : string :=
  "Maximum " ++ JSON.number_to_string Config.MAX_SIGNERS ++ " signers allowed".
Definition err_min_threshold : string :=
  "Minimum threshold is " ++ JSON.number_to_string Config.MIN_SIGNERS.
Definition err_threshold_exceeds : string := "Threshold cannot exceed number of signers".
Definition err_duplicates (dups : list string) : string :=
  "Duplicate signer roles found: " ++ String.concat ", " dups.

(** [errors.push(message)] under [if (cond)]. *)
Definition push_if (cond : bool) (message : string) (errors : list string) : list string :=
  if cond then (errors ++ [message])%list else errors.

Definition validateMultiSigConfig (signers : list SignerSpec.t) (threshold : Z)
  : Validation.t :=
  let errors := [] in
  let errors := push_if (len signers =? 0) err_no_signer errors in
  let errors := push_if (len signers >? Config.MAX_SIGNERS) err_max_signers errors in
  let errors := push_if (threshold <? Config.MIN_SIGNERS) err_min_threshold errors in
  let errors := push_if (threshold >? len signers) err_threshold_exceeds errors in
  let roles := map SignerSpec.role signers in
  let duplicateRoles := duplicateRoles roles in
  let errors :=
    push_if (len duplicateRoles >? 0) (err_duplicates duplicateRoles) errors in
  {| Validation.valid := (len errors =? 0); Validation.errors := errors |}.

(** [validateMultiSigConfig(signers, threshold)] for a caller that may
    leave the threshold out: a comparison with [undefined] is false. *)
Definition validateMultiSigConfigOpt (signers : list SignerSpec.t)
    (threshold : option Z) : Validation.t :=
  let errors := [] in
  let errors := push_if (len signers =? 0) err_no_signer errors in
  let errors := push_if (len signers >? Config.MAX_SIGNERS) err_max_signers errors in
  let errors :=
    push_if (match threshold with
             | Some t => t <? Config.MIN_SIGNERS
             | None => false
             end) err_min_threshold errors in
  let errors :=
    push_if (match threshold with
             | Some t => t >? len signers
             | None => false
             end) err_threshold_exceeds errors in
  let roles := map SignerSpec.role signers in
  let duplicateRoles := duplicateRoles roles in
  let errors :=
    push_if (len duplicateRoles >? 0) (err_duplicates duplicateRoles) errors in
  {| Validation.valid := (len errors =? 0); Validation.errors := errors |}.

End MultiSignatureService.

(* ================================================================== *)
(** ** services/qrCodeService.js *)

Module QRCodeService.

(** The [qrcode] package: [QRCode.toDataURL(data, options)] gives the image
    as a data URL, or rejects (data too large for a symbol). *)
Class QRCode : Type := {
  toDataURL : string -> completion string
}.

Module Stored.
Record t : Type := {
  data : value;
  createdAt : Date.t;
  expiresAt : Date.t
}.
End Stored.

(** [global.verificationStore]: a [Map] from verification ids; a store not
    yet created reads as the empty one. *)
Definition Store : Type := list (string * Stored.t).

(** [Map.prototype.set] *)
Fixpoint store_set (k : string) (v : Stored.t) (m : Store) : Store :=
  match m with
  | [] => [(k, v)]
  | (k', v') :: rest =>
      if String.eqb k k' then (k', v) :: rest else (k', v') :: store_set k v rest
  end.

Definition _storeVerificationData (verificationId : string) (data : value)
    (now : Date.t) : method Store unit :=
  mwrite (store_set verificationId
            {| Stored.data := data;
               Stored.createdAt := now;
               Stored.expiresAt := now + 30 * 24 * 60 * 60 * 1000 |}).

Module QRResult.
Record t : Type := {
  qrImage : string;
  qrData : string;
  payload : value;
  size : nat;
  compressed : bool
}.
End QRResult.

(** [s.substring(0, n)] *)
Fixpoint substring0 (n : nat) (s : string) : string :=
  match n, s with
  | S n', String c rest => String c (substring0 n' rest)
  | _, _ => ""
  end.

(** [v.substring(0, 16)] on a value: only a string has the method. *)
Definition substring_0_16 (v : value) : completion value :=
  match v with
  | Str s => Ret (Str (substring0 16 s))
  | Undefined => Throw "Cannot read properties of undefined (reading 'substring')"
  | Null => Throw "Cannot read properties of null (reading 'substring')"
  | _ => Throw "signatureData.documentHash.substring is not a function"
  end.

(** [Array.isArray(v) ? v.length : 1] *)
Definition signatureCount (signatures : value) : Z :=
  match signatures with
  | Arr items => Z.of_nat (List.length items)
  | _ => 1
  end.

(** What [JSON.stringify] gives for the objects built below, which are
    never [undefined]. *)
Definition stringify_object (v : value) : string :=
  match JSON.stringify v with
  | Some s => s
  | None => ""
  end.

Definition verificationPayload (signatureData documentMetadata : value)
    (now : Date.t) : completion value :=
  id <- Js.get documentMetadata "id" ;;
  documentHash <- Js.get signatureData "documentHash" ;;
  type <- Js.get signatureData "type" ;;
  title <- Js.get documentMetadata "title" ;;
  mtype <- Js.get documentMetadata "type" ;;
  issuer <- Js.get documentMetadata "issuer" ;;
  recipient <- Js.get documentMetadata "recipient" ;;
  issueDate <- Js.get documentMetadata "issueDate" ;;
  algorithm <- Js.get signatureData "algorithm" ;;
  signatures <- Js.get signatureData "signatures" ;;
  signature <- Js.get signatureData "signature" ;;
  signers <- Js.get signatureData "signers" ;;
  signer <- Js.get signatureData "signer" ;;
  Ret (Obj
    [("type", Str "document_verification");
     ("version", Str "1.0");
     ("documentId", id);
     ("documentHash", documentHash);
     ("signatureType", Js.or type (Str "single"));
     ("timestamp", Str (Date.toISOString now));
     ("metadata",
       Obj [("title", title); ("type", mtype); ("issuer", issuer);
            ("recipient", recipient); ("issueDate", issueDate)]);
     ("signature",
       Obj [("algorithm", algorithm);
            ("data", Js.or signatures signature);
            ("signers",
              Js.or signers
                (Arr [Obj [("role", Js.get_opt signer "role");
                           ("name", Js.get_opt signer "name");
                           ("publicKey", Js.get_opt signer "publicKey")]]))])]).

Section WithQRCode.
Context {qrcode : QRCode}.

(** [generateDocumentQR(signatureData, documentMetadata)], a method on
    the global store; [uuid] is the fresh [verificationId]. *)
Definition generateDocumentQR (signatureData documentMetadata : value)
    (now : Date.t) (uuid : string) : method Store QRResult.t :=
  mrethrow "Failed to generate QR code: "
    (verificationPayload <- mlift (verificationPayload signatureData documentMetadata now) ;;
     let payloadString := stringify_object verificationPayload in
     qrData <-
       (if (2000 <? String.length payloadString)%nat
        then
          let verificationId := uuid in
          documentId <- mlift (Js.get documentMetadata "id") ;;
          documentHash <- mlift (Js.get signatureData "documentHash") ;;
          prefix <- mlift (substring_0_16 documentHash) ;;
          signatures <- mlift (Js.get signatureData "signatures") ;;
          let qrData :=
            stringify_object
              (Obj [("type", Str "verification_url");
                    ("verificationId", Str verificationId);
                    ("url", Str ("/api/verification/" ++ verificationId));
                    ("documentId", documentId);
                    ("quickVerify",
                      Obj [("documentHash", prefix);
                           ("signatureCount", Num (signatureCount signatures))])]) in
          _storeVerificationData verificationId verificationPayload now ;;
          mret qrData
        else mret payloadString) ;;
     qrImage <- mlift (toDataURL qrData) ;;
     mret {| QRResult.qrImage := qrImage;
             QRResult.qrData := qrData;
             QRResult.payload := verificationPayload;
             QRResult.size := String.length payloadString;
             QRResult.compressed := (2000 <? String.length payloadString)%nat |})%method.

(** [generateMultiSigQR(multiSigSession, documentMetadata)] *)
Definition generateMultiSigQR (multiSigSession : MultiSignatureService.Session.t)
    (documentMetadata : value) (now : Date.t) (uuid : string)
  : method Store QRResult.t :=
  mrethrow "Failed to generate multi-signature QR code: "
    (let aggregatedSignature :=
       Obj [("type", Str "multi-signature");
            ("sessionId", Str (MultiSignatureService.Session.sessionId multiSigSession));
            ("documentId", MultiSignatureService.Session.documentId multiSigSession);
            ("documentHash",
              Str (MultiSignatureService.Session.documentHash multiSigSession));
            ("threshold", Num (MultiSignatureService.Session.threshold multiSigSession));
            ("signatures",
              Arr (map (fun sig =>
                          let signer := MultiSignatureService.Signature.signer sig in
                          Obj [("signer",
                                 Obj [("role", Str (MultiSignatureService.Signer.role signer));
                                      ("name", MultiSignatureService.Signer.name signer);
                                      ("publicKey",
                                        Str (MultiSignatureService.Signer.publicKey signer))]);
                               ("signature",
                                 Str (MultiSignatureService.Signature.signature sig));
                               ("signedAt",
                                 Str (Date.toISOString
                                        (MultiSignatureService.Signature.signedAt sig)))])
                       (MultiSignatureService.Session.signatures multiSigSession)))] in
     generateDocumentQR aggregatedSignature documentMetadata now uuid).

End WithQRCode.

(** [parseQRData(qrData)] *)
Definition parseQRData (qrData : string) : completion value :=
  rethrow "Failed to parse QR data: "
    (parsedData <- JSON.parse qrData ;;
     type <- Js.get parsedData "type" ;;
     match type with
     | Str "verification_url" =>
         verificationId <- Js.get parsedData "verificationId" ;;
         url <- Js.get parsedData "url" ;;
         documentId <- Js.get parsedData "documentId" ;;
         quickVerify <- Js.get parsedData "quickVerify" ;;
         Ret (Obj [("type", Str "url_verification");
                   ("verificationId", verificationId);
                   ("url", url);
                   ("documentId", documentId);
                   ("quickVerify", quickVerify)])
     | Str "document_verification" =>
         Ret (Obj [("type", Str "embedded_verification");
                   ("payload", parsedData)])
     | _ => Throw "Unknown QR code format"
     end).

(** *** The signing request and the verification report *)

(** [QRCode.toDataURL(data, options)] with the options handed over. *)
Class QRCodeWith : Type := {
  toDataURLWith : string -> value -> completion string
}.

(** ToString, as a template literal applies it to a value. *)
Fixpoint toString (v : value) : string :=
  match v with
  | Undefined => "undefined"
  | Null => "null"
  | Bool true => "true"
  | Bool false => "false"
  | Num n => JSON.number_to_string n
  | Str s => s
  | Arr items =>
      String.concat ","
        (map (fun x => match x with
                       | Undefined | Null => ""
                       | _ => toString x
                       end) items)
  | Obj _ => "[object Object]"
  end.

Module SigningQR.
Record t : Type := { qrImage : string; qrData : string; signingUrl : string }.
End SigningQR.

Module ReportQR.
Record t : Type := { qrImage : string; qrData : string; reportUrl : string }.
End ReportQR.

(** [config.QR_CONFIG] *)
Definition ERROR_CORRECTION_LEVEL : string := "M".
Definition WIDTH : Z := 256.

Section WithOptions.
Context {qrcodeWith : QRCodeWith}.

(** [generateSigningQR(sessionId, signerRole)] *)
Definition generateSigningQR (sessionId signerRole : string) (now : Date.t)
  : completion SigningQR.t :=
  rethrow "Failed to generate signing QR code: "
    (let url := "/api/signatures/sign/" ++ sessionId ++ "/" ++ signerRole in
     let signingData :=
       Obj [("type", Str "signing_request");
            ("sessionId", Str sessionId);
            ("signerRole", Str signerRole);
            ("url", Str url);
            ("timestamp", Str (Date.toISOString now))] in
     qrImage <- toDataURLWith (stringify_object signingData)
                  (Obj [("errorCorrectionLevel", Str ERROR_CORRECTION_LEVEL);
                        ("width", Num WIDTH);
                        ("color", Obj [("dark", Str "#2563eb");
                                       ("light", Str "#ffffff")])]) ;;
     Ret {| SigningQR.qrImage := qrImage;
            SigningQR.qrData := stringify_object signingData;
            SigningQR.signingUrl := url |}).

(** [generateVerificationReportQR(verificationResult)] *)
Definition generateVerificationReportQR (verificationResult : value) (now : Date.t)
  : completion ReportQR.t :=
  rethrow "Failed to generate verification report QR: "
    (documentId <- Js.get verificationResult "documentId" ;;
     valid <- Js.get verificationResult "valid" ;;
     signatureType <- Js.get verificationResult "signatureType" ;;
     signerCount <- Js.get verificationResult "signerCount" ;;
     algorithm <- Js.get verificationResult "algorithm" ;;
     verificationId <- Js.get verificationResult "verificationId" ;;
     let reportUrl := "/api/verification/report/" ++ toString verificationId in
     let reportData :=
       Obj [("type", Str "verification_report");
            ("documentId", documentId);
            ("valid", valid);
            ("verifiedAt", Str (Date.toISOString now));
            ("summary",
              Obj [("signatureType", signatureType);
                   ("signerCount", Js.or signerCount (Num 1));
                   ("algorithm", algorithm)]);
            ("reportUrl", Str reportUrl)] in
     qrImage <- toDataURLWith (stringify_object reportData)
                  (Obj [("errorCorrectionLevel", Str ERROR_CORRECTION_LEVEL);
                        ("width", Num WIDTH);
                        ("color",
                          Obj [("dark", Str (if Js.truthy valid then "#059669"
                                             else "#dc2626"));
                               ("light", Str "#ffffff")])]) ;;
     Ret {| ReportQR.qrImage := qrImage;
            ReportQR.qrData := stringify_object reportData;
            ReportQR.reportUrl := reportUrl |}).

End WithOptions.

(** *** validateQRData *)

Module QRValidation.
Record t : Type := { valid : bool; errors : list string; type : value }.
End QRValidation.

(** The loop [for (const field of requiredFields)] with its
    [if (!parsed[field]) errors.push(...)]. *)
Fixpoint requireFields (requiredFields : list string) (parsed : value)
    (errors : list string) : completion (list string) :=
  match requiredFields with
  | [] => Ret errors
  | field :: rest =>
      member <- Js.get parsed field ;;
      requireFields rest parsed
        (MultiSignatureService.push_if (negb (Js.truthy member))
           ("Missing required field: " ++ field) errors)
  end.

(** [validateQRData(qrData)]: its [catch] returns the invalid result. *)
Definition validateQRData (qrData : string) : QRValidation.t :=
  match (parsed <- JSON.parse qrData ;;
         let errors := [] in
         type <- Js.get parsed "type" ;;
         errors <-
           (if Js.strict_eq_string "document_verification" type
            then
              errors <- requireFields ["documentId"; "documentHash"; "signature"]
                          parsed errors ;;
              signature <- Js.get parsed "signature" ;;
              if Js.truthy signature
              then
                algorithm <- Js.get signature "algorithm" ;;
                Ret (MultiSignatureService.push_if (negb (Js.truthy algorithm))
                       "Missing signature algorithm" errors)
              else Ret errors
            else Ret errors) ;;
         type <- Js.get parsed "type" ;;
         errors <-
           (if Js.strict_eq_string "verification_url" type
            then requireFields ["verificationId"; "url"; "documentId"] parsed errors
            else Ret errors) ;;
         type <- Js.get parsed "type" ;;
         Ret {| QRValidation.valid := (MultiSignatureService.len errors =? 0);
                QRValidation.errors := errors;
                QRValidation.type := type |}) with
  | Ret result => result
  | Throw message =>
      {| QRValidation.valid := false;
         QRValidation.errors := ["Invalid JSON format: " ++ message];
         QRValidation.type := Str "unknown" |}
  end.

(** *** The verification store, read *)

(** [Map.prototype.get] and [Map.prototype.delete] *)
Fixpoint store_get (k : string) (m : Store) : option Stored.t :=
  match m with
  | [] => None
  | (k', v) :: rest => if String.eqb k k' then Some v else store_get k rest
  end.

Definition store_delete (k : string) (m : Store) : Store :=
  filter (fun entry => negb (String.eqb k (fst entry))) m.

(** [getStoredVerificationData(verificationId)], a method on the global
    store, at the instant [now]. *)
Definition getStoredVerificationData (verificationId : string) (now : Date.t)
  : method Store value :=
  (store <- mread ;;
   match store_get verificationId store with
   | None => mret Null
   | Some stored =>
       if now >? Stored.expiresAt stored
       then mwrite (store_delete verificationId) ;; mret Null
       else mret (Stored.data stored)
   end)%method.

(** The two forms of QR text, and how each side names them: the type tag
    the text carries, and the type [parseQRData] gives its result. *)
Inductive variant : Type := embedded | reference.

Definition variant_of_data (qrData : string) : option variant :=
  match JSON.parse qrData with
  | Ret data =>
      match Js.get_opt data "type" with
      | Str "verification_url" => Some reference
      | Str "document_verification" => Some embedded
      | _ => None
      end
  | Throw _ => None
  end.


End QRCodeService.

(* ================================================================== *)
(** ** A signing scenario

    The key pair of the first test of RFC 8032 signs a document for three
    required signers under threshold 2. *)

Module Scenario.

Import MultiSignatureService.

Definition privateKey : string :=
  "nWGxne/9WmC6hEr0kuwsxERJxWl7MmkZcDusAxyuf2DXWpgBgrEKt9VL/tPJZAc6DuFy89qmIyWvAhpo9wdRGg==".
Definition publicKey : string := "11qYAYKxCrfVS/7TyWQHOg7hcvPapiMlrwIaaPcHURo=".

Definition document : value :=
  Obj [("id", Str "doc-1");
       ("title", Str "Ijazah");
       ("content", Str "Ijazah Sarjana Informatika");
       ("metadata", Obj [])].

Definition documentHash : string :=
  "40d6578e9d1e605259743a715346850a00ca9a6deaeca6c84c26a3fa010c765f".

Definition signature : string :=
  "jnWnwkwY9jYfINxG6OSXSk5T2M9aCGtc7vx8GNY8JbHCBrJCAUgeQTEPyA3d6p95TGcUnYnUGJZFnyl8XU1+Aw==".

Definition signer (role name : string) : SignerSpec.t :=
  {| SignerSpec.role := role;
     SignerSpec.name := name;
     SignerSpec.email := role ++ "@unismuh.ac.id";
     SignerSpec.required := None |}.

Definition signers : list SignerSpec.t :=
  [signer "dosen" "Dr. Andi"; signer "kaprodi" "Dr. Budi"; signer "dekan" "Prof. Citra"].

Definition created : Date.t := 1793553495123.

Definition pending (role name : string) : RequiredSigner.t :=
  {| RequiredSigner.role := role;
     RequiredSigner.name := name;
     RequiredSigner.email := role ++ "@unismuh.ac.id";
     RequiredSigner.required := true;
     RequiredSigner.status := "pending";
     RequiredSigner.signedAt := None |}.

(** The session [initializeMultiSigSession] opens. *)
Definition session0 : Session.t :=
  {| Session.sessionId := "session-1";
     Session.documentId := Str "doc-1";
     Session.documentHash := documentHash;
     Session.requiredSigners :=
       [pending "dosen" "Dr. Andi"; pending "kaprodi" "Dr. Budi";
        pending "dekan" "Prof. Citra"];
     Session.threshold := 2;
     Session.signatures := [];
     Session.status := "pending";
     Session.createdAt := created;
     Session.expiresAt := created + 604800000;
     Session.metadata :=
       {| Metadata.totalSigners := 3;
          Metadata.signedCount := 0;
          Metadata.pendingCount := 3 |};
     Session.completedAt := None;
     Session.lastUpdated := None |}.

Definition info (name : string) : list (string * value) := [("name", Str name)].

(** After the lecturer signed, one hour in; after the head of programme
    signed, two hours in. *)
Definition session1 : Session.t :=
  signedSession session0 "dosen" signature publicKey (info "Dr. Andi")
    (created + 3600000) "signature-1".
Definition session2 : Session.t :=
  signedSession session1 "kaprodi" signature publicKey (info "Dr. Budi")
    (created + 7200000) "signature-2".

(** One transcript record under two key orders: the same keys and values,
    at the top level and inside [content]. *)
Definition transcriptA : value :=
  Obj [("id", Str "doc-2");
       ("title", Str "Transkrip Nilai");
       ("content", Obj [("nama", Str "Ahmad Fauzi Saifuddin");
                        ("nim", Str "105841102021")]);
       ("metadata", Obj [])].

(** The opened session with a status the service never writes. *)
Definition cancelled0 : Session.t := Update.status "cancelled" session0.

(** A board of five signers with long names, all of whom must sign. *)
Definition board : list (string * string) :=
  [("dosen", "Prof. Dr. Ir. H. Andi Muhammad Syafri Karim, S.T., M.T., IPM.");
   ("kaprodi", "Dr. Hj. Budiarti Rahmawati Lukman, S.Kom., M.Kom., MTA.");
   ("dekan", "Prof. Dr. Ir. Citra Dewi Anggraeni Yusuf, S.T., M.Eng., Ph.D.");
   ("rektor", "Prof. Dr. H. Darmawan Eka Putra Salim, S.E., M.M., M.Si.");
   ("admin", "Hj. Erniwati Fitriani Nur Hidayah Mansyur, S.Sos., M.A.P.")].

Definition boardSession0 : Session.t :=
  {| Session.sessionId := "session-3";
     Session.documentId := Str "doc-1";
     Session.documentHash := documentHash;
     Session.requiredSigners := map (fun rn => pending (fst rn) (snd rn)) board;
     Session.threshold := 5;
     Session.signatures := [];
     Session.status := "pending";
     Session.createdAt := created;
     Session.expiresAt := created + 604800000;
     Session.metadata :=
       {| Metadata.totalSigners := 5;
          Metadata.signedCount := 0;
          Metadata.pendingCount := 5 |};
     Session.completedAt := None;
     Session.lastUpdated := None |}.

(** The board session after each member signed, one minute apart. *)
Definition boardSession : Session.t :=
  fold_left
    (fun s (rn : string * string) =>
       signedSession s (fst rn) signature publicKey (info (snd rn))
         (created + 60000 * (1 + len (Session.signatures s)))
         ("signature-" ++ fst rn))
    board boardSession0.

Definition diploma (title : string) : value :=
  Obj [("id", Str "doc-1");
       ("title", Str title);
       ("type", Str "ijazah");
       ("issuer", Str "Universitas Muhammadiyah Makassar");
       ("recipient", Str "Ahmad Fauzi Saifuddin");
       ("issueDate", Str "2026-11-01T17:18:15.123Z")].

(** The aggregated signatures of the two completed sessions. *)
Definition aggregate (session : Session.t) : value :=
  match createAggregatedSignature session with
  | Ret v => v
  | Throw _ => Undefined
  end.


Definition longTitle : string :=
  "Ijazah Sarjana Komputer Program Studi Informatika Fakultas Teknik Universitas Muhammadiyah Makassar".

(** A renderer that takes every text; the image itself is not modelled. *)
Definition renderer : QRCodeService.QRCode :=
  {| QRCodeService.toDataURL := fun _ => Ret "data:image/png;base64,iVBORw0KGgo=" |}.


(** The result of an encoding that returned. *)
Definition returned (c : completion QRCodeService.QRResult.t * QRCodeService.Store)
  : QRCodeService.QRResult.t :=
  match fst c with
  | Ret r => r
  | Throw m =>
      {| QRCodeService.QRResult.qrImage := "";
         QRCodeService.QRResult.qrData := m;
         QRCodeService.QRResult.payload := Undefined;
         QRCodeService.QRResult.size := 0;
         QRCodeService.QRResult.compressed := false |}
  end.

(** The QR code of the two-signature session, of the board's session, and
    of the two-signature session under the accented title. *)
Definition smallQR : QRCodeService.QRResult.t :=
  returned (QRCodeService.generateDocumentQR (qrcode := renderer)
              (aggregate session2) (diploma "Ijazah") (created + 9000000)
              "verification-1" []).
Definition boardQR : QRCodeService.QRResult.t :=
  returned (QRCodeService.generateDocumentQR (qrcode := renderer)
              (aggregate boardSession) (diploma longTitle) (created + 9000000)
              "verification-2" []).

(** *** More of the scenario *)

(** A platform that makes buffers of strings alone. *)
Definition buffers : Node.BufferFrom :=
  {| Node.from_value := fun v =>
       match v with
       | Str s => Ret (Node.from_base64 s)
       | _ => Throw "The first argument must be of type string"
       end;
     Node.from_value_string := fun s => eq_refl |}.

(** The seed of the scenario's key pair: the first half of the secret key. *)
Definition seed : Node.Buffer := firstn 32 (Node.from_base64 privateKey).

(** A private key that decodes to six bytes. *)
Definition shortKey : string := "c2VjcmV0".

(** The scenario's document under another title. *)
Definition retitled : value :=
  Obj [("id", Str "doc-1");
       ("title", Str "Ijazah Magister");
       ("content", Str "Ijazah Sarjana Informatika");
       ("metadata", Obj [])].

(** A signature object as a verification route puts it together from a
    scanned payload: it has no [metadata]. *)
Definition scanned : value :=
  Obj [("documentId", Str "doc-1");
       ("documentHash", Str documentHash);
       ("signature", Str signature);
       ("signer", Obj [("role", Str "dosen");
                       ("name", Str "Dr. Andi");
                       ("publicKey", Str publicKey)])].

(** The session that [initializeMultiSigSession] opens for no signer. *)
Definition vacant : Session.t :=
  {| Session.sessionId := "session-4";
     Session.documentId := Str "doc-1";
     Session.documentHash := documentHash;
     Session.requiredSigners := [];
     Session.threshold := 0;
     Session.signatures := [];
     Session.status := "pending";
     Session.createdAt := created;
     Session.expiresAt := created + 604800000;
     Session.metadata :=
       {| Metadata.totalSigners := 0;
          Metadata.signedCount := 0;
          Metadata.pendingCount := 0 |};
     Session.completedAt := None;
     Session.lastUpdated := None |}.

(** A renderer that takes every text under every option, and one that
    finds every text too large. *)
Definition rendererWith : QRCodeService.QRCodeWith :=
  {| QRCodeService.toDataURLWith := fun _ _ => Ret "data:image/png;base64,iVBORw0KGgo=" |}.

Definition overflowing : QRCodeService.QRCode :=
  {| QRCodeService.toDataURL :=
       fun _ => Throw "The amount of data is too big to be stored in a QR Code" |}.

(** The QR code [generateMultiSigQR] makes of the session after its first
    signature. *)
Definition multisigQR : QRCodeService.QRResult.t :=
  returned (QRCodeService.generateMultiSigQR (qrcode := renderer)
              session1 (diploma "Ijazah") (created + 9000000) "verification-4" []).

(** The signing request for the dean, and the report of a verification. *)
Definition signingQR : QRCodeService.SigningQR.t :=
  match QRCodeService.generateSigningQR (qrcodeWith := rendererWith)
          "session-1" "dekan" (created + 3600000) with
  | Ret q => q
  | Throw m =>
      {| QRCodeService.SigningQR.qrImage := "";
         QRCodeService.SigningQR.qrData := m;
         QRCodeService.SigningQR.signingUrl := "" |}
  end.

Definition verificationResult : value :=
  Obj [("documentId", Str "doc-1");
       ("valid", Bool true);
       ("signatureType", Str "multi-signature");
       ("signerCount", Num 0);
       ("algorithm", Str "EdDSA-Multi");
       ("verificationId", Str "verification-2")].

Definition reportQR : QRCodeService.ReportQR.t :=
  match QRCodeService.generateVerificationReportQR (qrcodeWith := rendererWith)
          verificationResult (created + 9000000) with
  | Ret q => q
  | Throw m =>
      {| QRCodeService.ReportQR.qrImage := "";
         QRCodeService.ReportQR.qrData := m;
         QRCodeService.ReportQR.reportUrl := "" |}
  end.

End Scenario.

(* ================================================================== *)
(** * Properties *)

Import EdDSAService MultiSignatureService.

(** ** The platform models on known values *)

Example sha256_abc :
  Node.sha256_hex "abc"
  = "ba7816bf8f01cfea414140de5dae2223b00361a396177a9cb410ff61f20015ad".
Proof. vm_compute. reflexivity. Qed.

Example sha512_abc_head :
  firstn 8 (Node.sha512 (map Node.Z_of_byte (Node.from_utf8 "abc")))
  = [0xdd; 0xaf; 0x35; 0xa1; 0x93; 0x61; 0x7a; 0xba].
Proof. vm_compute. reflexivity. Qed.

Example base64_hello :
  Node.to_base64 (Node.from_utf8 "Hello, World!") = "SGVsbG8sIFdvcmxkIQ=="
  /\ Node.from_base64 "SGVsbG8sIFdvcmxkIQ==" = Node.from_utf8 "Hello, World!".
Proof. vm_compute. split; reflexivity. Qed.

Example toISOString_leap_day :
  Date.toISOString 951782400000 = "2000-02-29T00:00:00.000Z".
Proof. vm_compute. reflexivity. Qed.

Example curve_constants :
  Nacl.Ed25519Z.fmul Nacl.Ed25519Z.D 121666 = Nacl.Ed25519Z.fsub 0 121665
  /\ Nacl.Ed25519Z.fmul Nacl.Ed25519Z.I Nacl.Ed25519Z.I
     = Nacl.Ed25519Z.fsub 0 1
  /\ Nacl.Ed25519Z.fmul Nacl.Ed25519Z.Y 5 = 4
  /\ Nacl.Ed25519Z.fsub (Nacl.Ed25519Z.fmul Nacl.Ed25519Z.Y Nacl.Ed25519Z.Y)
       (Nacl.Ed25519Z.fmul Nacl.Ed25519Z.X Nacl.Ed25519Z.X)
     = Nacl.Ed25519Z.fadd 1
         (Nacl.Ed25519Z.fmul Nacl.Ed25519Z.D
            (Nacl.Ed25519Z.fmul (Nacl.Ed25519Z.fmul Nacl.Ed25519Z.X Nacl.Ed25519Z.X)
               (Nacl.Ed25519Z.fmul Nacl.Ed25519Z.Y Nacl.Ed25519Z.Y))).
Proof. vm_compute. repeat split. Qed.

(** The key pair of the first test of RFC 8032, from its seed. *)
Example keyPair_of_seed :
  Nacl.sign_keyPair Scenario.seed
  = (Node.from_base64 Scenario.publicKey, Node.from_base64 Scenario.privateKey).
Proof. vm_compute. reflexivity. Qed.

Example percentage_rounds_half_up :
  percentage 1 3 = Number.Integer 33
  /\ percentage 2 3 = Number.Integer 67
  /\ percentage 1 8 = Number.Integer 13
  /\ percentage 0 0 = Number.NaN
  /\ percentage 1 0 = Number.Infinity false.
Proof. vm_compute. repeat split. Qed.

(** ** JSON.parse after JSON.stringify *)

Section JSONFacts.
Import JSON.

Lemma append_assoc (a b c : string) : (a ++ b) ++ c = a ++ (b ++ c).
Proof. induction a as [| x a IH]; cbn [append]; [reflexivity | rewrite IH; reflexivity]. Qed.

Lemma append_nil_r (a : string) : a ++ "" = a.
Proof. induction a as [| x a IH]; cbn [append]; [reflexivity | rewrite IH; reflexivity]. Qed.

Lemma length_append (a b : string) :
  String.length (a ++ b) = (String.length a + String.length b)%nat.
Proof. induction a as [| x a IH]; cbn [append String.length]; [reflexivity | rewrite IH; reflexivity]. Qed.

Lemma value_induction (P : value -> Prop)
    (HU : P Undefined) (HN : P Null) (HB : forall b, P (Bool b))
    (HZ : forall n, P (Num n)) (HS : forall s, P (Str s))
    (HA : forall items, Forall P items -> P (Arr items))
    (HO : forall props, Forall (fun kv => P (snd kv)) props -> P (Obj props)) :
  forall v, P v.
Proof.
  fix IH 1.
  intros [| | b | n | s | items | props];
    [exact HU | exact HN | apply HB | apply HZ | apply HS | |].
  - apply HA. revert items. fix IHl 1.
    intros [| x rest]; constructor; [apply IH | apply IHl].
  - apply HO. revert props. fix IHl 1.
    intros [| [k x] rest]; constructor; [apply IH | apply IHl].
Qed.

Lemma stringify_Arr items :
  stringify (Arr items)
  = Some ("[" ++ String.concat "," (map stringify_item items) ++ "]").
Proof. reflexivity. Qed.

Lemma stringify_Obj props :
  stringify (Obj props)
  = Some ("{" ++ String.concat "," (stringify_members props) ++ "}").
Proof. reflexivity. Qed.

Lemma readback_Arr items : readback (Arr items) = Arr (map readback_item items).
Proof. reflexivity. Qed.

Lemma readback_Obj props : readback (Obj props) = Obj (readback_members props).
Proof. reflexivity. Qed.

Lemma parse_chars_escape_char c r :
  parse_chars (escape_char c ++ r) = prepend c (parse_chars r).
Proof. destruct c as [[] [] [] [] [] [] [] []]; reflexivity. Qed.

Lemma parse_chars_escape s rest :
  parse_chars (escape s ++ String dquote rest) = Some (s, rest).
Proof.
  induction s as [| c s IH]; cbn [escape].
  - reflexivity.
  - rewrite append_assoc, parse_chars_escape_char, IH. reflexivity.
Qed.

Definition is_digit (c : ascii) : bool :=
  match digit_of c with Some _ => true | None => false end.

(** What may follow a number token: no digit, no fraction, no exponent. *)
Definition delimited (rest : string) : Prop :=
  parse_digits rest = (Decimal.Nil, rest) /\ starts_fraction rest = false.

Lemma parse_digits_printed d rest :
  parse_digits rest = (Decimal.Nil, rest) ->
  parse_digits (DecimalString.NilEmpty.string_of_uint d ++ rest) = (d, rest).
Proof.
  intros Hrest. induction d; cbn [DecimalString.NilEmpty.string_of_uint append];
    [exact Hrest | ..]; cbn [parse_digits]; rewrite IHd; reflexivity.
Qed.

Lemma to_uint_shape p :
  match Pos.to_uint p with
  | Decimal.Nil | Decimal.D0 _ => False
  | _ => True
  end.
Proof.
  pose proof (DecimalPos.Unsigned.to_uint_nonnil p) as Hnil.
  pose proof (DecimalPos.Unsigned.to_uint_nonzero p) as Hzero.
  pose proof (DecimalPos.Unsigned.to_of (Pos.to_uint p)) as Hnorm.
  rewrite DecimalPos.Unsigned.of_to in Hnorm. cbn [N.to_uint] in Hnorm.
  destruct (Pos.to_uint p) as [| d | | | | | | | | |] eqn:E; try exact I.
  - apply Hnil. reflexivity.
  - unfold Decimal.unorm in Hnorm.
    destruct (Decimal.nzhead (Decimal.D0 d)) eqn:En; try discriminate Hnorm.
    + injection Hnorm as Hd. subst d. apply Hzero. reflexivity.
    + exact (DecimalFacts.nzhead_nonzero _ _ En).
Qed.

Lemma parse_unsigned_printed p rest :
  delimited rest ->
  parse_unsigned (DecimalString.NilEmpty.string_of_uint (Pos.to_uint p) ++ rest)
  = Some (Z.pos p, rest).
Proof.
  intros [Hd Hf]. unfold parse_unsigned.
  rewrite (parse_digits_printed _ _ Hd).
  pose proof (to_uint_shape p) as Hshape.
  assert (Hval : Z.of_uint (Pos.to_uint p) = Z.pos p)
    by (unfold Z.of_uint; rewrite DecimalPos.Unsigned.of_to; reflexivity).
  destruct (Pos.to_uint p); try contradiction; rewrite Hf, Hval; reflexivity.
Qed.

Definition is_number_start (c : ascii) : bool := Ascii.eqb c "-" || is_digit c.

(** A text starts like a value: not with white space, not with [\]]. *)
Definition value_head (s : string) : Prop :=
  exists c r, s = String c r /\ is_ws c = false /\ Ascii.eqb c "]" = false.

Lemma delimited_nil : delimited "".
Proof. split; reflexivity. Qed.
Lemma delimited_comma r : delimited (String "," r).
Proof. split; reflexivity. Qed.
Lemma delimited_bracket r : delimited (String "]" r).
Proof. split; reflexivity. Qed.
Lemma delimited_brace r : delimited (String "}" r).
Proof. split; reflexivity. Qed.

Lemma number_start_head c :
  is_number_start c = true -> is_ws c = false /\ Ascii.eqb c "]" = false.
Proof.
  destruct c as [[] [] [] [] [] [] [] []]; intro H; try discriminate H;
    split; reflexivity.
Qed.

Lemma parse_value_number fuel c r :
  is_number_start c = true ->
  parse_value (S fuel) (String c r)
  = match parse_number (String c r) with
    | Some (n, r') => Some (Num n, r')
    | None => None
    end.
Proof.
  destruct c as [[] [] [] [] [] [] [] []]; intro H; try discriminate H; reflexivity.
Qed.

Lemma printed_digits p :
  exists c r,
    DecimalString.NilEmpty.string_of_uint (Pos.to_uint p) = String c r
    /\ is_number_start c = true /\ Ascii.eqb c "-" = false.
Proof.
  pose proof (to_uint_shape p) as H.
  destruct (Pos.to_uint p); try contradiction;
    cbn [DecimalString.NilEmpty.string_of_uint];
    eexists; eexists; (split; [reflexivity | split; reflexivity]).
Qed.

Lemma number_to_string_pos p :
  number_to_string (Z.pos p) = DecimalString.NilEmpty.string_of_uint (Pos.to_uint p).
Proof.
  unfold number_to_string. cbn [Z.to_int DecimalString.NilZero.string_of_int].
  unfold DecimalString.NilZero.string_of_uint.
  pose proof (to_uint_shape p) as H.
  destruct (Pos.to_uint p); try contradiction; reflexivity.
Qed.

Lemma number_to_string_neg p :
  number_to_string (Z.neg p)
  = String "-" (DecimalString.NilEmpty.string_of_uint (Pos.to_uint p)).
Proof.
  unfold number_to_string. cbn [Z.to_int DecimalString.NilZero.string_of_int].
  unfold DecimalString.NilZero.string_of_uint.
  pose proof (to_uint_shape p) as H.
  destruct (Pos.to_uint p); try contradiction; reflexivity.
Qed.

Lemma number_head n :
  exists c r, number_to_string n = String c r /\ is_number_start c = true.
Proof.
  destruct n as [| p | p].
  - exists "0"%char, "". split; reflexivity.
  - rewrite number_to_string_pos.
    destruct (printed_digits p) as (c & r & -> & Hc & _). eauto.
  - rewrite number_to_string_neg. eexists. eexists. split; reflexivity.
Qed.

Lemma parse_number_printed n rest :
  delimited rest -> parse_number (number_to_string n ++ rest) = Some (n, rest).
Proof.
  intros Hrest. destruct n as [| p | p].
  - destruct Hrest as [Hd Hf]. change (number_to_string 0 ++ rest) with (String "0" rest).
    unfold parse_number. cbn [Ascii.eqb Bool.eqb]. unfold parse_unsigned.
    cbn [parse_digits]. change (digit_of "0") with (Some Decimal.D0).
    rewrite Hd, Hf. reflexivity.
  - rewrite number_to_string_pos.
    pose proof (parse_unsigned_printed p rest Hrest) as Hp.
    destruct (printed_digits p) as (c & r & E & _ & Hminus).
    rewrite E in *. cbn [append] in *. unfold parse_number. rewrite Hminus. exact Hp.
  - rewrite number_to_string_neg. cbn [append]. unfold parse_number.
    cbn [Ascii.eqb Bool.eqb]. rewrite (parse_unsigned_printed p rest Hrest). reflexivity.
Qed.

Lemma parse_value_Num n fuel rest :
  delimited rest -> parse_value (S fuel) (number_to_string n ++ rest) = Some (Num n, rest).
Proof.
  intros Hrest. pose proof (parse_number_printed n rest Hrest) as Hp.
  destruct (number_head n) as (c & r & E & Hc).
  rewrite E in *. cbn [append] in *.
  rewrite (parse_value_number _ _ _ Hc), Hp. reflexivity.
Qed.

Lemma stringify_none v : stringify v = None <-> v = Undefined.
Proof.
  destruct v as [| | [|] | | | |]; cbn [stringify]; split; intro H;
    try reflexivity; discriminate.
Qed.

Lemma stringify_head v s : stringify v = Some s -> value_head s.
Proof.
  unfold value_head.
  destruct v as [| | [|] | n | s0 | items | props]; cbn [stringify]; intro H;
    try discriminate; injection H as <-;
    try (eexists; eexists; split; [reflexivity | split; reflexivity]).
  destruct (number_head n) as (c & r & -> & Hc).
  exists c, r. split; [reflexivity | apply number_start_head; exact Hc].
Qed.

Lemma stringify_item_head x : value_head (stringify_item x).
Proof.
  unfold stringify_item. destruct (stringify x) eqn:E.
  - exact (stringify_head _ _ E).
  - exists "n"%char, "ull". repeat split.
Qed.

Lemma skip_ws_head s rest : value_head s -> skip_ws (s ++ rest) = s ++ rest.
Proof.
  intros (c & r & -> & Hws & _). cbn [append skip_ws]. rewrite Hws. reflexivity.
Qed.

Lemma concat_cons2 sep (x y : string) l :
  String.concat sep (x :: y :: l) = x ++ sep ++ String.concat sep (y :: l).
Proof. reflexivity. Qed.

Lemma concat_length_in sep (x : string) l :
  In x l -> (String.length x <= String.length (String.concat sep l))%nat.
Proof.
  induction l as [| y [| z l] IH]; intros Hin.
  - destruct Hin.
  - destruct Hin as [-> | []]. cbn [String.concat]. lia.
  - rewrite concat_cons2, !length_append.
    destruct Hin as [-> | Hin]; [lia | specialize (IH Hin); lia].
Qed.

Lemma concat_length_count sep (l : list string) :
  (forall x, In x l -> (1 <= String.length x)%nat) ->
  (List.length l <= String.length (String.concat sep l))%nat.
Proof.
  induction l as [| y [| z l] IH]; intros Hne.
  - cbn. lia.
  - specialize (Hne y (or_introl eq_refl)). cbn [String.concat List.length]. lia.
  - rewrite concat_cons2, !length_append.
    pose proof (Hne y (or_introl eq_refl)).
    assert (Hrest : forall x, In x (z :: l) -> (1 <= String.length x)%nat)
      by (intros x Hx; apply Hne; right; exact Hx).
    specialize (IH Hrest). cbn [List.length] in *. lia.
Qed.

Lemma value_head_length s : value_head s -> (1 <= String.length s)%nat.
Proof. intros (c & r & -> & _). cbn [String.length]. lia. Qed.

Section Items.
Variable pv : string -> option (value * string).

Lemma parse_items_printed items :
  items <> [] ->
  (forall x, In x items ->
     forall rest, delimited rest ->
       pv (stringify_item x ++ rest) = Some (readback_item x, rest)) ->
  forall fuel rest,
    (List.length items <= fuel)%nat ->
    parse_items pv fuel
      (String.concat "," (map stringify_item items) ++ String "]" rest)
    = Some (map readback_item items, rest).
Proof.
  induction items as [| x [| y l] IH]; intros Hne Hpv fuel rest Hfuel.
  - contradiction.
  - destruct fuel as [| fuel]; [cbn [List.length] in Hfuel; lia |].
    cbn [map String.concat parse_items].
    rewrite (Hpv x (or_introl eq_refl) _ (delimited_bracket rest)).
    reflexivity.
  - destruct fuel as [| fuel]; [cbn [List.length] in Hfuel; lia |].
    change (map stringify_item (x :: y :: l))
      with (stringify_item x :: stringify_item y :: map stringify_item l).
    rewrite concat_cons2, !append_assoc.
    cbn [parse_items].
    change ("," ++ String.concat "," (stringify_item y :: map stringify_item l)
              ++ String "]" rest)
      with (String "," (String.concat "," (map stringify_item (y :: l))
                          ++ String "]" rest)).
    rewrite (Hpv x (or_introl eq_refl) _ (delimited_comma _)).
    cbn [skip_ws is_ws]. change (is_ws ",") with false. cbn iota.
    change (Ascii.eqb "," ",") with true. cbn iota.
    rewrite IH.
    + reflexivity.
    + discriminate.
    + intros x' Hx'. apply Hpv. right. exact Hx'.
    + cbn [List.length] in *. lia.
Qed.

Lemma parse_members_step fuel k s3 :
  parse_members pv (S fuel) (quote k ++ String ":" s3)
  = match pv s3 with
    | None => None
    | Some (v, s4) =>
        match skip_ws s4 with
        | String c s5 =>
            if Ascii.eqb c "," then
              match parse_members pv fuel s5 with
              | Some (kvs, s6) => Some ((k, v) :: kvs, s6)
              | None => None
              end
            else if Ascii.eqb c "}" then Some ([(k, v)], s5)
            else None
        | EmptyString => None
        end
    end.
Proof.
  unfold quote. cbn [append]. rewrite append_assoc. cbn [append].
  cbn [parse_members skip_ws]. change (is_ws dquote) with false. cbn iota.
  change (Ascii.eqb dquote dquote) with true. cbn iota.
  rewrite parse_chars_escape.
  cbn [skip_ws]. change (is_ws ":") with false. cbn iota.
  change (Ascii.eqb ":" ":") with true. cbn iota. reflexivity.
Qed.

Lemma readback_members_nil props :
  stringify_members props = [] -> readback_members props = [].
Proof.
  induction props as [| [k x] ps IH]; [reflexivity |].
  cbn [stringify_members readback_members].
  destruct (stringify x) eqn:E; [discriminate |].
  apply stringify_none in E. subst x. exact IH.
Qed.

Lemma parse_members_printed props :
  Forall (fun kv => forall s, stringify (snd kv) = Some s ->
            forall rest, delimited rest ->
              pv (s ++ rest) = Some (readback (snd kv), rest)) props ->
  stringify_members props <> [] ->
  forall fuel rest,
    (List.length (stringify_members props) <= fuel)%nat ->
    parse_members pv fuel
      (String.concat "," (stringify_members props) ++ String "}" rest)
    = Some (readback_members props, rest).
Proof.
  induction props as [| [k x] ps IH]; intros Hpv Hne fuel rest Hfuel.
  - contradiction.
  - inversion Hpv as [| ? ? Hx Hps]; subst. cbn [snd] in Hx.
    cbn [stringify_members readback_members] in *.
    destruct (stringify x) as [sx |] eqn:E.
    2: { apply stringify_none in E. subst x. apply IH; assumption. }
    assert (Hx' : readback_members ((k, x) :: ps)
                  = (k, readback x) :: readback_members ps).
    { cbn [readback_members]. destruct x; try reflexivity. discriminate E. }
    cbn [readback_members] in Hx'. rewrite Hx'. clear Hx'.
    destruct fuel as [| fuel]; [cbn [List.length] in Hfuel; lia |].
    destruct (stringify_members ps) as [| m ms] eqn:Ems.
    + cbn [String.concat]. rewrite !append_assoc.
      change (":" ++ sx ++ String "}" rest) with (String ":" (sx ++ String "}" rest)).
      rewrite parse_members_step, (Hx sx eq_refl _ (delimited_brace rest)).
      cbn [skip_ws]. change (is_ws "}") with false. cbn iota.
      change (Ascii.eqb "}" ",") with false. change (Ascii.eqb "}" "}") with true.
      cbn iota. rewrite (readback_members_nil ps Ems). reflexivity.
    + rewrite concat_cons2, !append_assoc.
      change (":" ++ sx ++ "," ++ String.concat "," (m :: ms) ++ String "}" rest)
        with (String ":" (sx ++ String "," (String.concat "," (m :: ms)
                                               ++ String "}" rest))).
      rewrite parse_members_step, (Hx sx eq_refl _ (delimited_comma _)).
      cbn [skip_ws]. change (is_ws ",") with false. cbn iota.
      change (Ascii.eqb "," ",") with true. cbn iota.
      rewrite IH.
      * reflexivity.
      * exact Hps.
      * discriminate.
      * cbn [List.length] in *. lia.
Qed.
End Items.

Lemma parse_value_array fuel c r :
  is_ws c = false -> Ascii.eqb c "]" = false ->
  parse_value (S fuel) (String "[" (String c r))
  = match parse_items (parse_value fuel) fuel (String c r) with
    | Some (items, rest) => Some (Arr items, rest)
    | None => None
    end.
Proof.
  intros Hws Hc. cbn [parse_value skip_ws]. change (is_ws "[") with false. cbn iota.
  change (Ascii.eqb "[" dquote) with false. change (Ascii.eqb "[" "[") with true.
  cbn iota. cbn [skip_ws]. rewrite Hws, Hc. reflexivity.
Qed.

Lemma parse_value_object fuel r :
  parse_value (S fuel) (String "{" (String dquote r))
  = match parse_members (parse_value fuel) fuel (String dquote r) with
    | Some (props, rest) => Some (Obj props, rest)
    | None => None
    end.
Proof. reflexivity. Qed.

Lemma stringify_members_head props m ms :
  stringify_members props = m :: ms -> exists r, m = String dquote r.
Proof.
  induction props as [| [k x] ps IH]; cbn [stringify_members]; [discriminate |].
  destruct (stringify x); [| exact IH].
  intro H. injection H as <- _. eexists. reflexivity.
Qed.

Lemma stringify_members_length props m :
  In m (stringify_members props) ->
  exists k x s, In (k, x) props /\ stringify x = Some s
                /\ (String.length s < String.length m)%nat.
Proof.
  induction props as [| [k x] ps IH]; cbn [stringify_members]; [intros [] |].
  destruct (stringify x) as [sx |] eqn:E.
  - intros [<- | Hin].
    + exists k, x, sx. split; [left; reflexivity | split; [exact E |]].
      rewrite !length_append. unfold quote. cbn [String.length]. lia.
    + destruct (IH Hin) as (k' & x' & s' & H1 & H2 & H3).
      exists k', x', s'. split; [right; exact H1 | split; assumption].
  - intros Hin. destruct (IH Hin) as (k' & x' & s' & H1 & H2 & H3).
    exists k', x', s'. split; [right; exact H1 | split; assumption].
Qed.

(** A written value, followed by a delimiter, parses back to its
    [readback] with the delimiter left over, given fuel beyond its
    length. *)
Lemma parse_value_stringify v :
  forall s, stringify v = Some s ->
  forall fuel rest,
    (String.length s < fuel)%nat -> delimited rest ->
    parse_value fuel (s ++ rest) = Some (readback v, rest).
Proof.
  induction v as [| | b | n | s0 | items IH | props IH] using value_induction;
    intros s Hs fuel rest Hfuel Hrest;
    (destruct fuel as [| fuel]; [lia |]).
  - discriminate.
  - injection Hs as <-. reflexivity.
  - destruct b; injection Hs as <-; reflexivity.
  - injection Hs as <-. apply parse_value_Num. exact Hrest.
  - injection Hs as <-. unfold quote. cbn [append]. rewrite append_assoc. cbn [append].
    cbn [parse_value skip_ws]. change (is_ws dquote) with false. cbn iota.
    change (Ascii.eqb dquote dquote) with true. cbn iota.
    rewrite parse_chars_escape. reflexivity.
  - rewrite stringify_Arr in Hs. injection Hs as <-. rewrite readback_Arr.
    cbn [append]. rewrite append_assoc. cbn [append].
    destruct items as [| x l]; [reflexivity |].
    set (body := String.concat "," (map stringify_item (x :: l))) in *.
    assert (Hbody : (String.length body < fuel)%nat).
    { cbn [append String.length] in Hfuel. rewrite length_append in Hfuel.
      cbn [String.length] in Hfuel. lia. }
    assert (Hhead : value_head body).
    { unfold body. destruct l as [| y l].
      - apply stringify_item_head.
      - change (map stringify_item (x :: y :: l))
          with (stringify_item x :: map stringify_item (y :: l)).
        cbn [map]. rewrite concat_cons2.
        destruct (stringify_item_head x) as (c & r & -> & H1 & H2).
        exists c. eexists. split; [reflexivity | split; assumption]. }
    destruct Hhead as (c & r & Ebody & Hws & Hc).
    rewrite Ebody. cbn [append]. rewrite (parse_value_array _ _ _ Hws Hc).
    change (String c (r ++ String "]" rest)) with (String c r ++ String "]" rest).
    rewrite <- Ebody. unfold body.
    rewrite (parse_items_printed (parse_value fuel)); [reflexivity | discriminate | |].
    + intros y Hy rest' Hrest'. unfold stringify_item, readback_item.
      assert (Hlen : (String.length (stringify_item y) <= String.length body)%nat)
        by (apply concat_length_in, in_map, Hy).
      destruct (stringify y) as [sy |] eqn:Ey.
      * rewrite Forall_forall in IH.
        rewrite (IH y Hy sy Ey fuel rest').
        -- destruct y; try reflexivity. discriminate Ey.
        -- unfold stringify_item in Hlen. rewrite Ey in Hlen. lia.
        -- exact Hrest'.
      * apply stringify_none in Ey. subst y.
        destruct fuel as [| fuel']; [lia | reflexivity].
    + assert (Hcount : (List.length (map stringify_item (x :: l))
                        <= String.length body)%nat).
      { apply concat_length_count. intros z Hz.
        apply in_map_iff in Hz. destruct Hz as (y & <- & _).
        apply value_head_length, stringify_item_head. }
      rewrite length_map in Hcount. lia.
  - rewrite stringify_Obj in Hs. injection Hs as <-. rewrite readback_Obj.
    cbn [append]. rewrite append_assoc. cbn [append].
    destruct (stringify_members props) as [| m ms] eqn:Em.
    { rewrite (readback_members_nil props Em). reflexivity. }
    set (body := String.concat "," (m :: ms)) in *.
    assert (Hbody : (String.length body < fuel)%nat).
    { cbn [append String.length] in Hfuel. rewrite length_append in Hfuel.
      cbn [String.length] in Hfuel. lia. }
    destruct (stringify_members_head _ _ _ Em) as (r0 & Hm).
    assert (Ebody : exists r, body = String dquote r).
    { unfold body. destruct ms as [| m' ms'].
      - exists r0. exact Hm.
      - rewrite concat_cons2, Hm. eexists. reflexivity. }
    destruct Ebody as (r & Ebody). rewrite Ebody. cbn [append].
    rewrite parse_value_object.
    change (String dquote (r ++ String "}" rest))
      with (String dquote r ++ String "}" rest).
    rewrite <- Ebody. unfold body. rewrite <- Em.
    rewrite (parse_members_printed (parse_value fuel)); [reflexivity | | |].
    + rewrite Forall_forall in IH |- *. intros [k y] Hin sy Ey rest' Hrest'.
      cbn [snd] in *. apply (IH (k, y) Hin sy Ey); [| exact Hrest'].
      assert (Hy : exists m', In m' (stringify_members props)
                              /\ (String.length sy < String.length m')%nat).
      { clear - Hin Ey. induction props as [| [k' x'] ps IHp]; [destruct Hin |].
        cbn [stringify_members]. destruct Hin as [Heq | Hin].
        - injection Heq as -> ->. rewrite Ey. eexists. split; [left; reflexivity |].
          rewrite !length_append. unfold quote. cbn [String.length]. lia.
        - destruct (IHp Hin) as (m' & H1 & H2).
          destruct (stringify x'); exists m'; split; try assumption. right. exact H1. }
      destruct Hy as (m' & Hm' & Hlt). rewrite Em in Hm'.
      pose proof (concat_length_in "," m' (m :: ms) Hm'). fold body in H. lia.
    + rewrite Em. discriminate.
    + rewrite Em.
      assert (Hcount : (List.length (m :: ms) <= String.length body)%nat).
      { apply concat_length_count. intros z Hz. rewrite <- Em in Hz.
        destruct (stringify_members_length _ _ Hz) as (? & ? & ? & _ & _ & Hlt). lia. }
      lia.
Qed.

(** [JSON.parse(JSON.stringify(v))] is [readback v]. *)
Theorem parse_stringify v s : stringify v = Some s -> parse s = Ret (readback v).
Proof.
  intros Hs. unfold parse.
  pose proof (parse_value_stringify v s Hs (S (String.length s)) ""
                (Nat.lt_succ_diag_r _) delimited_nil) as H.
  rewrite append_nil_r in H. rewrite H. reflexivity.
Qed.
End JSONFacts.

(** ** EdDSAService *)

Section EdDSAFacts.
Context {core : Nacl.Ed25519}.
Import EdDSAService Node.

Lemma verify_bad_signature_size signature message publicKey :
  List.length (from_base64 signature) <> 64%nat ->
  verify signature message publicKey
  = Throw "Failed to verify signature: bad signature size".
Proof.
  intros Hlen. unfold verify, Nacl.sign_detached_verify, Nacl.crypto_sign_BYTES.
  apply Nat.eqb_neq in Hlen. rewrite Hlen. reflexivity.
Qed.

Lemma verify_bad_public_key_size signature message publicKey :
  List.length (from_base64 signature) = 64%nat ->
  List.length (from_base64 publicKey) <> 32%nat ->
  verify signature message publicKey
  = Throw "Failed to verify signature: bad public key size".
Proof.
  intros Hs Hp. unfold verify, Nacl.sign_detached_verify,
    Nacl.crypto_sign_BYTES, Nacl.crypto_sign_PUBLICKEYBYTES.
  apply Nat.eqb_eq in Hs. apply Nat.eqb_neq in Hp. rewrite Hs, Hp. reflexivity.
Qed.

Lemma verify_well_sized signature message publicKey :
  List.length (from_base64 signature) = 64%nat ->
  List.length (from_base64 publicKey) = 32%nat ->
  verify signature message publicKey
  = Ret (match Nacl.crypto_sign_open
                 (from_base64 signature ++ from_utf8 message)%list
                 (from_base64 publicKey) with
         | Some _ => true
         | None => false
         end).
Proof.
  intros Hs Hp. unfold verify, Nacl.sign_detached_verify,
    Nacl.crypto_sign_BYTES, Nacl.crypto_sign_PUBLICKEYBYTES.
  apply Nat.eqb_eq in Hs. apply Nat.eqb_eq in Hp. rewrite Hs, Hp. reflexivity.
Qed.

(** C2, as the code has it: [verify] is a function of its three arguments
    alone; on a signature of 64 bytes and a public key of 32 bytes (after
    base64 decoding) it returns the boolean verdict of the Ed25519 check,
    and on any other size it throws [Failed to verify signature: ...]
    instead of returning [false]. *)
Theorem verify_returns_or_throws_by_size signature message publicKey :
  let sig := from_base64 signature in
  let pk := from_base64 publicKey in
  (List.length sig = 64%nat /\ List.length pk = 32%nat ->
     exists b, verify signature message publicKey = Ret b
       /\ (b = true <->
           Nacl.crypto_sign_open (sig ++ from_utf8 message)%list pk <> None))
  /\ (List.length sig <> 64%nat ->
        verify signature message publicKey
        = Throw "Failed to verify signature: bad signature size")
  /\ (List.length sig = 64%nat -> List.length pk <> 32%nat ->
        verify signature message publicKey
        = Throw "Failed to verify signature: bad public key size").
Proof.
  cbv zeta. split; [| split].
  - intros [Hs Hp]. rewrite (verify_well_sized _ _ _ Hs Hp).
    eexists. split; [reflexivity |].
    destruct (Nacl.crypto_sign_open _ _); split; intro H;
      try discriminate; try congruence.
  - apply verify_bad_signature_size.
  - apply verify_bad_public_key_size.
Qed.

(** C10: [validateKeyPair] always returns a boolean and never throws; the
    boolean is [true] exactly when the test message, signed with the
    private key, verifies under the public key, and any failure of [sign]
    or [verify] gives [false]. *)
Theorem validateKeyPair_total publicKey privateKey now :
  exists b, validateKeyPair publicKey privateKey now = Ret b
    /\ (b = true <->
        exists signature,
          sign testMessage privateKey now = Ret signature
          /\ verify (SignatureData.signature signature) testMessage publicKey = Ret true).
Proof.
  unfold validateKeyPair.
  destruct (sign testMessage privateKey now) as [sd | m] eqn:Hsign; cbn [Js.bind].
  - destruct (verify (SignatureData.signature sd) testMessage publicKey)
      as [b | m] eqn:Hverify.
    + exists b. split; [reflexivity |]. split.
      * intros ->. exists sd. auto.
      * intros [sd' [Heq Hv]]. injection Heq as <-. congruence.
    + exists false. split; [reflexivity |]. split; [discriminate |].
      intros [sd' [Heq Hv]]. injection Heq as <-. congruence.
  - exists false. split; [reflexivity |]. split; [discriminate |].
    intros [sd' [Heq _]]. discriminate.
Qed.

End EdDSAFacts.

(** C2, counterexample: a signature string that decodes to 9 bytes, checked
    against a well-formed key, makes [verify] throw. *)
Lemma verify_throws_on_short_signature :
  EdDSAService.verify (core := Nacl.tweetnacl)
    "c2lnbmF0dXJl" Scenario.documentHash Scenario.publicKey
  = Throw "Failed to verify signature: bad signature size".
Proof. vm_compute. reflexivity. Qed.

(** ** validateMultiSigConfig *)

Section ValidationFacts.
Import MultiSignatureService.

Lemma indexOf_lower role roles : -1 <= indexOf role roles.
Proof.
  induction roles as [| r rest IH]; cbn [indexOf]; [lia |].
  destruct (String.eqb r role); [lia |].
  destruct (indexOf role rest <? 0) eqn:E; [lia |].
  apply Z.ltb_ge in E. lia.
Qed.

Lemma indexOf_missing role roles : ~ In role roles -> indexOf role roles = -1.
Proof.
  induction roles as [| r rest IH]; cbn [indexOf]; intros Hn; [reflexivity |].
  destruct (String.eqb r role) eqn:E.
  - apply String.eqb_eq in E. exfalso. apply Hn. left. exact E.
  - rewrite IH by (intro H; apply Hn; right; exact H). reflexivity.
Qed.

Lemma indexOf_present role roles :
  In role roles -> 0 <= indexOf role roles < len roles.
Proof.
  unfold len.
  induction roles as [| r rest IH]; cbn [indexOf]; intros Hin; [destruct Hin |].
  destruct (String.eqb r role) eqn:E.
  - cbn [List.length]. lia.
  - destruct Hin as [-> | Hin]; [rewrite String.eqb_refl in E; discriminate |].
    specialize (IH Hin).
    destruct (indexOf role rest <? 0) eqn:E'; [apply Z.ltb_lt in E' |];
      cbn [List.length]; lia.
Qed.

(** The index in [pre ++ l] of a role that [pre] lacks. *)
Lemma indexOf_app_missing role pre l :
  ~ In role pre ->
  indexOf role (pre ++ l)
  = if indexOf role l <? 0 then -1 else len pre + indexOf role l.
Proof.
  unfold len.
  induction pre as [| r rest IH]; intros Hn.
  - cbn [app List.length]. destruct (indexOf role l <? 0) eqn:E.
    + apply Z.ltb_lt in E. pose proof (indexOf_lower role l). lia.
    + reflexivity.
  - cbn [app indexOf].
    destruct (String.eqb r role) eqn:E.
    + apply String.eqb_eq in E. exfalso. apply Hn. left. exact E.
    + rewrite IH by (intro H; apply Hn; right; exact H).
      destruct (indexOf role l <? 0) eqn:E'; [reflexivity |].
      apply Z.ltb_ge in E'.
      replace (Z.of_nat (List.length rest) + indexOf role l <? 0) with false
        by (symmetry; apply Z.ltb_ge; lia).
      cbn [List.length]. lia.
Qed.

Lemma indexOf_app_present role pre l :
  In role pre -> indexOf role (pre ++ l) < len pre.
Proof.
  unfold len.
  induction pre as [| r rest IH]; intros Hin; [destruct Hin |].
  cbn [app indexOf List.length].
  destruct (String.eqb r role) eqn:E; [lia |].
  destruct Hin as [-> | Hin]; [rewrite String.eqb_refl in E; discriminate |].
  specialize (IH Hin).
  destruct (indexOf role (rest ++ l) <? 0); lia.
Qed.

(** No role of [l] is kept by the duplicate filter exactly when [l] repeats
    no role and shares none with the roles before it. *)
Lemma duplicates_none pre l :
  filter_index (fun role index => negb (indexOf role (pre ++ l) =? index))
               (len pre) l = []
  <-> NoDup l /\ (forall role, In role l -> ~ In role pre).
Proof.
  revert pre. induction l as [| x rest IH]; intros pre.
  - cbn [filter_index]. split; [| reflexivity].
    intros _. split; [constructor | intros ? []].
  - cbn [filter_index].
    assert (Hshift : (pre ++ x :: rest = (pre ++ [x]) ++ rest)%list)
      by (rewrite <- app_assoc; reflexivity).
    assert (Hlen : len pre + 1 = len (pre ++ [x])%list)
      by (unfold len; rewrite length_app; cbn [List.length]; lia).
    destruct (in_dec string_dec x pre) as [Hin | Hnot].
    + pose proof (indexOf_app_present x pre (x :: rest) Hin) as Hlt.
      replace (indexOf x (pre ++ x :: rest) =? len pre) with false
        by (symmetry; apply Z.eqb_neq; lia).
      cbn [negb]. split; [discriminate |].
      intros [_ Hdisj]. exfalso. apply (Hdisj x); [left; reflexivity | exact Hin].
    + rewrite (indexOf_app_missing x pre (x :: rest) Hnot).
      cbn [indexOf]. rewrite String.eqb_refl. cbn [Z.ltb Z.compare].
      rewrite Z.add_0_r, Z.eqb_refl. cbn [negb].
      rewrite Hshift, Hlen, IH. split.
      * intros [Hnd Hdisj]. split.
        -- constructor; [| exact Hnd].
           intro Hx. apply (Hdisj x Hx). apply in_or_app. right. left. reflexivity.
        -- intros role [<- | Hr]; [exact Hnot |].
           intro Hp. apply (Hdisj role Hr). apply in_or_app. left. exact Hp.
      * intros [Hnd Hdisj]. inversion Hnd as [| ? ? Hx Hnd']; subst. split; [exact Hnd' |].
        intros role Hr Hp. apply in_app_or in Hp. destruct Hp as [Hp | [<- | []]].
        -- apply (Hdisj role); [right; exact Hr | exact Hp].
        -- exact (Hx Hr).
Qed.

Lemma duplicateRoles_nil roles : duplicateRoles roles = [] <-> NoDup roles.
Proof.
  unfold duplicateRoles. pose proof (duplicates_none [] roles) as H.
  cbn [app] in H. unfold len at 1 in H. cbn [List.length Z.of_nat] in H.
  rewrite H. split; [intros [Hnd _]; exact Hnd |].
  intros Hnd. split; [exact Hnd | intros ? _ []].
Qed.

Lemma in_push_if cond message errors x :
  In x (push_if cond message errors) <-> In x errors \/ (cond = true /\ x = message).
Proof.
  unfold push_if. destruct cond.
  - rewrite in_app_iff. cbn [In]. intuition congruence.
  - intuition discriminate.
Qed.

Lemma push_if_nil cond message errors :
  push_if cond message errors = [] <-> errors = [] /\ cond = false.
Proof.
  unfold push_if. destruct cond.
  - split; [| intros [_ H]; discriminate].
    intro H. apply app_eq_nil in H. destruct H as [_ H]. discriminate.
  - intuition.
Qed.

Lemma len_nil_iff {A} (l : list A) : (len l =? 0) = true <-> l = [].
Proof.
  unfold len. rewrite Z.eqb_eq. destruct l; cbn [List.length]; split; intro H;
    try reflexivity; try discriminate; lia.
Qed.

Lemma len_pos_iff {A} (l : list A) : (len l >? 0) = true <-> l <> [].
Proof.
  unfold len. rewrite Z.gtb_gt. destruct l; cbn [List.length]; split; intro H;
    try congruence; try lia.
Qed.


End ValidationFacts.


(** ** addSignature *)

Section SessionFacts.
Context {core : Nacl.Ed25519}.
Import EdDSAService MultiSignatureService.

Definition msg_completed : string := "Multi-signature session is already completed".
Definition msg_expired : string := "Multi-signature session has expired".
Definition msg_unknown (role : string) : string :=
  "Signer role '" ++ role ++ "' is not required for this document".
Definition msg_duplicate (role : string) : string :=
  "Signer with role '" ++ role ++ "' has already signed this document".

Definition failed (message : string) : completion Session.t :=
  Throw ("Failed to add signature: " ++ message).

Definition isRequired (role : string) (s : Session.t) : bool :=
  existsb (fun r => String.eqb (RequiredSigner.role r) role) (Session.requiredSigners s).
Definition hasSigned (role : string) (s : Session.t) : bool :=
  existsb (fun g => String.eqb (Signer.role (Signature.signer g)) role)
          (Session.signatures s).

Lemma find_existsb {A} (p : A -> bool) (l : list A) :
  existsb p l = match find p l with Some _ => true | None => false end.
Proof.
  induction l as [| x rest IH]; cbn [existsb find]; [reflexivity |].
  destruct (p x); [reflexivity | exact IH].
Qed.

(** The call, case by case: each rejection leaves the session as it was,
    and an acceptance returns the updated session object itself. *)
Lemma addSignature_cases session role privateKey signerInfo now uuid :
  addSignature session role privateKey signerInfo now uuid =
  if String.eqb (Session.status session) "completed" then (failed msg_completed, session)
  else if now >? Session.expiresAt session then (failed msg_expired, session)
  else if negb (isRequired role session) then (failed (msg_unknown role), session)
  else if hasSigned role session then (failed (msg_duplicate role), session)
  else
    match sign (Session.documentHash session) privateKey now with
    | Throw m => (failed m, session)
    | Ret signatureData =>
        match getPublicKeyFromPrivate privateKey with
        | Throw m => (failed m, session)
        | Ret publicKey =>
            match verify (SignatureData.signature signatureData)
                         (Session.documentHash session) publicKey with
            | Throw m => (failed m, session)
            | Ret false => (failed "Generated signature is invalid", session)
            | Ret true =>
                let session' :=
                  signedSession session role (SignatureData.signature signatureData)
                    publicKey signerInfo now uuid in
                (Ret session', session')
            end
        end
    end.
Proof.
  unfold addSignature, addSignature_body, mrethrow, mbind, mread, mthrow, mlift,
    mwrite, mret, isRequired, hasSigned, failed.
  rewrite !find_existsb.
  destruct (String.eqb (Session.status session) "completed"); [reflexivity |].
  destruct (now >? Session.expiresAt session); [reflexivity |].
  destruct (find _ (Session.requiredSigners session)); [| reflexivity].
  destruct (find _ (Session.signatures session)); [reflexivity |].
  cbn [negb].
  destruct (sign _ _ _) as [sd | m]; [| reflexivity].
  destruct (getPublicKeyFromPrivate _) as [pk | m]; [| reflexivity].
  destruct (verify _ _ _) as [[|] | m]; [| reflexivity | reflexivity].
  cbn [negb]. unfold signedSession.
  cbn [Update.signatures Update.requiredSigners Update.metadata Update.status
       Update.completedAt Update.lastUpdated Update.signedCount Update.pendingCount
       Session.signatures Session.requiredSigners Session.threshold Session.metadata
       Session.status Session.completedAt Session.lastUpdated Session.sessionId
       Session.documentId Session.documentHash Session.createdAt Session.expiresAt
       Metadata.totalSigners Metadata.signedCount Metadata.pendingCount].
  destruct (len _ >=? Session.threshold session); reflexivity.
Qed.

(** A rejected call leaves the session object as it was. *)
Lemma addSignature_rejected session role privateKey signerInfo now uuid m session' :
  addSignature session role privateKey signerInfo now uuid = (Throw m, session') ->
  session' = session.
Proof.
  rewrite addSignature_cases. unfold failed.
  repeat match goal with
         | |- context [if ?c then _ else _] => destruct c
         | |- context [match ?c with Ret _ => _ | Throw _ => _ end] => destruct c
         end;
    cbv zeta; intro H; inversion H; reflexivity.
Qed.

(** An accepted call: the session was open, the role required and not yet
    signed, and the session object is updated by one signature. *)
Lemma addSignature_accepted session role privateKey signerInfo now uuid r session' :
  addSignature session role privateKey signerInfo now uuid = (Ret r, session') ->
  r = session'
  /\ String.eqb (Session.status session) "completed" = false
  /\ now <= Session.expiresAt session
  /\ isRequired role session = true
  /\ hasSigned role session = false
  /\ exists signature publicKey,
       session' = signedSession session role signature publicKey signerInfo now uuid.
Proof.
  rewrite addSignature_cases. unfold failed.
  destruct (String.eqb (Session.status session) "completed"); [discriminate |].
  destruct (now >? Session.expiresAt session) eqn:Ht; [discriminate |].
  destruct (isRequired role session); [| discriminate].
  destruct (hasSigned role session); [discriminate |].
  cbn [negb].
  destruct (sign _ _ _) as [sd | ?]; [| discriminate].
  destruct (getPublicKeyFromPrivate _) as [pk | ?]; [| discriminate].
  destruct (verify _ _ _) as [[|] | ?]; try discriminate.
  cbv zeta. intro H. inversion H; subst.
  rewrite Z.gtb_ltb, Z.ltb_ge in Ht.
  repeat split; try reflexivity; try assumption. eauto.
Qed.

(** The histories of a session object: [run s n s'] when some sequence of
    [addSignature] calls, [n] of them accepted, takes it from [s] to [s']. *)
Inductive run (s : Session.t) : nat -> Session.t -> Prop :=
| run_start : run s 0 s
| run_accept n s1 role privateKey signerInfo now uuid r s2 :
    run s n s1 ->
    addSignature s1 role privateKey signerInfo now uuid = (Ret r, s2) ->
    run s (S n) s2
| run_reject n s1 role privateKey signerInfo now uuid m s2 :
    run s n s1 ->
    addSignature s1 role privateKey signerInfo now uuid = (Throw m, s2) ->
    run s n s2.

(** What holds of an open session and of every state it runs to. *)
Definition coherent (threshold : Z) (n : nat) (s : Session.t) : Prop :=
  Session.threshold s = threshold
  /\ len (Session.signatures s) = Z.of_nat n
  /\ ((Z.of_nat n < threshold
       /\ Session.status s = "pending" /\ Session.completedAt s = None)
      \/ (Z.of_nat n = threshold
          /\ Session.status s = "completed"
          /\ exists at_, Session.completedAt s = Some at_)).

Lemma coherent_run threshold s0 n s :
  coherent threshold 0 s0 -> run s0 n s -> coherent threshold n s.
Proof.
  intros H0 Hrun. induction Hrun as [| n s1 role pk info now uuid r s2 _ IH Hadd
                                      | n s1 role pk info now uuid m s2 _ IH Hadd].
  - exact H0.
  - apply addSignature_accepted in Hadd.
    destruct Hadd as (_ & Hopen & _ & _ & _ & sig & pub & ->).
    destruct IH as (Hthr & Hlen & [(Hlt & Hst & Hat) | (_ & Hst & _)]).
    2: { rewrite Hst in Hopen. discriminate. }
    unfold coherent, signedSession.
    cbn [Session.threshold Session.signatures Session.status Session.completedAt].
    assert (Hlen' : len (Session.signatures s1 ++
              [{| Signature.signatureId := uuid; Signature.signature := sig;
                  Signature.signer := {| Signer.info := info; Signer.role := role;
                                         Signer.publicKey := pub |};
                  Signature.signedAt := now;
                  Signature.documentHash := Session.documentHash s1;
                  Signature.valid := true |}])%list = Z.of_nat (S n)).
    { unfold len in *. rewrite length_app. cbn [List.length]. lia. }
    rewrite Hlen', Hthr. split; [reflexivity |]. split; [reflexivity |].
    destruct (Z.of_nat (S n) >=? threshold) eqn:E.
    + right. rewrite Z.geb_leb, Z.leb_le in E.
      split; [lia |]. split; [reflexivity |]. eauto.
    + left. rewrite Z.geb_leb, Z.leb_gt in E. auto.
  - apply addSignature_rejected in Hadd. subst. exact IH.
Qed.

Lemma initialized_coherent document signers threshold now uuid1 uuid2 s0 :
  initializeMultiSigSession document signers threshold now uuid1 uuid2 = Ret s0 ->
  0 < Session.threshold s0 ->
  coherent (Session.threshold s0) 0 s0.
Proof.
  unfold initializeMultiSigSession. intros Hinit Hpos.
  destruct (hashOfDocument document) as [h | ?]; [| discriminate].
  cbn [Js.bind] in Hinit.
  destruct (Js.get document "id") as [id | ?]; [| discriminate].
  cbn [Js.bind Js.rethrow] in Hinit. injection Hinit as <-.
  unfold coherent. cbn [Session.threshold Session.signatures Session.status
                        Session.completedAt] in *.
  split; [reflexivity |]. split; [reflexivity |]. left.
  cbn [Z.of_nat]. auto.
Qed.

(** C1: in every history of a session that [initializeMultiSigSession]
    opened with a positive threshold, after [n] accepted signatures the
    session holds [n] signatures, [n] never exceeds the threshold, and the
    status is [completed] exactly when [n] has reached the threshold:
    below it the status is [pending] with no [completedAt], at it the
    status is [completed] with [completedAt] set, and it stays so because
    no later call is accepted.  With threshold 2 the first accepted
    signature leaves the session pending, the second completes it, and
    there is no third. *)
Theorem status_completed_exactly_at_threshold
    document signers threshold now uuid1 uuid2 s0 n s :
  initializeMultiSigSession document signers threshold now uuid1 uuid2 = Ret s0 ->
  0 < Session.threshold s0 ->
  run s0 n s ->
  Session.threshold s = Session.threshold s0
  /\ len (Session.signatures s) = Z.of_nat n
  /\ Z.of_nat n <= Session.threshold s0
  /\ (Session.status s = "completed" <-> Session.threshold s0 <= Z.of_nat n)
  /\ (Z.of_nat n < Session.threshold s0 ->
        Session.status s = "pending" /\ Session.completedAt s = None)
  /\ (Session.threshold s0 <= Z.of_nat n ->
        (exists at_, Session.completedAt s = Some at_)
        /\ forall role privateKey signerInfo now' uuid,
             addSignature s role privateKey signerInfo now' uuid
             = (failed msg_completed, s)).
Proof.
  intros Hinit Hpos Hrun.
  pose proof (coherent_run _ _ _ _ (initialized_coherent _ _ _ _ _ _ _ Hinit Hpos) Hrun)
    as (Hthr & Hlen & Hcases).
  split; [exact Hthr |]. split; [exact Hlen |].
  destruct Hcases as [(Hlt & Hst & Hat) | (Heq & Hst & Hat)].
  - split; [lia |]. split; [| split].
    + rewrite Hst. split; [discriminate | lia].
    + auto.
    + lia.
  - split; [lia |]. split; [| split].
    + split; [lia | intros _; exact Hst].
    + lia.
    + intros _. split; [exact Hat |]. intros.
      rewrite addSignature_cases, Hst. reflexivity.
Qed.

End SessionFacts.

Section ClosedSessions.
Context {core : Nacl.Ed25519}.
Import EdDSAService MultiSignatureService.

(** C3, as the code has it: a call for a role that already has a stored
    signature is always rejected and leaves the session object unchanged.
    The rejection is the duplicate-signature one when the session is still
    open (not completed, not past [expiresAt]) and the role is among the
    required signers; on a completed or an expired session the
    session-closed rejection comes first, and for a role that is not
    required the unknown-signer one does. *)
Theorem signed_role_is_rejected session role privateKey signerInfo now uuid :
  hasSigned role session = true ->
  exists m,
    addSignature session role privateKey signerInfo now uuid = (failed m, session)
    /\ (Session.status session = "completed" -> m = msg_completed)
    /\ (Session.status session <> "completed" ->
        Session.expiresAt session < now -> m = msg_expired)
    /\ (Session.status session <> "completed" ->
        now <= Session.expiresAt session ->
        isRequired role session = false -> m = msg_unknown role)
    /\ (Session.status session <> "completed" ->
        now <= Session.expiresAt session ->
        isRequired role session = true -> m = msg_duplicate role).
Proof.
  intros Hsigned. rewrite addSignature_cases, Hsigned.
  destruct (String.eqb (Session.status session) "completed") eqn:Hst.
  - apply String.eqb_eq in Hst. exists msg_completed.
    split; [reflexivity |]. repeat split; intros; try reflexivity; contradiction.
  - apply String.eqb_neq in Hst.
    destruct (now >? Session.expiresAt session) eqn:Ht.
    + rewrite Z.gtb_ltb, Z.ltb_lt in Ht. exists msg_expired.
      split; [reflexivity |]. repeat split; intros; try reflexivity;
        try contradiction; lia.
    + rewrite Z.gtb_ltb, Z.ltb_ge in Ht.
      destruct (isRequired role session) eqn:Hreq; cbn [negb].
      * exists (msg_duplicate role).
        split; [reflexivity |]. repeat split; intros; try reflexivity;
          try contradiction; try discriminate; lia.
      * exists (msg_unknown role).
        split; [reflexivity |]. repeat split; intros; try reflexivity;
          try contradiction; try discriminate; lia.
Qed.

(** C4, as the code has it: a session whose status is [completed], or
    whose [expiresAt] lies before the instant of the call, rejects
    [addSignature] with the session-closed message for that case and is
    left as it was.  The status strings [cancelled] and [expired] are not
    tested: cancelling removes the session from the store, and expiry is
    read off [expiresAt]. *)
Theorem closed_session_is_rejected session role privateKey signerInfo now uuid :
  Session.status session = "completed" \/ Session.expiresAt session < now ->
  exists m,
    addSignature session role privateKey signerInfo now uuid = (failed m, session)
    /\ (m = msg_completed \/ m = msg_expired).
Proof.
  intros Hclosed. rewrite addSignature_cases.
  destruct (String.eqb (Session.status session) "completed") eqn:Hst.
  - exists msg_completed. auto.
  - apply String.eqb_neq in Hst. destruct Hclosed as [Hc | Hexp]; [contradiction |].
    apply Z.ltb_lt in Hexp. rewrite Z.gtb_ltb, Hexp. exists msg_expired. auto.
Qed.

End ClosedSessions.

(** ** The scenario, run *)

Section ScenarioFacts.
Import EdDSAService MultiSignatureService Scenario.
Existing Instance Nacl.tweetnacl.

Lemma scenario_initialized :
  initializeMultiSigSession document signers (Some 2) created "session-1" "document-1"
  = Ret session0.
Proof. vm_compute. reflexivity. Qed.

(** The signature the private key gives on the document hash. *)
Lemma scenario_signature :
  Nacl.sign_detached (Node.from_utf8 documentHash) (Node.from_base64 privateKey)
  = Ret (Node.from_base64 signature).
Proof. vm_compute. reflexivity. Qed.

Lemma scenario_encoded : Node.to_base64 (Node.from_base64 signature) = signature.
Proof. vm_compute. reflexivity. Qed.

Lemma scenario_sign now :
  exists signatureData,
    sign documentHash privateKey now = Ret signatureData
    /\ SignatureData.signature signatureData = signature.
Proof.
  unfold sign. cbv zeta. rewrite scenario_signature.
  eexists. split; [reflexivity |]. exact scenario_encoded.
Qed.

Lemma scenario_publicKey : getPublicKeyFromPrivate privateKey = Ret publicKey.
Proof. vm_compute. reflexivity. Qed.

Lemma scenario_verify : verify signature documentHash publicKey = Ret true.
Proof. vm_compute. reflexivity. Qed.

(** The scenario's key signs for any required role of an open session on
    the scenario's document. *)
Lemma scenario_accept session role signerInfo now uuid :
  Session.documentHash session = documentHash ->
  String.eqb (Session.status session) "completed" = false ->
  (now >? Session.expiresAt session) = false ->
  isRequired role session = true ->
  hasSigned role session = false ->
  addSignature session role privateKey signerInfo now uuid
  = (Ret (signedSession session role signature publicKey signerInfo now uuid),
     signedSession session role signature publicKey signerInfo now uuid).
Proof.
  intros Hhash Hst Ht Hreq Hsig.
  rewrite addSignature_cases, Hst, Ht, Hreq, Hsig, Hhash.
  destruct (scenario_sign now) as (sd & -> & ->).
  rewrite scenario_publicKey, scenario_verify. reflexivity.
Qed.

Lemma scenario_step1 :
  addSignature session0 "dosen" privateKey (info "Dr. Andi") (created + 3600000)
    "signature-1"
  = (Ret session1, session1).
Proof. apply scenario_accept; reflexivity. Qed.

Lemma scenario_step2 :
  addSignature session1 "kaprodi" privateKey (info "Dr. Budi") (created + 7200000)
    "signature-2"
  = (Ret session2, session2).
Proof. apply scenario_accept; reflexivity. Qed.

Lemma scenario_run : run session0 2 session2.
Proof.
  eapply run_accept; [eapply run_accept; [apply run_start |] |].
  - exact scenario_step1.
  - exact scenario_step2.
Qed.

(** The board's five signatures are accepted one after the other. *)
Lemma scenario_board_run : run boardSession0 5 boardSession.
Proof.
  unfold boardSession, board. cbn [fold_left fst snd].
  repeat (eapply run_accept; [| apply scenario_accept; reflexivity]).
  apply run_start.
Qed.

End ScenarioFacts.

(** C1, witness: the scenario's session, opened with threshold 2 for three
    required signers, after its two accepted signatures. *)
Lemma status_completed_exactly_at_threshold_witness :
  Session.threshold Scenario.session2 = Session.threshold Scenario.session0
  /\ len (Session.signatures Scenario.session2) = Z.of_nat 2
  /\ Z.of_nat 2 <= Session.threshold Scenario.session0
  /\ (Session.status Scenario.session2 = "completed"
      <-> Session.threshold Scenario.session0 <= Z.of_nat 2)
  /\ (Z.of_nat 2 < Session.threshold Scenario.session0 ->
        Session.status Scenario.session2 = "pending"
        /\ Session.completedAt Scenario.session2 = None)
  /\ (Session.threshold Scenario.session0 <= Z.of_nat 2 ->
        (exists at_, Session.completedAt Scenario.session2 = Some at_)
        /\ forall role privateKey signerInfo now' uuid,
             addSignature (core := Nacl.tweetnacl)
               Scenario.session2 role privateKey signerInfo now' uuid
             = (failed msg_completed, Scenario.session2)).
Proof.
  apply (status_completed_exactly_at_threshold (core := Nacl.tweetnacl)
           Scenario.document Scenario.signers (Some 2) Scenario.created
           "session-1" "document-1" Scenario.session0 2 Scenario.session2).
  - exact scenario_initialized.
  - reflexivity.
  - exact scenario_run.
Defined.

(** C3, witness: the lecturer, who signed the still open session, signs
    again and meets the duplicate-signature rejection. *)
Lemma signed_role_is_rejected_witness :
  exists m,
    addSignature (core := Nacl.tweetnacl) Scenario.session1 "dosen" Scenario.privateKey
      (Scenario.info "Dr. Andi") (Scenario.created + 5400000) "signature-1b"
    = (failed m, Scenario.session1)
    /\ (Session.status Scenario.session1 = "completed" -> m = msg_completed)
    /\ (Session.status Scenario.session1 <> "completed" ->
        Session.expiresAt Scenario.session1 < Scenario.created + 5400000 ->
        m = msg_expired)
    /\ (Session.status Scenario.session1 <> "completed" ->
        Scenario.created + 5400000 <= Session.expiresAt Scenario.session1 ->
        isRequired "dosen" Scenario.session1 = false -> m = msg_unknown "dosen")
    /\ (Session.status Scenario.session1 <> "completed" ->
        Scenario.created + 5400000 <= Session.expiresAt Scenario.session1 ->
        isRequired "dosen" Scenario.session1 = true -> m = msg_duplicate "dosen").
Proof.
  apply (signed_role_is_rejected (core := Nacl.tweetnacl)). reflexivity.
Defined.

(** C3, counterexample: once the second signature has completed the session,
    the lecturer, whose signature is stored, signs again and is rejected
    because the session is completed, not as a duplicate. *)
Lemma completed_session_hides_duplicate :
  run (core := Nacl.tweetnacl) Scenario.session0 2 Scenario.session2
  /\ hasSigned "dosen" Scenario.session2 = true
  /\ addSignature (core := Nacl.tweetnacl) Scenario.session2 "dosen" Scenario.privateKey
       (Scenario.info "Dr. Andi") (Scenario.created + 10800000) "signature-3"
     = (Throw "Failed to add signature: Multi-signature session is already completed",
        Scenario.session2)
  /\ msg_duplicate "dosen" = "Signer with role 'dosen' has already signed this document".
Proof.
  split; [exact scenario_run |]. split; [reflexivity |]. split; [| reflexivity].
  rewrite addSignature_cases. reflexivity.
Qed.

(** C4, witness: the opened session, eight days after its creation. *)
Lemma closed_session_is_rejected_witness :
  exists m,
    addSignature (core := Nacl.tweetnacl) Scenario.session0 "dosen" Scenario.privateKey
      (Scenario.info "Dr. Andi") (Scenario.created + 691200000) "signature-1"
    = (failed m, Scenario.session0)
    /\ (m = msg_completed \/ m = msg_expired).
Proof.
  apply (closed_session_is_rejected (core := Nacl.tweetnacl)).
  right. reflexivity.
Defined.

(** C4, counterexample: a session object whose status is [cancelled], one
    hour after its creation, accepts the lecturer's signature. *)
Lemma cancelled_status_still_accepts :
  Session.status Scenario.cancelled0 = "cancelled"
  /\ addSignature (core := Nacl.tweetnacl) Scenario.cancelled0 "dosen" Scenario.privateKey
       (Scenario.info "Dr. Andi") (Scenario.created + 3600000) "signature-1"
     = (Ret (signedSession Scenario.cancelled0 "dosen" Scenario.signature
               Scenario.publicKey (Scenario.info "Dr. Andi")
               (Scenario.created + 3600000) "signature-1"),
        signedSession Scenario.cancelled0 "dosen" Scenario.signature
          Scenario.publicKey (Scenario.info "Dr. Andi")
          (Scenario.created + 3600000) "signature-1")
  /\ len (Session.signatures
            (signedSession Scenario.cancelled0 "dosen" Scenario.signature
               Scenario.publicKey (Scenario.info "Dr. Andi")
               (Scenario.created + 3600000) "signature-1")) = 1.
Proof.
  split; [reflexivity |]. split; [| reflexivity].
  apply scenario_accept; reflexivity.
Qed.

(** ** verifyMultiSignature *)

Section VerificationFacts.
Context {core : Nacl.Ed25519}.

(** A stored signature verifies on its own: [verify] returns [true] on its
    bytes, the session's document hash and its signer's public key. *)
Definition verifies (session : Session.t) (signature : Signature.t) : bool :=
  match verify (Signature.signature signature) (Session.documentHash session)
               (Signer.publicKey (Signature.signer signature)) with
  | Ret true => true
  | _ => false
  end.

Lemma verifyOne_valid session signature :
  SignatureResult.valid (verifyOne session signature) = verifies session signature.
Proof.
  unfold verifyOne, verifies.
  destruct (verify _ _ _) as [[|] | m]; reflexivity.
Qed.

Lemma verifyOne_identity session signature :
  SignatureResult.signatureId (verifyOne session signature)
  = Signature.signatureId signature
  /\ SignatureResult.signer (verifyOne session signature) = Signature.signer signature.
Proof.
  unfold verifyOne. destruct (verify _ _ _) as [b | m]; split; reflexivity.
Qed.

Lemma count_valid session signatures :
  List.length (filter SignatureResult.valid (map (verifyOne session) signatures))
  = List.length (filter (verifies session) signatures).
Proof.
  induction signatures as [| g rest IH]; [reflexivity |].
  cbn [map filter]. rewrite verifyOne_valid.
  destruct (verifies session g); cbn [List.length]; rewrite IH; reflexivity.
Qed.

(** C5: [verifyMultiSignature] first recomputes the document hash.  When
    it differs from the session's, the result is invalid, says that the
    document was modified, and lists no signature result.  Otherwise there
    is one result per stored signature, in order, each carrying the
    verdict of that signature alone (a signature that fails, or whose
    verification throws, is reported invalid and the others are still
    reported), and the overall result is valid exactly when the number of
    signatures that verify is at least the threshold. *)
Theorem verifyMultiSignature_counts_valid_signatures session document now :
  match hashOfDocument document with
  | Throw m =>
      verifyMultiSignature session document now
      = Throw ("Failed to verify multi-signature: " ++ m)
  | Ret documentHash =>
      exists result,
        verifyMultiSignature session document now = Ret result
        /\ if String.eqb documentHash (Session.documentHash session)
           then
             Verification.documentHashMatch result = true
             /\ List.length (Verification.signatureResults result)
                = List.length (Session.signatures session)
             /\ (forall i signature,
                    nth_error (Session.signatures session) i = Some signature ->
                    exists r,
                      nth_error (Verification.signatureResults result) i = Some r
                      /\ SignatureResult.signatureId r = Signature.signatureId signature
                      /\ SignatureResult.signer r = Signature.signer signature
                      /\ SignatureResult.valid r = verifies session signature)
             /\ (Verification.valid result = true
                 <-> Session.threshold session
                     <= Z.of_nat (List.length (filter (verifies session)
                                                 (Session.signatures session))))
           else
             Verification.valid result = false
             /\ Verification.documentHashMatch result = false
             /\ Verification.signatureResults result = []
             /\ Verification.reason result = "Document has been modified after signing"
  end.
Proof.
  unfold verifyMultiSignature.
  destruct (hashOfDocument document) as [h | m]; [| reflexivity].
  cbn [Js.bind].
  destruct (String.eqb h (Session.documentHash session)); cbn [negb Js.rethrow].
  - eexists. split; [reflexivity |].
    cbn [Verification.documentHashMatch Verification.signatureResults
         Verification.valid].
    split; [reflexivity |]. split; [apply length_map |]. split.
    + intros i g Hi. exists (verifyOne session g).
      split; [rewrite nth_error_map, Hi; reflexivity |].
      destruct (verifyOne_identity session g) as [H1 H2].
      repeat split; try assumption. apply verifyOne_valid.
    + rewrite count_valid, Z.geb_leb, Z.leb_le. reflexivity.
  - eexists. split; [reflexivity |]. repeat split.
Qed.

End VerificationFacts.

(** ** The document hash *)

Section HashFacts.




End HashFacts.



(** ** QR codes *)

Section QRFacts.
Context {qrcode : QRCodeService.QRCode}.
Import QRCodeService.

Lemma lookup_own_in k props :
  Js.lookup_own k props <> None -> In k (map fst props).
Proof.
  induction props as [| [k' v] ps IH]; cbn [Js.lookup_own map fst]; [congruence |].
  destruct (Js.lookup_own k ps) eqn:E.
  - intros _. right. apply IH. discriminate.
  - destruct (String.eqb k k') eqn:Ek; [| congruence].
    intros _. left. apply String.eqb_eq in Ek. symmetry. exact Ek.
Qed.

Lemma lookup_own_readback_none k props :
  Js.lookup_own k props = None -> Js.lookup_own k (JSON.readback_members props) = None.
Proof.
  induction props as [| [k' x] ps IH]; [reflexivity |].
  cbn [Js.lookup_own JSON.readback_members].
  destruct (Js.lookup_own k ps); [discriminate |].
  destruct (String.eqb k k') eqn:Ek; [discriminate |]. intros _.
  destruct x; try (apply IH; reflexivity);
    cbn [Js.lookup_own]; rewrite IH by reflexivity; rewrite Ek; reflexivity.
Qed.

Lemma lookup_own_readback_some k props x :
  NoDup (map fst props) ->
  Js.lookup_own k props = Some x ->
  Js.lookup_own k (JSON.readback_members props)
  = match x with
    | Undefined => None
    | _ => Some (JSON.readback x)
    end.
Proof.
  induction props as [| [k' x'] ps IH]; intros Hnd; [discriminate |].
  cbn [map fst] in Hnd. inversion Hnd as [| ? ? Hk' Hnd']; subst.
  cbn [Js.lookup_own].
  destruct (Js.lookup_own k ps) as [y |] eqn:E.
  - intros Hx. injection Hx as ->.
    assert (Hk : String.eqb k k' = false).
    { apply String.eqb_neq. intros ->. apply Hk'. apply lookup_own_in. congruence. }
    rewrite <- (IH Hnd' eq_refl). cbn [JSON.readback_members].
    destruct x'; try reflexivity; cbn [Js.lookup_own]; rewrite Hk;
      destruct (Js.lookup_own k (JSON.readback_members ps)); reflexivity.
  - destruct (String.eqb k k') eqn:Ek; [| discriminate].
    intros Hx. injection Hx as ->.
    pose proof (lookup_own_readback_none k ps E) as Hnone.
    cbn [JSON.readback_members].
    destruct x; try exact Hnone; cbn [Js.lookup_own]; rewrite Hnone, Ek; reflexivity.
Qed.

(** Reading a member back from a parsed object whose keys were distinct. *)
Lemma lookup_readback_members k props :
  NoDup (map fst props) ->
  Js.lookup k (JSON.readback_members props) = JSON.readback (Js.lookup k props).
Proof.
  intros Hnd. unfold Js.lookup.
  destruct (Js.lookup_own k props) as [x |] eqn:E.
  - rewrite (lookup_own_readback_some k props x Hnd E). destruct x; reflexivity.
  - rewrite (lookup_own_readback_none k props E). reflexivity.
Qed.

Lemma stringify_object_Obj props :
  JSON.stringify (Obj props) = Some (stringify_object (Obj props)).
Proof. reflexivity. Qed.

Lemma parse_stringify_object props :
  JSON.parse (stringify_object (Obj props)) = Ret (Obj (JSON.readback_members props)).
Proof. exact (parse_stringify (Obj props) _ (stringify_object_Obj props)). Qed.

(** The payload and the text of the reference form. *)
Definition referenceObject (uuid : string) (documentId prefix : value) (count : Z)
  : value :=
  Obj [("type", Str "verification_url");
       ("verificationId", Str uuid);
       ("url", Str ("/api/verification/" ++ uuid));
       ("documentId", documentId);
       ("quickVerify",
         Obj [("documentHash", prefix); ("signatureCount", Num count)])].

(** A call that returns: the payload was built, its length decides the
    form, and the reference form needs a string [documentHash]. *)
Lemma generateDocumentQR_returned signatureData documentMetadata now uuid store r store' :
  generateDocumentQR signatureData documentMetadata now uuid store = (Ret r, store') ->
  exists props,
    verificationPayload signatureData documentMetadata now = Ret (Obj props)
    /\ Js.lookup "type" props = Str "document_verification"
    /\ NoDup (map fst props)
    /\ QRResult.payload r = Obj props
    /\ QRResult.size r = String.length (stringify_object (Obj props))
    /\ QRResult.compressed r = (2000 <? String.length (stringify_object (Obj props)))%nat
    /\ if QRResult.compressed r
       then exists documentId h signatures,
              Js.get documentMetadata "id" = Ret documentId
              /\ Js.get signatureData "documentHash" = Ret (Str h)
              /\ Js.get signatureData "signatures" = Ret signatures
              /\ QRResult.qrData r
                 = stringify_object
                     (referenceObject uuid documentId (Str (substring0 16 h))
                        (signatureCount signatures))
       else QRResult.qrData r = stringify_object (Obj props).
Proof.
  unfold generateDocumentQR, mrethrow, mbind, mlift, mret.
  destruct (verificationPayload signatureData documentMetadata now) as [payload | m] eqn:Ep;
    [| discriminate].
  assert (Hshape : exists props, payload = Obj props
                     /\ Js.lookup "type" props = Str "document_verification"
                     /\ NoDup (map fst props)).
  { unfold verificationPayload in Ep.
    repeat match type of Ep with
           | Js.bind ?c _ = _ => destruct c; cbn [Js.bind] in Ep; [| discriminate Ep]
           end.
    injection Ep as <-. eexists. split; [reflexivity |]. split; [reflexivity |].
    cbn [map fst]. repeat constructor; cbn [In]; intuition discriminate. }
  destruct Hshape as (props & -> & Htype & Hnd).
  destruct (2000 <? String.length (stringify_object (Obj props)))%nat eqn:Hlen.
  - destruct (Js.get documentMetadata "id") as [documentId | ?]; [| discriminate].
    destruct (Js.get signatureData "documentHash") as [documentHash | ?]; [| discriminate].
    destruct (substring_0_16 documentHash) as [prefix | ?] eqn:Eprefix; [| discriminate].
    destruct (Js.get signatureData "signatures") as [signatures | ?]; [| discriminate].
    unfold _storeVerificationData, mwrite.
    destruct (toDataURL _) as [image | ?]; [| discriminate].
    cbn [Js.rethrow]. intro H. injection H as <- <-.
    exists props. cbn [QRResult.payload QRResult.size QRResult.compressed QRResult.qrData].
    rewrite Hlen. repeat (split; [reflexivity || assumption |]).
    destruct documentHash; try discriminate Eprefix. injection Eprefix as <-.
    eexists. eexists. eexists. repeat split.
  - destruct (toDataURL _) as [image | ?]; [| discriminate].
    cbn [Js.rethrow]. intro H. injection H as <- <-.
    exists props. cbn [QRResult.payload QRResult.size QRResult.compressed QRResult.qrData].
    rewrite Hlen. repeat (split; [reflexivity || assumption |]). reflexivity.
Qed.

(** The reference text parses to a [verification_url] object, and
    [parseQRData] turns it into a [url_verification] result that carries
    the same fields. *)
Lemma reference_parsed uuid documentId h count :
  let text := stringify_object (referenceObject uuid documentId (Str h) count) in
  let quickVerify := Obj [("documentHash", Str h); ("signatureCount", Num count)] in
  exists fields,
    JSON.parse text = Ret (Obj fields)
    /\ Js.lookup "type" fields = Str "verification_url"
    /\ Js.lookup "quickVerify" fields = quickVerify
    /\ parseQRData text
       = Ret (Obj [("type", Str "url_verification");
                   ("verificationId", Str uuid);
                   ("url", Str ("/api/verification/" ++ uuid));
                   ("documentId", JSON.readback documentId);
                   ("quickVerify", quickVerify)]).
Proof.
  cbv zeta. unfold referenceObject, parseQRData.
  rewrite parse_stringify_object. eexists. split; [reflexivity |].
  cbn [Js.bind Js.get].
  assert (Hnd : NoDup (map fst
            [("type", Str "verification_url"); ("verificationId", Str uuid);
             ("url", Str ("/api/verification/" ++ uuid)); ("documentId", documentId);
             ("quickVerify",
               Obj [("documentHash", Str h); ("signatureCount", Num count)])])).
  { cbn [map fst]. repeat constructor; cbn [In]; intuition discriminate. }
  rewrite !(lookup_readback_members _ _ Hnd).
  repeat split.
Qed.

(** The embedded text parses to the payload read back, which
    [parseQRData] wraps in an [embedded_verification] result. *)
Lemma embedded_parsed props :
  Js.lookup "type" props = Str "document_verification" ->
  NoDup (map fst props) ->
  let text := stringify_object (Obj props) in
  exists fields,
    JSON.parse text = Ret (Obj fields)
    /\ Js.lookup "type" fields = Str "document_verification"
    /\ parseQRData text
       = Ret (Obj [("type", Str "embedded_verification");
                   ("payload", JSON.readback (Obj props))]).
Proof.
  intros Htype Hnd. cbv zeta. unfold parseQRData.
  rewrite parse_stringify_object. eexists. split; [reflexivity |].
  cbn [Js.bind Js.get]. rewrite (lookup_readback_members _ _ Hnd), Htype.
  split; reflexivity.
Qed.


Lemma substring0_prefix n s :
  exists tail, s = substring0 n s ++ tail
               /\ String.length (substring0 n s) = Nat.min n (String.length s).
Proof.
  revert s. induction n as [| n IH]; intros s.
  - exists s. split; reflexivity.
  - destruct s as [| c s]; [exists ""; split; reflexivity |].
    destruct (IH s) as (tail & Hs & Hlen). exists tail.
    cbn [substring0 append String.length Nat.min]. rewrite <- Hs, Hlen. split; reflexivity.
Qed.

(** C8: when the encoding takes the reference form, the artifact's
    [documentHash] is a string, and the [quickVerify] member of the QR
    text, which [parseQRData] hands on, holds the first 16 characters of
    that hash and the number of signatures: the length of the artifact's
    [signatures] when that is an array, and 1 otherwise. *)
Theorem reference_form_carries_hash_prefix_and_count
    signatureData documentMetadata now uuid store r store' :
  generateDocumentQR signatureData documentMetadata now uuid store = (Ret r, store') ->
  variant_of_data (QRResult.qrData r) = Some reference ->
  exists documentHash signatures count data parsed,
    Js.get signatureData "documentHash" = Ret (Str documentHash)
    /\ Js.get signatureData "signatures" = Ret signatures
    /\ (forall items, signatures = Arr items -> count = Z.of_nat (List.length items))
    /\ ((forall items, signatures <> Arr items) -> count = 1)
    /\ JSON.parse (QRResult.qrData r) = Ret data
    /\ parseQRData (QRResult.qrData r) = Ret parsed
    /\ Js.get_opt data "quickVerify" = Js.get_opt parsed "quickVerify"
    /\ Js.get_opt parsed "quickVerify"
       = Obj [("documentHash", Str (substring0 16 documentHash));
              ("signatureCount", Num count)]
    /\ (exists tail, documentHash = substring0 16 documentHash ++ tail)
    /\ String.length (substring0 16 documentHash)
       = Nat.min 16 (String.length documentHash).
Proof.
  intros Hgen Hvariant.
  destruct (generateDocumentQR_returned _ _ _ _ _ _ _ Hgen)
    as (props & _ & Htype & Hnd & _ & _ & _ & Hdata).
  destruct (QRResult.compressed r).
  2: { exfalso. rewrite Hdata in Hvariant.
       destruct (embedded_parsed props Htype Hnd) as (fields & Hparse & Hty & _).
       cbv zeta in *. unfold variant_of_data in Hvariant.
       rewrite Hparse in Hvariant. cbn [Js.get_opt] in Hvariant.
       rewrite Hty in Hvariant. discriminate Hvariant. }
  destruct Hdata as (documentId & h & signatures & _ & Hhash & Hsigs & ->).
  destruct (reference_parsed uuid documentId (substring0 16 h)
              (signatureCount signatures)) as (fields & Hparse & _ & Hquick & Hqr).
  cbv zeta in *.
  destruct (substring0_prefix 16 h) as (tail & Htail & Hlen).
  exists h, signatures, (signatureCount signatures). eexists. eexists.
  split; [exact Hhash |]. split; [exact Hsigs |].
  split; [intros items ->; reflexivity |].
  split.
  { intros Hother. destruct signatures as [| | | | | items |]; try reflexivity.
    exfalso. exact (Hother items eq_refl). }
  split; [exact Hparse |].
  split; [exact Hqr |]. cbn [Js.get_opt]. rewrite Hquick.
  split; [reflexivity |]. split; [reflexivity |]. split; [| exact Hlen].
  exists tail. exact Htail.
Qed.
End QRFacts.



(** C8, witness: the QR code of the board's session, five signers with long
    names, takes the reference form; its quick-look member holds the first
    16 digits of the document hash and the count 5. *)
Lemma reference_form_carries_hash_prefix_and_count_witness :
  exists items data parsed,
    Js.get (Scenario.aggregate Scenario.boardSession) "documentHash"
    = Ret (Str Scenario.documentHash)
    /\ Js.get (Scenario.aggregate Scenario.boardSession) "signatures" = Ret (Arr items)
    /\ List.length items = 5%nat
    /\ JSON.parse (QRCodeService.QRResult.qrData Scenario.boardQR) = Ret data
    /\ QRCodeService.parseQRData (QRCodeService.QRResult.qrData Scenario.boardQR)
       = Ret parsed
    /\ Js.get_opt data "quickVerify" = Js.get_opt parsed "quickVerify"
    /\ Js.get_opt parsed "quickVerify"
       = Obj [("documentHash", Str "40d6578e9d1e6052"); ("signatureCount", Num 5)].
Proof.
  destruct (reference_form_carries_hash_prefix_and_count (qrcode := Scenario.renderer)
              (Scenario.aggregate Scenario.boardSession)
              (Scenario.diploma Scenario.longTitle)
              (Scenario.created + 9000000) "verification-2" [] Scenario.boardQR
              (snd (QRCodeService.generateDocumentQR (qrcode := Scenario.renderer)
                      (Scenario.aggregate Scenario.boardSession)
                      (Scenario.diploma Scenario.longTitle)
                      (Scenario.created + 9000000) "verification-2" [])))
    as (documentHash & signatures & count & data & parsed
        & Hhash & Hsigs & Harray & _ & Hparse & Hqr & Hsame & Hquick & _).
  - vm_compute. reflexivity.
  - vm_compute. reflexivity.
  - assert (Eh : Js.get (Scenario.aggregate Scenario.boardSession) "documentHash"
                 = Ret (Str Scenario.documentHash)) by (vm_compute; reflexivity).
    assert (Es : exists items,
               Js.get (Scenario.aggregate Scenario.boardSession) "signatures"
               = Ret (Arr items) /\ List.length items = 5%nat)
      by (vm_compute; eexists; split; reflexivity).
    destruct Es as (items & Es & Hfive).
    rewrite Eh in Hhash. injection Hhash as <-.
    rewrite Es in Hsigs. injection Hsigs as <-.
    rewrite (Harray items eq_refl), Hfive in Hquick.
    exists items, data, parsed.
    split; [exact Eh |]. split; [exact Es |]. split; [exact Hfive |].
    split; [exact Hparse |]. split; [exact Hqr |]. split; [exact Hsame |].
    exact Hquick.
Defined.

(* ================================================================== *)
(** * Further properties *)

(** ** Buffers and base64 *)

Section Base64Facts.
Import Node.

Lemma forall_range (P : Z -> bool) (n : nat) :
  forallb P (map Z.of_nat (seq 0 n)) = true ->
  forall z, 0 <= z < Z.of_nat n -> P z = true.
Proof.
  intros H z Hz. rewrite forallb_forall in H. apply H.
  rewrite <- (Z2Nat.id z) by lia. apply in_map, in_seq. lia.
Qed.

Lemma Z_of_byte_range b : 0 <= Z_of_byte b < 256.
Proof.
  unfold Z_of_byte. pose proof (Byte.to_N_bounded b). lia.
Qed.

Lemma byte_of_Z_of_byte b : byte_of_Z (Z_of_byte b) = b.
Proof. destruct b; reflexivity. Qed.

Lemma byte_of_Z_mod z b : z mod 256 = Z_of_byte b -> byte_of_Z z = b.
Proof.
  intros H. rewrite <- (byte_of_Z_of_byte b), <- H.
  unfold byte_of_Z. rewrite Z.mod_mod by lia. reflexivity.
Qed.

(** A sextet is written as a character of the alphabet, which reads back
    as that sextet and is not the padding character. *)
Definition sextet_ok (v : Z) : bool :=
  negb (Ascii.eqb (base64_char v) "="%char)
  && match unbase64 (base64_char v) with
     | Some w => w =? v
     | None => false
     end.

Lemma sextet_char v :
  0 <= v < 64 ->
  Ascii.eqb (base64_char v) "="%char = false
  /\ unbase64 (base64_char v) = Some v.
Proof.
  intros Hv.
  assert (H : sextet_ok v = true).
  { apply (forall_range sextet_ok 64); [vm_compute; reflexivity | lia]. }
  unfold sextet_ok in H. apply andb_true_iff in H. destruct H as [H1 H2].
  split; [apply negb_true_iff; exact H1 |].
  destruct (unbase64 (base64_char v)) as [w |]; [| discriminate].
  apply Z.eqb_eq in H2. congruence.
Qed.

Lemma sextets_cons v s :
  0 <= v < 64 -> sextets (String (base64_char v) s) = v :: sextets s.
Proof.
  intros Hv. destruct (sextet_char v Hv) as [H1 H2].
  cbn [sextets]. rewrite H1, H2. reflexivity.
Qed.

Definition in_range (lo hi v : Z) : bool := (lo <=? v) && (v <? hi).

Lemma in_range_spec lo hi v : in_range lo hi v = true <-> lo <= v < hi.
Proof. unfold in_range. rewrite andb_true_iff, Z.leb_le, Z.ltb_lt. tauto. Qed.

(** The three bytes of a group, through their four sextets. *)
Definition first_ok (x yh : Z) : bool :=
  let v1 := Z.shiftr x 2 in
  let v2 := Z.lor (Z.shiftl (Z.land x 3) 4) yh in
  in_range 0 64 v1 && in_range 0 64 v2
  && ((Z.lor (Z.shiftl v1 2) (Z.shiftr v2 4)) mod 256 =? x).

Definition second_ok (xl y zh : Z) : bool :=
  let v2 := Z.lor (Z.shiftl xl 4) (Z.shiftr y 4) in
  let v3 := Z.lor (Z.shiftl (Z.land y 15) 2) zh in
  in_range 0 64 v3
  && ((Z.lor (Z.shiftl (Z.land v2 15) 4) (Z.shiftr v3 2)) mod 256 =? y).

Definition third_ok (yl z : Z) : bool :=
  let v3 := Z.lor (Z.shiftl yl 2) (Z.shiftr z 6) in
  let v4 := Z.land z 63 in
  in_range 0 64 v4
  && ((Z.lor (Z.shiftl (Z.land v3 3) 6) v4) mod 256 =? z).

Lemma first_byte x yh : 0 <= x < 256 -> 0 <= yh < 16 -> first_ok x yh = true.
Proof.
  intros Hx Hy.
  assert (H : forallb (fun x => forallb (first_ok x) (map Z.of_nat (seq 0 16)))
                (map Z.of_nat (seq 0 256)) = true) by (vm_compute; reflexivity).
  apply (forall_range (first_ok x) 16); [| lia].
  apply (forall_range (fun x => forallb (first_ok x) (map Z.of_nat (seq 0 16))) 256 H).
  lia.
Qed.

Lemma second_byte xl y zh :
  0 <= xl < 4 -> 0 <= y < 256 -> 0 <= zh < 4 -> second_ok xl y zh = true.
Proof.
  intros Hx Hy Hz.
  assert (H : forallb (fun xl => forallb (fun y => forallb (second_ok xl y)
                                             (map Z.of_nat (seq 0 4)))
                                   (map Z.of_nat (seq 0 256)))
                (map Z.of_nat (seq 0 4)) = true) by (vm_compute; reflexivity).
  apply (forall_range (second_ok xl y) 4); [| lia].
  apply (forall_range (fun y => forallb (second_ok xl y) (map Z.of_nat (seq 0 4))) 256);
    [| lia].
  apply (forall_range (fun xl => forallb (fun y => forallb (second_ok xl y)
                                            (map Z.of_nat (seq 0 4)))
                                  (map Z.of_nat (seq 0 256))) 4 H).
  lia.
Qed.

Lemma third_byte yl z : 0 <= yl < 16 -> 0 <= z < 256 -> third_ok yl z = true.
Proof.
  intros Hy Hz.
  assert (H : forallb (fun yl => forallb (third_ok yl) (map Z.of_nat (seq 0 256)))
                (map Z.of_nat (seq 0 16)) = true) by (vm_compute; reflexivity).
  apply (forall_range (third_ok yl) 256); [| lia].
  apply (forall_range (fun yl => forallb (third_ok yl) (map Z.of_nat (seq 0 256))) 16 H).
  lia.
Qed.

Lemma shiftr_range x k n :
  0 <= x < 256 -> 0 <= k -> 2 ^ k * n = 256 -> 0 <= Z.shiftr x k < n.
Proof.
  intros Hx Hk Hn. rewrite Z.shiftr_div_pow2 by lia.
  assert (0 < 2 ^ k) by (apply Z.pow_pos_nonneg; lia).
  split; [apply Z.div_pos; lia |].
  apply Z.div_lt_upper_bound; lia.
Qed.

Lemma land_range x k :
  0 <= k -> 0 <= Z.land x (2 ^ k - 1) < 2 ^ k.
Proof.
  intros Hk. change (2 ^ k - 1) with (Z.pred (2 ^ k)).
  rewrite <- Z.ones_equiv, Z.land_ones by lia.
  apply Z.mod_pos_bound. apply Z.pow_pos_nonneg; lia.
Qed.

Lemma list_ind3 {A} (P : list A -> Prop) :
  P [] -> (forall x, P [x]) -> (forall x y, P [x; y]) ->
  (forall x y z l, P l -> P (x :: y :: z :: l)) ->
  forall l, P l.
Proof.
  intros H0 H1 H2 H3.
  fix IH 1. intros [| x [| y [| z l]]].
  - exact H0.
  - apply H1.
  - apply H2.
  - apply H3. apply IH.
Qed.

Ltac byte_facts :=
  repeat match goal with
         | H : _ && _ = true |- _ => apply andb_true_iff in H; destruct H
         | H : in_range _ _ _ = true |- _ => apply in_range_spec in H
         | H : (_ =? _) = true |- _ => apply Z.eqb_eq in H
         end.

(** [Buffer.from(buf.toString('base64'), 'base64')] gives the bytes of
    [buf] back. *)
Lemma from_base64_to_base64 (b : Buffer) : from_base64 (to_base64 b) = b.
Proof.
  unfold from_base64.
  induction b as [| x | x y | x y z l IH] using list_ind3.
  - reflexivity.
  - pose proof (Z_of_byte_range x) as Hx.
    pose proof (first_byte (Z_of_byte x) 0 Hx ltac:(lia)) as H1.
    unfold first_ok in H1. cbv zeta in H1. rewrite Z.lor_0_r in H1. byte_facts.
    cbn [to_base64]. cbv zeta.
    rewrite !sextets_cons by assumption.
    cbn [sextets Ascii.eqb Bool.eqb bytes_of_sextets].
    f_equal. apply byte_of_Z_mod. assumption.
  - pose proof (Z_of_byte_range x) as Hx. pose proof (Z_of_byte_range y) as Hy.
    pose proof (first_byte (Z_of_byte x) (Z.shiftr (Z_of_byte y) 4) Hx
                  (shiftr_range _ 4 16 Hy ltac:(lia) eq_refl)) as H1.
    pose proof (second_byte (Z.land (Z_of_byte x) 3) (Z_of_byte y) 0
                  (land_range _ 2 ltac:(lia)) Hy ltac:(lia)) as H2.
    unfold first_ok in H1. unfold second_ok in H2. cbv zeta in H1, H2.
    rewrite Z.lor_0_r in H2. byte_facts.
    cbn [to_base64]. cbv zeta.
    rewrite !sextets_cons by assumption.
    cbn [sextets Ascii.eqb Bool.eqb bytes_of_sextets].
    f_equal; [| f_equal]; apply byte_of_Z_mod; assumption.
  - pose proof (Z_of_byte_range x) as Hx. pose proof (Z_of_byte_range y) as Hy.
    pose proof (Z_of_byte_range z) as Hz.
    pose proof (first_byte (Z_of_byte x) (Z.shiftr (Z_of_byte y) 4) Hx
                  (shiftr_range _ 4 16 Hy ltac:(lia) eq_refl)) as H1.
    pose proof (second_byte (Z.land (Z_of_byte x) 3) (Z_of_byte y)
                  (Z.shiftr (Z_of_byte z) 6)
                  (land_range _ 2 ltac:(lia)) Hy
                  (shiftr_range _ 6 4 Hz ltac:(lia) eq_refl)) as H2.
    pose proof (third_byte (Z.land (Z_of_byte y) 15) (Z_of_byte z)
                  (land_range _ 4 ltac:(lia)) Hz) as H3.
    unfold first_ok in H1. unfold second_ok in H2. unfold third_ok in H3.
    cbv zeta in H1, H2, H3. byte_facts.
    cbn [to_base64]. cbv zeta.
    rewrite !sextets_cons by assumption.
    cbn [bytes_of_sextets]. rewrite IH.
    f_equal; [| f_equal; [| f_equal]]; apply byte_of_Z_mod; assumption.
Qed.

End Base64Facts.

(** ** The digest *)

Section DigestFacts.
Import Node.

Lemma round_length wbits S0 S1 st kw :
  List.length (round wbits S0 S1 st kw) = List.length st.
Proof.
  unfold round.
  destruct st as [| a [| b [| c [| d [| e [| f [| g [| h [| i rest]]]]]]]]];
    reflexivity.
Qed.

Lemma rounds_length wbits S0 S1 l st :
  List.length (fold_left (round wbits S0 S1) l st) = List.length st.
Proof.
  revert st. induction l as [| kw l IH]; intros st; cbn [fold_left]; [reflexivity |].
  rewrite IH. apply round_length.
Qed.

Lemma compress_length wbits S0 S1 s0 s1 K h block :
  List.length (compress wbits S0 S1 s0 s1 K h block) = List.length h.
Proof.
  unfold compress. rewrite length_map, length_combine, rounds_length.
  apply Nat.min_id.
Qed.

Lemma blocks_length wbits S0 S1 s0 s1 K fuel h ws :
  List.length (blocks wbits S0 S1 s0 s1 K fuel h ws) = List.length h.
Proof.
  revert h ws. induction fuel as [| fuel IH]; intros h ws; [reflexivity |].
  destruct ws as [| w ws]; [reflexivity |].
  cbn [blocks]. rewrite IH. apply compress_length.
Qed.

Lemma sha256_words_length msg : List.length (sha256_words msg) = 8%nat.
Proof. unfold sha256_words, sha2. rewrite blocks_length. reflexivity. Qed.

Definition is_hex (c : ascii) : bool :=
  let n := Z_of_ascii c in
  ((48 <=? n) && (n <=? 57)) || ((97 <=? n) && (n <=? 102)).

Fixpoint all_chars (p : ascii -> bool) (s : string) : bool :=
  match s with
  | EmptyString => true
  | String c rest => p c && all_chars p rest
  end.

Lemma all_chars_append p a b :
  all_chars p (a ++ b) = all_chars p a && all_chars p b.
Proof.
  induction a as [| c a IH]; cbn [append all_chars]; [reflexivity |].
  rewrite IH. apply andb_assoc.
Qed.

Lemma hex_digit_is_hex x : is_hex (hex_digit (Z.land x 15)) = true.
Proof.
  pose proof (land_range x 4 ltac:(lia)) as H. change (2 ^ 4 - 1) with 15 in H.
  apply (forall_range (fun n => is_hex (hex_digit n)) 16); [vm_compute; reflexivity |].
  cbn. lia.
Qed.

Lemma hex_digits_shape n x :
  String.length (hex_digits n x) = n /\ all_chars is_hex (hex_digits n x) = true.
Proof.
  revert x. induction n as [| n IH]; intros x; cbn [hex_digits]; [split; reflexivity |].
  destruct (IH (Z.shiftr x 4)) as [Hlen Hhex].
  rewrite length_append, all_chars_append, Hlen, Hhex.
  cbn [String.length all_chars]. rewrite hex_digit_is_hex. split; [lia | reflexivity].
Qed.

Lemma concat_hex_digits n l :
  String.length (String.concat "" (map (hex_digits n) l)) = (n * List.length l)%nat
  /\ all_chars is_hex (String.concat "" (map (hex_digits n) l)) = true.
Proof.
  induction l as [| x [| y l] IH].
  - cbn. split; [lia | reflexivity].
  - cbn [map String.concat List.length]. destruct (hex_digits_shape n x). split; [lia | assumption].
  - change (map (hex_digits n) (x :: y :: l))
      with (hex_digits n x :: hex_digits n y :: map (hex_digits n) l).
    rewrite concat_cons2. cbn [append].
    change (hex_digits n y :: map (hex_digits n) l) with (map (hex_digits n) (y :: l)).
    destruct IH as [IHlen IHhex]. destruct (hex_digits_shape n x) as [Hlen Hhex].
    rewrite length_append, all_chars_append, IHlen, IHhex, Hlen, Hhex.
    cbn [List.length]. split; [lia | reflexivity].
Qed.

(** The digest is 64 lower-case hexadecimal digits. *)
Lemma sha256_hex_shape s :
  String.length (sha256_hex s) = 64%nat /\ all_chars is_hex (sha256_hex s) = true.
Proof.
  unfold sha256_hex.
  destruct (concat_hex_digits 8 (sha256_words (map Z_of_byte (from_utf8 s)))) as [H1 H2].
  rewrite sha256_words_length in H1. split; assumption.
Qed.

End DigestFacts.

(** ** Keys and signatures by size *)

Section KeySizeFacts.
Import Node.

Lemma pack_length P : List.length (Nacl.Ed25519Z.pack P) = 32%nat.
Proof.
  destruct P as [[[x y] z] t]. unfold Nacl.Ed25519Z.pack, Nacl.Ed25519Z.le_bytes.
  rewrite length_map, length_seq. reflexivity.
Qed.

Lemma sign_length m sk :
  List.length (Nacl.Ed25519Z.sign m sk) = (64 + List.length m)%nat.
Proof.
  unfold Nacl.Ed25519Z.sign. cbv zeta.
  rewrite !length_app, pack_length. unfold Nacl.Ed25519Z.le_bytes.
  rewrite length_map, length_seq. lia.
Qed.

Lemma publicKey_length seed : List.length (Nacl.Ed25519Z.publicKey seed) = 32%nat.
Proof. unfold Nacl.Ed25519Z.publicKey. apply pack_length. Qed.

Lemma tweetnacl_sign_length m sk :
  List.length (Nacl.crypto_sign (Ed25519 := Nacl.tweetnacl) m sk)
  = (64 + List.length m)%nat.
Proof.
  unfold Nacl.crypto_sign, Nacl.tweetnacl.
  rewrite length_map, sign_length, length_map. reflexivity.
Qed.

Section AnyCore.
Context {core : Nacl.Ed25519}.

Lemma sign_by_size message privateKey now :
  sign message privateKey now
  = if (List.length (from_base64 privateKey) =? 64)%nat
    then Ret {| SignatureData.signature :=
                  to_base64 (firstn 64 (Nacl.crypto_sign (from_utf8 message)
                                          (from_base64 privateKey)));
                SignatureData.message := message;
                SignatureData.algorithm := "Ed25519";
                SignatureData.timestamp := Date.toISOString now;
                SignatureData.messageHash := sha256_hex message |}
    else Throw "Failed to create signature: bad secret key size".
Proof.
  unfold sign, Nacl.sign_detached, Nacl.crypto_sign_SECRETKEYBYTES, Nacl.crypto_sign_BYTES.
  cbv zeta.
  destruct (List.length (from_base64 privateKey) =? 64)%nat; reflexivity.
Qed.

Lemma getPublicKeyFromPrivate_by_size privateKey :
  getPublicKeyFromPrivate privateKey
  = if (List.length (from_base64 privateKey) =? 64)%nat
    then Ret (to_base64 (firstn 32 (skipn 32 (from_base64 privateKey))))
    else Throw "Failed to extract public key: bad secret key size".
Proof.
  unfold getPublicKeyFromPrivate, Nacl.keyPair_fromSecretKey_publicKey,
    Nacl.crypto_sign_SECRETKEYBYTES, Nacl.crypto_sign_PUBLICKEYBYTES.
  cbv zeta.
  destruct (List.length (from_base64 privateKey) =? 64)%nat; reflexivity.
Qed.

End AnyCore.
End KeySizeFacts.

(** ** Signing and verifying a document *)

Section DocumentSignatureFacts.
Import Node.

Lemma lookup_own_set_same k v props :
  NoDup (map fst props) -> Js.lookup_own k (Js.set k v props) = Some v.
Proof.
  induction props as [| [k' v'] ps IH]; intros Hnd; cbn [Js.set].
  - cbn [Js.lookup_own]. rewrite String.eqb_refl. reflexivity.
  - cbn [map fst] in Hnd. inversion Hnd as [| ? ? Hk' Hnd']; subst.
    destruct (String.eqb k k') eqn:Ek.
    + apply String.eqb_eq in Ek. subst k'. cbn [Js.lookup_own].
      destruct (Js.lookup_own k ps) eqn:E.
      * exfalso. apply Hk'. apply lookup_own_in. congruence.
      * rewrite String.eqb_refl. reflexivity.
    + cbn [Js.lookup_own]. rewrite (IH Hnd'). reflexivity.
Qed.

Lemma lookup_own_set_other k k' v props :
  k' <> k -> Js.lookup_own k' (Js.set k v props) = Js.lookup_own k' props.
Proof.
  intros Hne. induction props as [| [k0 v0] ps IH]; cbn [Js.set].
  - cbn [Js.lookup_own]. apply String.eqb_neq in Hne. rewrite Hne. reflexivity.
  - destruct (String.eqb k k0) eqn:Ek.
    + apply String.eqb_eq in Ek. subst k0. cbn [Js.lookup_own].
      apply String.eqb_neq in Hne. rewrite Hne. reflexivity.
    + cbn [Js.lookup_own]. rewrite IH. reflexivity.
Qed.

Lemma hashOfDocument_object props :
  exists documentHash,
    hashOfDocument (Obj props) = Ret documentHash
    /\ String.length documentHash = 64%nat
    /\ all_chars is_hex documentHash = true.
Proof.
  unfold hashOfDocument. cbn [Js.get Js.bind]. unfold Js.or.
  assert (H : exists s, JSON.stringify
                          (if Js.truthy (Js.lookup "content" props)
                           then Js.lookup "content" props else Obj props) = Some s).
  { destruct (Js.truthy (Js.lookup "content" props)) eqn:Ht.
    - destruct (JSON.stringify (Js.lookup "content" props)) as [s |] eqn:E; [eauto |].
      apply stringify_none in E. rewrite E in Ht. discriminate.
    - eexists. reflexivity. }
  destruct H as (s & ->). exists (sha256_hex s).
  split; [reflexivity |]. apply sha256_hex_shape.
Qed.

Section AnyCore.
Context {core : Nacl.Ed25519}.

Lemma signDocument_by_size props privateKey signerInfo now uuid documentHash :
  hashOfDocument (Obj props) = Ret documentHash ->
  signDocument (Obj props) privateKey signerInfo now uuid
  = if (List.length (from_base64 privateKey) =? 64)%nat
    then Ret (Obj [("documentId", Js.or (Js.lookup "id" props) (Str uuid));
                   ("documentHash", Str documentHash);
                   ("signature",
                     Str (to_base64 (firstn 64 (Nacl.crypto_sign (from_utf8 documentHash)
                                                  (from_base64 privateKey)))));
                   ("signer",
                     Obj (Js.set "publicKey"
                            (Str (to_base64 (firstn 32 (skipn 32 (from_base64 privateKey)))))
                            signerInfo));
                   ("metadata", Obj [("algorithm", Str "Ed25519");
                                     ("signedAt", Str (Date.toISOString now));
                                     ("version", Str "1.0")]);
                   ("verification", Obj [("verified", Bool false);
                                         ("verifiedAt", Null)])])
    else Throw "Failed to sign document: Failed to create signature: bad secret key size".
Proof.
  intros Hhash. unfold signDocument. rewrite Hhash. cbn [Js.bind].
  rewrite sign_by_size, getPublicKeyFromPrivate_by_size.
  destruct (List.length (from_base64 privateKey) =? 64)%nat; reflexivity.
Qed.

End AnyCore.
End DocumentSignatureFacts.

Section VerifyDocumentFacts.
Import Node.

(** The verdict of the Ed25519 core on a detached signature. *)
Definition opens {core : Nacl.Ed25519} (signature message publicKey : Buffer) : bool :=
  match Nacl.crypto_sign_open (signature ++ message)%list publicKey with
  | Some _ => true
  | None => false
  end.

(** The result [verifyDocumentSignature] gives for a modified document,
    and the one it gives after checking the signature. *)
Definition modifiedResult : value :=
  Obj [("valid", Bool false);
       ("reason", Str "Document has been modified");
       ("documentHashMatch", Bool false);
       ("signatureValid", Bool false)].

Definition checkedResult (isSignatureValid : bool) (signer signedAt : value)
    (now : Date.t) : value :=
  Obj [("valid", Bool isSignatureValid);
       ("reason", Str (if isSignatureValid then "Signature is valid"
                       else "Invalid signature"));
       ("documentHashMatch", Bool true);
       ("signatureValid", Bool isSignatureValid);
       ("signer", signer);
       ("signedAt", signedAt);
       ("verifiedAt", Str (Date.toISOString now))].

Section AnyCore.
Context {core : Nacl.Ed25519} {buffers : BufferFrom}.

Lemma verifyValues_strings signature message publicKey :
  verifyValues (Str signature) message (Str publicKey)
  = verify signature message publicKey.
Proof.
  unfold verifyValues, verify. rewrite !from_value_string. reflexivity.
Qed.

Lemma strict_eq_string_spec s v : Js.strict_eq_string s v = true <-> v = Str s.
Proof.
  destruct v; cbn [Js.strict_eq_string]; try (split; [discriminate | discriminate]).
  rewrite String.eqb_eq. split; [intros -> | intros [= ->]]; reflexivity.
Qed.

(** X1: a document whose hash differs from the one the signature object
    records is reported as modified, whatever the signature object holds
    besides: the signature is not looked at. *)
Theorem modified_document_is_reported signatureObject document now documentHash expected :
  hashOfDocument document = Ret documentHash ->
  Js.get signatureObject "documentHash" = Ret expected ->
  expected <> Str documentHash ->
  verifyDocumentSignature signatureObject document now = Ret modifiedResult.
Proof.
  intros Hhash Hexp Hne. unfold verifyDocumentSignature.
  rewrite Hhash. cbn [Js.bind]. rewrite Hexp. cbn [Js.bind].
  destruct (Js.strict_eq_string documentHash expected) eqn:E.
  - apply strict_eq_string_spec in E. contradiction.
  - reflexivity.
Qed.

(** X2: a signature object without a [metadata] member never gets a
    verdict on its signature.  The only result [verifyDocumentSignature]
    returns for it is the modified-document one; when the hash matches and
    the signature has been checked, reading [metadata.signedAt] throws. *)
Theorem signature_object_without_metadata_gets_no_verdict
    signatureObject document now :
  Js.get signatureObject "metadata" = Ret Undefined ->
  (forall result,
      verifyDocumentSignature signatureObject document now = Ret result ->
      result = modifiedResult)
  /\ (forall documentHash signature signer publicKey isSignatureValid,
        hashOfDocument document = Ret documentHash ->
        Js.get signatureObject "documentHash" = Ret (Str documentHash) ->
        Js.get signatureObject "signature" = Ret signature ->
        Js.get signatureObject "signer" = Ret signer ->
        Js.get signer "publicKey" = Ret publicKey ->
        verifyValues signature documentHash publicKey = Ret isSignatureValid ->
        verifyDocumentSignature signatureObject document now
        = Throw ("Failed to verify document signature: "
                 ++ "Cannot read properties of undefined (reading 'signedAt')")).
Proof.
  intros Hmeta. split.
  - intros result. unfold verifyDocumentSignature.
    destruct (hashOfDocument document) as [h | ?]; [| discriminate].
    cbn [Js.bind].
    destruct (Js.get signatureObject "documentHash") as [e | ?]; [| discriminate].
    cbn [Js.bind].
    destruct (Js.strict_eq_string h e); cbn [negb].
    + destruct (Js.get signatureObject "signature") as [sg | ?]; [| discriminate].
      cbn [Js.bind].
      destruct (Js.get signatureObject "signer") as [sr | ?]; [| discriminate].
      cbn [Js.bind].
      destruct (Js.get sr "publicKey") as [pk | ?]; [| discriminate].
      cbn [Js.bind].
      destruct (verifyValues sg h pk) as [b | ?]; [| discriminate].
      cbn [Js.bind]. rewrite Hmeta. cbn [Js.bind Js.get Js.rethrow]. discriminate.
    + cbn [Js.rethrow]. intros [= <-]. reflexivity.
  - intros h sg sr pk b Hh He Hsg Hsr Hpk Hv. unfold verifyDocumentSignature.
    rewrite Hh. cbn [Js.bind]. rewrite He. cbn [Js.bind Js.strict_eq_string].
    rewrite String.eqb_refl. cbn [negb]. rewrite Hsg. cbn [Js.bind].
    rewrite Hsr. cbn [Js.bind]. rewrite Hpk. cbn [Js.bind]. rewrite Hv.
    cbn [Js.bind]. rewrite Hmeta. reflexivity.
Qed.

End AnyCore.

Existing Instance Nacl.tweetnacl.

(** X3: with a private key of 64 bytes, [signDocument] returns a signature
    object that [verifyDocumentSignature] accepts as far as sizes and
    hashes go: against the same document it never throws, reports the hash
    as matching, hands back the signer and the signing instant, and its
    verdict is the one of the Ed25519 core on the 64 signature bytes under
    the second half of the key. *)
Theorem signed_document_is_checked {buffers : BufferFrom}
    props privateKey signerInfo now uuid now' :
  List.length (from_base64 privateKey) = 64%nat ->
  NoDup (map fst signerInfo) ->
  exists documentHash signed,
    hashOfDocument (Obj props) = Ret documentHash
    /\ signDocument (Obj props) privateKey signerInfo now uuid = Ret signed
    /\ verifyDocumentSignature signed (Obj props) now'
       = Ret (checkedResult
                (opens (firstn 64 (Nacl.crypto_sign (from_utf8 documentHash)
                                     (from_base64 privateKey)))
                       (from_utf8 documentHash)
                       (skipn 32 (from_base64 privateKey)))
                (Obj (Js.set "publicKey"
                        (Str (to_base64 (skipn 32 (from_base64 privateKey))))
                        signerInfo))
                (Str (Date.toISOString now)) now').
Proof.
  intros Hlen Hnd.
  destruct (hashOfDocument_object props) as (h & Hhash & _).
  exists h. eexists. split; [exact Hhash |].
  rewrite (signDocument_by_size _ _ _ _ _ _ Hhash).
  assert (Hhalf : firstn 32 (skipn 32 (from_base64 privateKey))
                  = skipn 32 (from_base64 privateKey)).
  { apply firstn_all2. rewrite length_skipn. lia. }
  rewrite Hhalf. apply Nat.eqb_eq in Hlen. rewrite Hlen.
  apply Nat.eqb_eq in Hlen.
  split; [reflexivity |].
  unfold verifyDocumentSignature. rewrite Hhash.
  cbn [Js.bind Js.get Js.lookup Js.lookup_own String.eqb Ascii.eqb Bool.eqb
       Js.strict_eq_string].
  rewrite String.eqb_refl. cbn [negb Js.bind].
  unfold Js.lookup. rewrite (lookup_own_set_same _ _ _ Hnd).
  rewrite verifyValues_strings, verify_well_sized.
  - rewrite !from_base64_to_base64. reflexivity.
  - rewrite from_base64_to_base64, length_firstn, tweetnacl_sign_length. lia.
  - rewrite from_base64_to_base64, length_skipn. lia.
Qed.

End VerifyDocumentFacts.

(** ** Key generation *)

Section KeyGenerationFacts.
Import Node.

(** The key pair object and the signer's key pair object, written out. *)
Definition keyPairObject (publicKey privateKey : string) (now : Date.t)
  : list (string * value) :=
  [("publicKey", Str publicKey);
   ("privateKey", Str privateKey);
   ("keyType", Str "ed25519");
   ("generated", Str (Date.toISOString now))].

Definition signerKeyPairObject (publicKey privateKey : string) (role name email : value)
    (now : Date.t) (uuid : string) : value :=
  Obj (keyPairObject publicKey privateKey now
       ++ [("signer", Obj [("role", role); ("name", name); ("email", email);
                           ("id", Str uuid)]);
           ("metadata", Obj [("algorithm", Str "Ed25519");
                             ("keyLength", Num 32);
                             ("created", Str (Date.toISOString now));
                             ("status", Str "active")])]).

(** X4: a generated key pair is usable as it is.  The public key decodes
    to 32 bytes (the [keyLength] that [generateSignerKeyPair] records) and
    the private key to 64, the seed followed by the public key;
    [getPublicKeyFromPrivate] on the private key gives the public key
    back; and [sign] accepts the private key for every message. *)
Theorem generated_key_pair_is_consistent seed now :
  List.length seed = 32%nat ->
  exists publicKey privateKey,
    generateKeyPair seed now = Ret (Obj (keyPairObject publicKey privateKey now))
    /\ (forall role name email uuid,
          generateSignerKeyPair role name email seed now uuid
          = Ret (signerKeyPairObject publicKey privateKey role name email now uuid))
    /\ from_base64 publicKey
       = map byte_of_Z (Nacl.Ed25519Z.publicKey (map Z_of_byte seed))
    /\ List.length (from_base64 publicKey) = 32%nat
    /\ from_base64 privateKey = (seed ++ from_base64 publicKey)%list
    /\ getPublicKeyFromPrivate privateKey = Ret publicKey
    /\ forall (core : Nacl.Ed25519) message now',
         exists signatureData, sign message privateKey now' = Ret signatureData.
Proof.
  intros Hseed.
  unfold generateSignerKeyPair, generateKeyPair, Nacl.sign_keyPair. cbv zeta.
  cbn [fst snd].
  pose proof (publicKey_length (map Z_of_byte seed)) as Hpk.
  set (pk := map byte_of_Z (Nacl.Ed25519Z.publicKey (map Z_of_byte seed))) in *.
  assert (Hpk' : List.length pk = 32%nat).
  { unfold pk. rewrite length_map. exact Hpk. }
  exists (to_base64 pk), (to_base64 (seed ++ pk)%list).
  split; [reflexivity |]. split; [reflexivity |].
  rewrite !from_base64_to_base64. split; [reflexivity |].
  clearbody pk. clear Hpk.
  split; [exact Hpk' |]. split; [reflexivity |].
  assert (Hlen : List.length (seed ++ pk)%list = 64%nat).
  { rewrite length_app. lia. }
  split.
  - rewrite getPublicKeyFromPrivate_by_size, from_base64_to_base64, Hlen.
    cbn [Nat.eqb]. rewrite skipn_app, Hseed, Nat.sub_diag.
    rewrite skipn_all2 by lia. cbn [skipn app].
    rewrite firstn_all2 by lia. reflexivity.
  - intros core message now'. rewrite sign_by_size, from_base64_to_base64, Hlen.
    eexists. reflexivity.
Qed.

End KeyGenerationFacts.

(** ** The books of a session *)

Section SessionBooks.
Context {core : Nacl.Ed25519}.

Definition signatureRole (g : Signature.t) : string :=
  Signer.role (Signature.signer g).

(** The stored signature of a role, if it has one. *)
Definition signedBy (role : string) (signatures : list Signature.t)
  : option Signature.t :=
  find (fun g => String.eqb (signatureRole g) role) signatures.

(** A required signer as the session lists it once [signatures] are
    stored: marked signed, at the instant of the signature, when its role
    has one. *)
Definition marked (signatures : list Signature.t) (r : RequiredSigner.t)
  : RequiredSigner.t :=
  match signedBy (RequiredSigner.role r) signatures with
  | Some g =>
      {| RequiredSigner.role := RequiredSigner.role r;
         RequiredSigner.name := RequiredSigner.name r;
         RequiredSigner.email := RequiredSigner.email r;
         RequiredSigner.required := RequiredSigner.required r;
         RequiredSigner.status := "signed";
         RequiredSigner.signedAt := Some (Signature.signedAt g) |}
  | None => r
  end.

(** What [addSignature] keeps of a session it started from [s0]. *)
Record books (s0 : Session.t) (n : nat) (s : Session.t) : Prop := {
  books_sessionId : Session.sessionId s = Session.sessionId s0;
  books_documentId : Session.documentId s = Session.documentId s0;
  books_documentHash : Session.documentHash s = Session.documentHash s0;
  books_threshold : Session.threshold s = Session.threshold s0;
  books_createdAt : Session.createdAt s = Session.createdAt s0;
  books_expiresAt : Session.expiresAt s = Session.expiresAt s0;
  books_count : List.length (Session.signatures s) = n;
  books_roles : NoDup (map signatureRole (Session.signatures s));
  books_signatures :
    Forall (fun g =>
              In (signatureRole g) (map RequiredSigner.role (Session.requiredSigners s0))
              /\ Signature.documentHash g = Session.documentHash s0
              /\ Signature.valid g = true
              /\ verify (Signature.signature g) (Session.documentHash s0)
                        (Signer.publicKey (Signature.signer g)) = Ret true)
           (Session.signatures s);
  books_signers :
    Session.requiredSigners s
    = map (marked (Session.signatures s)) (Session.requiredSigners s0);
  books_metadata :
    Session.metadata s
    = {| Metadata.totalSigners := Metadata.totalSigners (Session.metadata s0);
         Metadata.signedCount := n;
         Metadata.pendingCount :=
           List.length (filter isPending (Session.requiredSigners s)) |}
}.

Lemma signedBy_app_other role signatures g :
  signatureRole g <> role ->
  signedBy role (signatures ++ [g]) = signedBy role signatures.
Proof.
  intros Hne. unfold signedBy.
  induction signatures as [| x l IH]; cbn [app find].
  - apply String.eqb_neq in Hne. rewrite Hne. reflexivity.
  - destruct (String.eqb (signatureRole x) role); [reflexivity | exact IH].
Qed.

Lemma signedBy_app_new role signatures g :
  signedBy role signatures = None ->
  signatureRole g = role ->
  signedBy role (signatures ++ [g]) = Some g.
Proof.
  intros Hnone Hrole. unfold signedBy in *.
  induction signatures as [| x l IH]; cbn [app find] in *.
  - rewrite Hrole, String.eqb_refl. reflexivity.
  - destruct (String.eqb (signatureRole x) role); [discriminate | exact (IH Hnone)].
Qed.

Lemma marked_role signatures r :
  RequiredSigner.role (marked signatures r) = RequiredSigner.role r.
Proof. unfold marked. destruct (signedBy _ _); reflexivity. Qed.

Lemma map_marked_roles signatures l :
  map RequiredSigner.role (map (marked signatures) l) = map RequiredSigner.role l.
Proof.
  rewrite map_map. apply map_ext. intros r. apply marked_role.
Qed.

(** Marking the first signer of the role is marking every signer of it,
    when no two required signers share a role. *)
Lemma markSigned_marked role at_ signatures g l :
  NoDup (map RequiredSigner.role l) ->
  signedBy role signatures = None ->
  signatureRole g = role ->
  Signature.signedAt g = at_ ->
  markSigned role at_ (map (marked signatures) l)
  = map (marked (signatures ++ [g])) l.
Proof.
  intros Hnd Hnone Hrole Hat.
  assert (Hother : forall r, RequiredSigner.role r <> role ->
                     marked (signatures ++ [g]) r = marked signatures r).
  { intros r Hne. unfold marked. rewrite signedBy_app_other; [reflexivity |].
    congruence. }
  induction l as [| r rest IH]; [reflexivity |].
  cbn [map] in Hnd. inversion Hnd as [| ? ? Hnotin Hnd']; subst.
  cbn [map markSigned]. rewrite marked_role.
  destruct (String.eqb (RequiredSigner.role r) (signatureRole g)) eqn:E.
  - apply String.eqb_eq in E. f_equal.
    + unfold marked. rewrite E, Hnone, (signedBy_app_new _ _ _ Hnone eq_refl).
      rewrite <- E. reflexivity.
    + apply map_ext_in. intros r' Hin. symmetry. apply Hother.
      intros Heq. apply Hnotin. rewrite E, <- Heq. apply in_map. exact Hin.
  - apply String.eqb_neq in E. f_equal; [symmetry; apply Hother; exact E |].
    apply IH. exact Hnd'.
Qed.

Lemma existsb_signedBy role signatures :
  existsb (fun g => String.eqb (Signer.role (Signature.signer g)) role) signatures
  = match signedBy role signatures with Some _ => true | None => false end.
Proof. apply find_existsb. Qed.

(** An accepted call, with what the service checked before it stored the
    signature. *)
Lemma addSignature_stored session role privateKey signerInfo now uuid r session' :
  addSignature session role privateKey signerInfo now uuid = (Ret r, session') ->
  isRequired role session = true
  /\ signedBy role (Session.signatures session) = None
  /\ exists signature publicKey,
       verify signature (Session.documentHash session) publicKey = Ret true
       /\ session' = signedSession session role signature publicKey signerInfo now uuid.
Proof.
  rewrite addSignature_cases. unfold failed.
  destruct (String.eqb (Session.status session) "completed"); [discriminate |].
  destruct (now >? Session.expiresAt session); [discriminate |].
  destruct (isRequired role session); [| discriminate].
  unfold hasSigned. rewrite existsb_signedBy.
  destruct (signedBy role (Session.signatures session)); [discriminate |].
  cbn [negb].
  destruct (sign _ _ _) as [sd | ?]; [| discriminate].
  destruct (getPublicKeyFromPrivate _) as [pk | ?]; [| discriminate].
  destruct (verify _ _ _) as [[|] | ?] eqn:Hv; try discriminate.
  cbv zeta. intro H. inversion H; subst.
  split; [reflexivity |]. split; [reflexivity |]. eauto.
Qed.

Lemma isRequired_in role session :
  isRequired role session = true ->
  In role (map RequiredSigner.role (Session.requiredSigners session)).
Proof.
  unfold isRequired. rewrite existsb_exists. intros (r & Hin & Heq).
  apply String.eqb_eq in Heq. rewrite <- Heq. apply in_map. exact Hin.
Qed.

Lemma signedBy_none_notin role signatures :
  signedBy role signatures = None -> ~ In role (map signatureRole signatures).
Proof.
  unfold signedBy. intros Hnone Hin. apply in_map_iff in Hin.
  destruct Hin as (g & Hrole & Hin).
  apply (find_none _ _ Hnone) in Hin. rewrite Hrole, String.eqb_refl in Hin.
  discriminate.
Qed.

Lemma books_run s0 n s :
  NoDup (map RequiredSigner.role (Session.requiredSigners s0)) ->
  books s0 0 s0 -> run s0 n s -> books s0 n s.
Proof.
  intros Hnd H0 Hrun.
  induction Hrun as [| n s1 role pk info now uuid r s2 _ IH Hadd
                      | n s1 role pk info now uuid m s2 _ IH Hadd].
  - exact H0.
  - apply addSignature_stored in Hadd.
    destruct Hadd as (Hreq & Hnone & sig & pub & Hverify & ->).
    destruct IH as [I1 I2 I3 I4 I5 I6 I7 I8 I9 I10 I11].
    set (g := {| Signature.signatureId := uuid; Signature.signature := sig;
                 Signature.signer := {| Signer.info := info; Signer.role := role;
                                        Signer.publicKey := pub |};
                 Signature.signedAt := now;
                 Signature.documentHash := Session.documentHash s1;
                 Signature.valid := true |}).
    assert (Hsigs : Session.signatures
                      (signedSession s1 role sig pub info now uuid)
                    = (Session.signatures s1 ++ [g])%list) by reflexivity.
    assert (Hsigners : Session.requiredSigners
                         (signedSession s1 role sig pub info now uuid)
                       = markSigned role now (Session.requiredSigners s1))
      by reflexivity.
    constructor; try assumption.
    + rewrite Hsigs, length_app, I7. cbn [List.length]. lia.
    + rewrite Hsigs, map_app. cbn [map].
      apply NoDup_app; [exact I8 | repeat constructor; intros [] | ].
      intros x Hin [<- | []]. apply (signedBy_none_notin _ _ Hnone). exact Hin.
    + rewrite Hsigs. apply Forall_app. split; [exact I9 |].
      constructor; [| constructor].
      cbn [signatureRole g Signature.signer Signer.role Signature.documentHash
           Signature.valid Signature.signature Signer.publicKey].
      split; [| split; [exact I3 | split; [reflexivity |]]].
      * apply isRequired_in in Hreq. rewrite I10, map_marked_roles in Hreq. exact Hreq.
      * rewrite <- I3. exact Hverify.
    + rewrite Hsigners, Hsigs, I10.
      apply markSigned_marked; [exact Hnd | exact Hnone | reflexivity | reflexivity].
    + unfold signedSession. cbn [Session.metadata Session.requiredSigners].
      rewrite I11. cbn [Metadata.totalSigners]. f_equal.
      rewrite length_app, I7. cbn [List.length]. lia.
  - apply addSignature_rejected in Hadd. subst. exact IH.
Qed.

End SessionBooks.

Section SessionBalance.
Context {core : Nacl.Ed25519}.

Definition freshSigner (signer : SignerSpec.t) : RequiredSigner.t :=
  {| RequiredSigner.role := SignerSpec.role signer;
     RequiredSigner.name := SignerSpec.name signer;
     RequiredSigner.email := SignerSpec.email signer;
     RequiredSigner.required :=
       match SignerSpec.required signer with
       | Some false => false
       | _ => true
       end;
     RequiredSigner.status := "pending";
     RequiredSigner.signedAt := None |}.

Lemma initialized_signers document signers threshold now uuid1 uuid2 s0 :
  initializeMultiSigSession document signers threshold now uuid1 uuid2 = Ret s0 ->
  Session.requiredSigners s0 = map freshSigner signers
  /\ Session.signatures s0 = []
  /\ Session.metadata s0
     = {| Metadata.totalSigners := List.length signers;
          Metadata.signedCount := 0;
          Metadata.pendingCount := List.length signers |}
  /\ hashOfDocument document = Ret (Session.documentHash s0)
  /\ Session.expiresAt s0 = now + 604800000
  /\ Session.createdAt s0 = now
  /\ Session.status s0 = "pending"
  /\ Session.sessionId s0 = uuid1.
Proof.
  unfold initializeMultiSigSession. intros Hinit.
  destruct (hashOfDocument document) as [h | ?]; [| discriminate].
  cbn [Js.bind] in Hinit.
  destruct (Js.get document "id") as [id | ?]; [| discriminate].
  cbn [Js.bind Js.rethrow] in Hinit. injection Hinit as <-.
  cbn [Session.requiredSigners Session.signatures Session.metadata Session.documentHash
       Session.expiresAt Session.createdAt Session.status Session.sessionId].
  repeat split.
Qed.

Lemma filter_all {A} (p : A -> bool) l :
  (forall x, In x l -> p x = true) -> filter p l = l.
Proof.
  induction l as [| x l IH]; intros H; [reflexivity |].
  cbn [filter]. rewrite (H x (or_introl eq_refl)). f_equal.
  apply IH. intros y Hy. apply H. right. exact Hy.
Qed.

Lemma initialized_books document signers threshold now uuid1 uuid2 s0 :
  initializeMultiSigSession document signers threshold now uuid1 uuid2 = Ret s0 ->
  books s0 0 s0.
Proof.
  intros Hinit.
  destruct (initialized_signers _ _ _ _ _ _ _ Hinit) as (Hrs & Hsigs & Hmeta & _).
  constructor; try reflexivity.
  - rewrite Hsigs. reflexivity.
  - rewrite Hsigs. constructor.
  - rewrite Hsigs. constructor.
  - rewrite Hsigs. symmetry. rewrite <- (map_id (Session.requiredSigners s0)) at 2.
    apply map_ext. intros r. reflexivity.
  - rewrite Hmeta. cbn [Metadata.totalSigners]. f_equal.
    rewrite Hrs, filter_all, length_map; [reflexivity |].
    intros r Hin. apply in_map_iff in Hin. destruct Hin as (x & <- & _). reflexivity.
Qed.

(** Membership of a role in a list of roles, as [includes] decides it. *)
Definition includes (roles : list string) (role : string) : bool :=
  existsb (String.eqb role) roles.

Lemma includes_spec roles role : includes roles role = true <-> In role roles.
Proof.
  unfold includes. rewrite existsb_exists. split.
  - intros (x & Hin & Heq). apply String.eqb_eq in Heq. subst. exact Hin.
  - intros Hin. exists role. split; [exact Hin | apply String.eqb_refl].
Qed.

Lemma signedBy_includes role signatures :
  match signedBy role signatures with Some _ => true | None => false end
  = includes (map signatureRole signatures) role.
Proof.
  unfold signedBy, includes. rewrite <- find_existsb.
  induction signatures as [| g l IH]; [reflexivity |].
  cbn [map existsb]. rewrite IH, (String.eqb_sym role). reflexivity.
Qed.

Lemma filter_partition {A} (p : A -> bool) l :
  Permutation (filter p l ++ filter (fun x => negb (p x)) l) l.
Proof.
  induction l as [| x l IH]; [constructor |].
  cbn [filter]. destruct (p x); cbn [negb app].
  - constructor. exact IH.
  - apply Permutation_sym, Permutation_cons_app, Permutation_sym. exact IH.
Qed.

Lemma filter_included roles signed :
  NoDup roles -> NoDup signed -> incl signed roles ->
  Permutation (filter (includes signed) roles) signed.
Proof.
  intros Hr Hs Hincl. apply NoDup_Permutation; [apply NoDup_filter; exact Hr | exact Hs |].
  intros x. rewrite filter_In, includes_spec. split; [tauto |].
  intros Hx. split; [apply Hincl; exact Hx | exact Hx].
Qed.

Lemma books_signed_roles s0 n s :
  books s0 n s ->
  incl (map signatureRole (Session.signatures s))
       (map RequiredSigner.role (Session.requiredSigners s0)).
Proof.
  intros B x Hin. apply in_map_iff in Hin. destruct Hin as (g & <- & Hin).
  pose proof (books_signatures _ _ _ B) as HF. rewrite Forall_forall in HF.
  apply (HF g Hin).
Qed.

Lemma isPending_marked signatures r :
  RequiredSigner.status r = "pending" ->
  isPending (marked signatures r)
  = negb (includes (map signatureRole signatures) (RequiredSigner.role r)).
Proof.
  intros Hst. rewrite <- signedBy_includes. unfold marked, isPending.
  destruct (signedBy _ _); cbn [RequiredSigner.status negb]; [reflexivity |].
  rewrite Hst. reflexivity.
Qed.

Lemma filter_map_comm {A B} (f : A -> B) (p : B -> bool) l :
  filter p (map f l) = map f (filter (fun x => p (f x)) l).
Proof.
  induction l as [| x l IH]; [reflexivity |].
  cbn [map filter]. destruct (p (f x)); cbn [map]; rewrite IH; reflexivity.
Qed.

(** The signers that are still pending, counted. *)
Lemma pending_count signers signed :
  NoDup (map SignerSpec.role signers) -> NoDup signed ->
  incl signed (map SignerSpec.role signers) ->
  (List.length (filter (fun role => negb (includes signed role))
                       (map SignerSpec.role signers))
   + List.length signed = List.length signers)%nat.
Proof.
  intros Hr Hs Hincl.
  pose proof (filter_partition (includes signed) (map SignerSpec.role signers)) as Hp.
  apply Permutation_length in Hp. rewrite length_app, length_map in Hp.
  rewrite (Permutation_length (filter_included _ _ Hr Hs Hincl)) in Hp. lia.
Qed.

End SessionBalance.

Section SessionTheorems.
Context {core : Nacl.Ed25519}.

Lemma run_books document signers threshold now uuid1 uuid2 s0 n s :
  initializeMultiSigSession document signers threshold now uuid1 uuid2 = Ret s0 ->
  NoDup (map SignerSpec.role signers) ->
  run s0 n s ->
  books s0 n s.
Proof.
  intros Hinit Hnd Hrun.
  destruct (initialized_signers _ _ _ _ _ _ _ Hinit) as (Hrs & _).
  apply books_run; [| exact (initialized_books _ _ _ _ _ _ _ Hinit) | exact Hrun].
  rewrite Hrs, map_map. exact Hnd.
Qed.

(** The counts of a history: who signed, and how many are left. *)
Lemma run_counts document signers threshold now uuid1 uuid2 s0 n s :
  initializeMultiSigSession document signers threshold now uuid1 uuid2 = Ret s0 ->
  NoDup (map SignerSpec.role signers) ->
  run s0 n s ->
  NoDup (map signatureRole (Session.signatures s))
  /\ incl (map signatureRole (Session.signatures s)) (map SignerSpec.role signers)
  /\ List.length (Session.signatures s) = n
  /\ (n <= List.length signers)%nat
  /\ map RequiredSigner.role (Session.requiredSigners s) = map SignerSpec.role signers
  /\ Session.metadata s
     = {| Metadata.totalSigners := List.length signers;
          Metadata.signedCount := n;
          Metadata.pendingCount := List.length signers - n |}.
Proof.
  intros Hinit Hnd Hrun.
  pose proof (run_books _ _ _ _ _ _ _ _ _ Hinit Hnd Hrun) as B.
  destruct (initialized_signers _ _ _ _ _ _ _ Hinit) as (Hrs & _ & Hmeta & _).
  pose proof (books_signed_roles _ _ _ B) as Hincl.
  rewrite Hrs, map_map in Hincl. cbn [freshSigner RequiredSigner.role] in Hincl.
  pose proof (books_roles _ _ _ B) as Hroles.
  pose proof (pending_count _ _ Hnd Hroles Hincl) as Hcount.
  rewrite length_map, (books_count _ _ _ B) in Hcount.
  split; [exact Hroles |]. split; [exact Hincl |].
  split; [exact (books_count _ _ _ B) |]. split; [lia |]. split.
  - rewrite (books_signers _ _ _ B), map_marked_roles, Hrs, map_map. reflexivity.
  - rewrite (books_metadata _ _ _ B), Hmeta. cbn [Metadata.totalSigners]. f_equal.
    rewrite (books_signers _ _ _ B), Hrs, map_map.
    rewrite filter_map_comm, length_map.
    rewrite (filter_map_comm SignerSpec.role), length_map in Hcount.
    erewrite filter_ext; [| intros x; apply isPending_marked; reflexivity].
    cbn [freshSigner RequiredSigner.role]. lia.
Qed.

(** X5: the books of a session balance.  In every history of a session
    opened for signers with distinct roles, the stored signatures come
    from distinct required roles, every required signer is marked signed
    (with the instant of the signature) exactly when its role has a stored
    signature and is pending otherwise, and the counters of [metadata] are
    the number of required signers, the number of signatures and their
    difference. *)
Theorem session_books_balance document signers threshold now uuid1 uuid2 s0 n s :
  initializeMultiSigSession document signers threshold now uuid1 uuid2 = Ret s0 ->
  NoDup (map SignerSpec.role signers) ->
  run s0 n s ->
  let signedRoles := map signatureRole (Session.signatures s) in
  NoDup signedRoles
  /\ incl signedRoles (map SignerSpec.role signers)
  /\ List.length (Session.signatures s) = n
  /\ (n <= List.length signers)%nat
  /\ map RequiredSigner.role (Session.requiredSigners s) = map SignerSpec.role signers
  /\ (forall r, In r (Session.requiredSigners s) ->
        match signedBy (RequiredSigner.role r) (Session.signatures s) with
        | Some g => RequiredSigner.status r = "signed"
                    /\ RequiredSigner.signedAt r = Some (Signature.signedAt g)
        | None => RequiredSigner.status r = "pending"
                  /\ RequiredSigner.signedAt r = None
        end)
  /\ Session.metadata s
     = {| Metadata.totalSigners := List.length signers;
          Metadata.signedCount := n;
          Metadata.pendingCount := List.length signers - n |}.
Proof.
  intros Hinit Hnd Hrun. cbv zeta.
  destruct (run_counts _ _ _ _ _ _ _ _ _ Hinit Hnd Hrun)
    as (Hroles & Hincl & Hlen & Hle & Hrs & Hmeta).
  pose proof (run_books _ _ _ _ _ _ _ _ _ Hinit Hnd Hrun) as B.
  destruct (initialized_signers _ _ _ _ _ _ _ Hinit) as (Hrs0 & _).
  repeat (split; [assumption |]). split; [| exact Hmeta].
  intros r Hin. rewrite (books_signers _ _ _ B), Hrs0, map_map in Hin.
  apply in_map_iff in Hin. destruct Hin as (x & <- & _).
  rewrite marked_role. unfold marked.
  destruct (signedBy _ _); split; reflexivity.
Qed.

(** X6: [getSigningProgress] agrees with the session's own counters.  On
    every history of a session opened for signers with distinct roles, it
    counts the stored signatures and the required signers, lists as
    pending exactly the signers whose role has no stored signature, as
    many as [metadata.pendingCount] says, lists the signed roles in the
    order of signing, and names every required role once, as signed or as
    pending. *)
Theorem signing_progress_agrees_with_session
    document signers threshold now uuid1 uuid2 s0 n s now' :
  initializeMultiSigSession document signers threshold now uuid1 uuid2 = Ret s0 ->
  NoDup (map SignerSpec.role signers) ->
  run s0 n s ->
  let progress := getSigningProgress s now' in
  let signed := map Progress.Signed.role
                    (Progress.Signers.signed (Progress.signers progress)) in
  let pending := map Progress.Pending.role
                     (Progress.Signers.pending (Progress.signers progress)) in
  Progress.Counts.signed (Progress.progress progress) = n
  /\ Progress.Counts.signed (Progress.progress progress)
     = Metadata.signedCount (Session.metadata s)
  /\ Progress.Counts.total (Progress.progress progress) = List.length signers
  /\ signed = map signatureRole (Session.signatures s)
  /\ pending = filter (fun role => negb (includes signed role))
                      (map SignerSpec.role signers)
  /\ List.length pending = Metadata.pendingCount (Session.metadata s)
  /\ Permutation (signed ++ pending) (map SignerSpec.role signers)
  /\ Progress.TimeInfo.isExpired (Progress.timeInfo progress)
     = (now' >? now + 604800000).
Proof.
  intros Hinit Hnd Hrun. cbv zeta.
  destruct (run_counts _ _ _ _ _ _ _ _ _ Hinit Hnd Hrun)
    as (Hroles & Hincl & Hlen & Hle & Hrs & Hmeta).
  pose proof (run_books _ _ _ _ _ _ _ _ _ Hinit Hnd Hrun) as B.
  destruct (initialized_signers _ _ _ _ _ _ _ Hinit) as (_ & _ & _ & _ & Hexp & _).
  unfold getSigningProgress.
  cbn [Progress.progress Progress.signers Progress.timeInfo Progress.Counts.signed
       Progress.Counts.total Progress.Signers.signed Progress.Signers.pending
       Progress.TimeInfo.isExpired].
  rewrite !map_map. cbn [Progress.Signed.role Progress.Pending.role].
  change (map (fun x => Signer.role (Signature.signer x)) (Session.signatures s))
    with (map signatureRole (Session.signatures s)).
  assert (Hpending :
            map RequiredSigner.role
              (filter (fun r => negb (existsb (String.eqb (RequiredSigner.role r))
                                        (map signatureRole (Session.signatures s))))
                      (Session.requiredSigners s))
            = filter (fun role => negb (includes (map signatureRole (Session.signatures s))
                                          role))
                     (map SignerSpec.role signers)).
  { rewrite <- Hrs, filter_map_comm. reflexivity. }
  change (fun x : RequiredSigner.t => RequiredSigner.role x) with RequiredSigner.role.
  rewrite Hpending, Hmeta, Hlen. cbn [Metadata.signedCount Metadata.pendingCount].
  pose proof (pending_count _ _ Hnd Hroles Hincl) as Hcount.
  rewrite length_map, Hlen in Hcount.
  split; [reflexivity |]. split; [reflexivity |].
  split; [rewrite <- (length_map RequiredSigner.role), Hrs; apply length_map |].
  split; [reflexivity |]. split; [reflexivity |]. split; [lia |]. split.
  - eapply Permutation_trans; [| apply (filter_partition
        (includes (map signatureRole (Session.signatures s))))].
    apply Permutation_app_tail, Permutation_sym, filter_included; assumption.
  - rewrite (books_expiresAt _ _ _ B), Hexp. reflexivity.
Qed.

(** Every stored signature was verified against the document hash, which
    no call changes. *)
Definition verified (s0 : Session.t) (s : Session.t) : Prop :=
  Session.documentHash s = Session.documentHash s0
  /\ Forall (fun g => verify (Signature.signature g) (Session.documentHash s0)
                             (Signer.publicKey (Signature.signer g)) = Ret true)
            (Session.signatures s).

Lemma verified_run s0 n s :
  Session.signatures s0 = [] -> run s0 n s -> verified s0 s.
Proof.
  intros Hnil Hrun.
  induction Hrun as [| n s1 role pk info now uuid r s2 _ IH Hadd
                      | n s1 role pk info now uuid m s2 _ IH Hadd].
  - split; [reflexivity | rewrite Hnil; constructor].
  - apply addSignature_stored in Hadd.
    destruct Hadd as (_ & _ & sig & pub & Hverify & ->).
    destruct IH as [Hhash Hall]. split; [exact Hhash |].
    unfold signedSession. cbn [Session.signatures].
    apply Forall_app. split; [exact Hall |].
    constructor; [| constructor].
    cbn [Signature.signature Signature.signer Signer.publicKey].
    rewrite <- Hhash. exact Hverify.
  - apply addSignature_rejected in Hadd. subst. exact IH.
Qed.

Lemma verifyOne_verified session g :
  verify (Signature.signature g) (Session.documentHash session)
         (Signer.publicKey (Signature.signer g)) = Ret true ->
  SignatureResult.valid (verifyOne session g) = true
  /\ SignatureResult.reason (verifyOne session g) = "Valid signature".
Proof. intros H. unfold verifyOne. rewrite H. split; reflexivity. Qed.

(** X7: what [addSignature] stored, [verifyMultiSignature] accepts.  On
    every history of a session opened on a document with a positive
    threshold, verification against that document finds the hash
    matching and every stored signature valid, and its overall verdict is
    [true] exactly when the session is completed. *)
Theorem stored_signatures_verify document signers threshold now uuid1 uuid2 s0 n s now' :
  initializeMultiSigSession document signers threshold now uuid1 uuid2 = Ret s0 ->
  0 < Session.threshold s0 ->
  run s0 n s ->
  exists result,
    verifyMultiSignature s document now' = Ret result
    /\ Verification.documentHashMatch result = true
    /\ Verification.totalSignatures result = Some n
    /\ Verification.validSignatures result = Some n
    /\ List.length (Verification.signatureResults result) = n
    /\ (forall r, In r (Verification.signatureResults result) ->
          SignatureResult.valid r = true /\ SignatureResult.reason r = "Valid signature")
    /\ (Verification.valid result = true <-> Session.status s = "completed").
Proof.
  intros Hinit Hpos Hrun.
  destruct (initialized_signers _ _ _ _ _ _ _ Hinit) as (_ & Hnil & _ & Hhash & _).
  destruct (verified_run _ _ _ Hnil Hrun) as [Hsame Hall].
  pose proof (coherent_run _ _ _ _ (initialized_coherent _ _ _ _ _ _ _ Hinit Hpos) Hrun)
    as (Hthr & Hlen & Hcases).
  assert (Hn : List.length (Session.signatures s) = n).
  { unfold len in Hlen. lia. }
  assert (Hvalid : forall r, In r (map (verifyOne s) (Session.signatures s)) ->
                     SignatureResult.valid r = true
                     /\ SignatureResult.reason r = "Valid signature").
  { intros r Hin. apply in_map_iff in Hin. destruct Hin as (g & <- & Hin).
    apply verifyOne_verified. rewrite Hsame.
    rewrite Forall_forall in Hall. exact (Hall g Hin). }
  unfold verifyMultiSignature. rewrite Hhash. cbn [Js.bind].
  rewrite Hsame, String.eqb_refl. cbn [negb Js.rethrow].
  rewrite filter_all by (intros r Hin; apply Hvalid; exact Hin).
  rewrite length_map, Hn.
  eexists. split; [reflexivity |].
  cbn [Verification.documentHashMatch Verification.totalSignatures
       Verification.validSignatures Verification.signatureResults Verification.valid].
  split; [reflexivity |]. split; [reflexivity |]. split; [reflexivity |].
  split; [rewrite length_map; exact Hn |]. split; [exact Hvalid |].
  rewrite Z.geb_leb, Z.leb_le, Hthr.
  destruct Hcases as [(Hlt & Hst & _) | (Heq & Hst & _)]; rewrite Hst.
  - split; [lia | discriminate].
  - split; [reflexivity | lia].
Qed.

End SessionTheorems.

(** ** Edge configurations *)

Section EdgeConfigurations.
Context {core : Nacl.Ed25519}.

(** X8: with the threshold left out, [validateMultiSigConfig] applies no
    threshold rule: the configuration is valid exactly when it names one
    to five signers with distinct roles.  [initializeMultiSigSession] then
    takes the smaller of 2 and the number of signers, so that a single
    signer gives a session with threshold 1.  With a threshold given, the
    function is the one of the numeric case. *)
Theorem omitted_threshold_skips_threshold_rules signers :
  let result := validateMultiSigConfigOpt signers None in
  let n := len signers in
  (Validation.valid result = true
     <-> (1 <= n <= Config.MAX_SIGNERS /\ NoDup (map SignerSpec.role signers)))
  /\ ~ In err_min_threshold (Validation.errors result)
  /\ ~ In err_threshold_exceeds (Validation.errors result)
  /\ (forall threshold,
        validateMultiSigConfigOpt signers (Some threshold)
        = validateMultiSigConfig signers threshold)
  /\ (forall document now uuid1 uuid2 session,
        Validation.valid result = true ->
        initializeMultiSigSession document signers None now uuid1 uuid2 = Ret session ->
        Session.threshold session = Z.min Config.DEFAULT_THRESHOLD n
        /\ 1 <= Session.threshold session <= n
        /\ (n = 1 -> Session.threshold session < Config.MIN_SIGNERS)).
Proof.
  cbv zeta.
  assert (Hvalid : Validation.valid (validateMultiSigConfigOpt signers None) = true
                   <-> (1 <= len signers <= Config.MAX_SIGNERS
                        /\ NoDup (map SignerSpec.role signers))).
  { unfold validateMultiSigConfigOpt. cbn [Validation.valid].
    rewrite len_nil_iff, !push_if_nil.
    rewrite <- duplicateRoles_nil.
    assert (Hd : (len (duplicateRoles (map SignerSpec.role signers)) >? 0) = false
                 <-> duplicateRoles (map SignerSpec.role signers) = []).
    { rewrite <- not_true_iff_false, len_pos_iff.
      destruct (duplicateRoles (map SignerSpec.role signers)); split; intro H;
        try reflexivity; try discriminate; try congruence.
      exfalso. apply H. discriminate. }
    rewrite Hd. unfold Config.MAX_SIGNERS.
    assert (Hn : 0 <= len signers) by (unfold len; lia).
    rewrite Z.gtb_ltb, Z.ltb_ge.
    split.
    - intros (((((_ & H0) & Hmax) & _) & _) & Hdup).
      apply Z.eqb_neq in H0. split; [lia | exact Hdup].
    - intros ((H1 & Hmax) & Hdup).
      repeat split; try assumption; try reflexivity.
      apply Z.eqb_neq. lia. }
  split; [exact Hvalid |].
  split; [| split; [| split]].
  - unfold validateMultiSigConfigOpt. cbn [Validation.errors].
    rewrite !in_push_if. cbn [In].
    unfold err_min_threshold, err_no_signer, err_max_signers, err_duplicates.
    intros [[[[[[] | [_ H]] | [_ H]] | [H _]] | [H _]] | [_ H]];
      try discriminate; vm_compute in H; discriminate.
  - unfold validateMultiSigConfigOpt. cbn [Validation.errors].
    rewrite !in_push_if. cbn [In].
    unfold err_threshold_exceeds, err_no_signer, err_max_signers, err_duplicates,
      err_min_threshold.
    intros [[[[[[] | [_ H]] | [_ H]] | [H _]] | [H _]] | [_ H]];
      try discriminate; vm_compute in H; discriminate.
  - reflexivity.
  - intros document now uuid1 uuid2 session Hv Hinit.
    apply Hvalid in Hv. destruct Hv as [[H1 Hmax] _].
    unfold initializeMultiSigSession in Hinit.
    destruct (hashOfDocument document) as [h | ?]; [| discriminate].
    cbn [Js.bind] in Hinit.
    destruct (Js.get document "id") as [id | ?]; [| discriminate].
    cbn [Js.bind Js.rethrow] in Hinit. injection Hinit as <-.
    cbn [Session.threshold]. unfold Config.DEFAULT_THRESHOLD, Config.MIN_SIGNERS.
    split; [reflexivity |]. lia.
Qed.

End EdgeConfigurations.

Section ProgressPercentage.
Context {core : Nacl.Ed25519}.

Definition rounded_eqb (a b : Number.rounded) : bool :=
  match a, b with
  | Number.Integer x, Number.Integer y => x =? y
  | Number.NaN, Number.NaN => true
  | Number.Infinity s, Number.Infinity t => Bool.eqb s t
  | _, _ => false
  end.

Lemma rounded_eqb_eq a b : rounded_eqb a b = true -> a = b.
Proof.
  destruct a as [x | | s], b as [y | | t]; cbn [rounded_eqb]; try discriminate.
  - intros H. apply Z.eqb_eq in H. congruence.
  - reflexivity.
  - intros H. apply Bool.eqb_prop in H. congruence.
Qed.

(** The percentage within the configured bounds: the exact ratio, rounded
    half up. *)
Lemma percentage_within_config signed threshold :
  1 <= threshold <= Config.MAX_SIGNERS -> 0 <= signed <= threshold ->
  percentage signed threshold
  = Number.Integer ((200 * signed + threshold) / (2 * threshold)).
Proof.
  unfold Config.MAX_SIGNERS. intros Ht Hs.
  set (ok := fun t s =>
               negb ((1 <=? t) && (s <=? t))
               || rounded_eqb (percentage s t)
                              (Number.Integer ((200 * s + t) / (2 * t)))).
  assert (H : forallb (fun t => forallb (ok t) (map Z.of_nat (seq 0 6)))
                (map Z.of_nat (seq 0 6)) = true) by (vm_compute; reflexivity).
  pose proof (forall_range _ 6 H threshold ltac:(lia)) as H1. cbv beta in H1.
  pose proof (forall_range _ 6 H1 signed ltac:(lia)) as H2.
  unfold ok in H2.
  assert (Hc : (1 <=? threshold) && (signed <=? threshold) = true).
  { apply andb_true_iff. split; apply Z.leb_le; lia. }
  rewrite Hc in H2. apply rounded_eqb_eq. exact H2.
Qed.

(** X9: the percentage of [getSigningProgress].  For a session opened with
    a threshold from 1 to 5, it is the ratio of signatures to threshold
    in percent, rounded half up, and it is 100 exactly when the session is
    completed. *)
Theorem progress_percentage document signers threshold now uuid1 uuid2 s0 n s now' :
  initializeMultiSigSession document signers threshold now uuid1 uuid2 = Ret s0 ->
  1 <= Session.threshold s0 <= Config.MAX_SIGNERS ->
  run s0 n s ->
  let shown := Progress.Counts.percentage (Progress.progress (getSigningProgress s now')) in
  shown = Number.Integer ((200 * Z.of_nat n + Session.threshold s0)
                          / (2 * Session.threshold s0))
  /\ (shown = Number.Integer 100 <-> Session.status s = "completed").
Proof.
  intros Hinit Hthr Hrun. cbv zeta.
  pose proof (coherent_run _ _ _ _
                (initialized_coherent _ _ _ _ _ _ _ Hinit ltac:(lia)) Hrun)
    as (Ht & Hlen & Hcases).
  unfold getSigningProgress. cbn [Progress.progress Progress.Counts.percentage].
  rewrite Ht, Hlen.
  assert (Hn : 0 <= Z.of_nat n <= Session.threshold s0)
    by (destruct Hcases as [(? & _) | (? & _)]; lia).
  rewrite (percentage_within_config _ _ Hthr Hn).
  split; [reflexivity |].
  unfold Config.MAX_SIGNERS in Hthr.
  destruct Hcases as [(Hlt & Hst & _) | (Heq & Hst & _)]; rewrite Hst.
  - split; [| discriminate]. intros H. exfalso.
    assert (Hdiv : (200 * Z.of_nat n + Session.threshold s0)
                   / (2 * Session.threshold s0) < 100).
    { apply Z.div_lt_upper_bound; lia. }
    assert (H' : (200 * Z.of_nat n + Session.threshold s0)
                 / (2 * Session.threshold s0) = 100) by congruence.
    lia.
  - split; [reflexivity |]. intros _. f_equal. rewrite Heq.
    replace (200 * Session.threshold s0 + Session.threshold s0)
      with (100 * (2 * Session.threshold s0) + Session.threshold s0) by lia.
    rewrite Z.div_add_l by lia. rewrite Z.div_small by lia. lia.
Qed.

End ProgressPercentage.

Section EmptyAndAggregated.
Context {core : Nacl.Ed25519}.

(** X10: a session opened for no signer at all.  Its threshold is 0 and it
    stays pending: every [addSignature] call is rejected, the role being
    required by no one (or the session having expired).  It cannot be
    aggregated, its progress percentage is [NaN] (0/0), and yet
    [verifyMultiSignature] on the unchanged document calls it valid, with
    0 of 0 signatures. *)
Theorem session_without_signers props now uuid1 uuid2 :
  let document := Obj props in
  exists s0,
  initializeMultiSigSession document [] None now uuid1 uuid2 = Ret s0
  /\ Session.threshold s0 = 0
  /\ Session.status s0 = "pending"
  /\ (forall role privateKey signerInfo now' uuid,
        addSignature s0 role privateKey signerInfo now' uuid
        = (failed (if now' >? now + 604800000 then msg_expired else msg_unknown role), s0))
  /\ createAggregatedSignature s0
     = Throw "Failed to create aggregated signature: Multi-signature session is not completed"
  /\ (forall now',
        Progress.Counts.percentage (Progress.progress (getSigningProgress s0 now'))
        = Number.NaN)
  /\ (forall now', exists result,
        verifyMultiSignature s0 document now' = Ret result
        /\ Verification.valid result = true
        /\ Verification.totalSignatures result = Some 0%nat
        /\ Verification.reason result
           = "Valid multi-signature with 0/0 required signatures").
Proof.
  cbv zeta.
  destruct (hashOfDocument_object props) as (h & Hh & _).
  assert (Hret : exists s0,
             initializeMultiSigSession (Obj props) [] None now uuid1 uuid2 = Ret s0).
  { unfold initializeMultiSigSession. rewrite Hh. eexists. reflexivity. }
  destruct Hret as (s0 & Hinit). exists s0. split; [exact Hinit |].
  set (document := Obj props) in *.
  destruct (initialized_signers _ _ _ _ _ _ _ Hinit)
    as (Hrs & Hsigs & _ & Hhash & Hexp & _ & Hst & _).
  assert (Hthr : Session.threshold s0 = 0).
  { unfold initializeMultiSigSession in Hinit.
    destruct (hashOfDocument document) as [h' | ?]; [| discriminate].
    cbn [Js.bind] in Hinit.
    destruct (Js.get document "id") as [id | ?]; [| discriminate].
    cbn [Js.bind Js.rethrow] in Hinit. injection Hinit as <-. reflexivity. }
  split; [exact Hthr |]. split; [exact Hst |]. split; [| split; [| split]].
  - intros role privateKey signerInfo now' uuid.
    rewrite addSignature_cases, Hst, Hexp. cbn [String.eqb Ascii.eqb Bool.eqb].
    destruct (now' >? now + 604800000); [reflexivity |].
    unfold isRequired. rewrite Hrs. reflexivity.
  - unfold createAggregatedSignature. rewrite Hst. reflexivity.
  - intros now'. unfold getSigningProgress.
    cbn [Progress.progress Progress.Counts.percentage].
    rewrite Hsigs, Hthr. vm_compute. reflexivity.
  - intros now'. unfold verifyMultiSignature. rewrite Hhash. cbn [Js.bind].
    rewrite String.eqb_refl, Hsigs, Hthr. cbn [negb map filter List.length Js.rethrow].
    eexists. split; [reflexivity |]. repeat split.
Qed.

(** The aggregated entry of a stored signature. *)
Definition aggregatedEntry (g : Signature.t) : value :=
  Obj [("signer",
         Obj [("role", Str (Signer.role (Signature.signer g)));
              ("name", Signer.name (Signature.signer g));
              ("publicKey", Str (Signer.publicKey (Signature.signer g)))]);
       ("signature", Str (Signature.signature g));
       ("signedAt", Str (Date.toISOString (Signature.signedAt g)))].

(** X11: [createAggregatedSignature] on the histories of a session opened
    with a positive threshold.  Below the threshold it throws; at the
    threshold it returns an object with one entry per stored signature, in
    the order of signing, exactly [threshold] of them, which is also what
    its [metadata.totalSigners] says (the signatures, not the required
    signers). *)
Theorem aggregated_signature_has_threshold_entries
    document signers threshold now uuid1 uuid2 s0 n s :
  initializeMultiSigSession document signers threshold now uuid1 uuid2 = Ret s0 ->
  0 < Session.threshold s0 ->
  run s0 n s ->
  if Z.of_nat n <? Session.threshold s0
  then createAggregatedSignature s
       = Throw "Failed to create aggregated signature: Multi-signature session is not completed"
  else
    exists aggregated metadata,
      createAggregatedSignature s = Ret aggregated
      /\ Js.get aggregated "type" = Ret (Str "multi-signature")
      /\ Js.get aggregated "algorithm" = Ret (Str "EdDSA-Multi")
      /\ Js.get aggregated "documentHash" = Ret (Str (Session.documentHash s0))
      /\ Js.get aggregated "threshold" = Ret (Num (Session.threshold s0))
      /\ Js.get aggregated "signatures"
         = Ret (Arr (map aggregatedEntry (Session.signatures s)))
      /\ len (Session.signatures s) = Session.threshold s0
      /\ Js.get aggregated "metadata" = Ret metadata
      /\ Js.get metadata "totalSigners" = Ret (Num (Session.threshold s0)).
Proof.
  intros Hinit Hpos Hrun.
  destruct (initialized_signers _ _ _ _ _ _ _ Hinit) as (_ & Hnil & _).
  destruct (verified_run _ _ _ Hnil Hrun) as [Hsame _].
  pose proof (coherent_run _ _ _ _ (initialized_coherent _ _ _ _ _ _ _ Hinit Hpos) Hrun)
    as (Hthr & Hlen & Hcases).
  unfold createAggregatedSignature.
  destruct Hcases as [(Hlt & Hst & _) | (Heq & Hst & _)]; rewrite Hst.
  - apply Z.ltb_lt in Hlt. rewrite Hlt. reflexivity.
  - assert (Hge : (Z.of_nat n <? Session.threshold s0) = false)
      by (apply Z.ltb_ge; lia).
    rewrite Hge. cbn [String.eqb Ascii.eqb Bool.eqb negb Js.rethrow].
    eexists. eexists. split; [reflexivity |].
    cbn [Js.get Js.lookup Js.lookup_own String.eqb Ascii.eqb Bool.eqb].
    rewrite Hsame, Hthr, Hlen, Heq.
    repeat split.
Qed.

End EmptyAndAggregated.

(** ** The verification store *)

Section StoreFacts.
Import QRCodeService.

Lemma store_get_set_same k v m : store_get k (store_set k v m) = Some v.
Proof.
  induction m as [| [k' v'] m IH]; cbn [store_set store_get].
  - rewrite String.eqb_refl. reflexivity.
  - destruct (String.eqb k k') eqn:E; cbn [store_get]; rewrite E; [reflexivity | exact IH].
Qed.

Lemma store_get_set_other k k' v m :
  k' <> k -> store_get k' (store_set k v m) = store_get k' m.
Proof.
  intros Hne. induction m as [| [k0 v0] m IH]; cbn [store_set store_get].
  - apply String.eqb_neq in Hne. rewrite Hne. reflexivity.
  - destruct (String.eqb k k0) eqn:E; cbn [store_get].
    + apply String.eqb_eq in E. subst k0. apply String.eqb_neq in Hne.
      rewrite Hne. reflexivity.
    + rewrite IH. reflexivity.
Qed.

Lemma store_get_delete_same k m : store_get k (store_delete k m) = None.
Proof.
  unfold store_delete. induction m as [| [k' v'] m IH]; [reflexivity |].
  cbn [filter fst]. destruct (String.eqb k k') eqn:E; cbn [negb store_get].
  - exact IH.
  - rewrite E. exact IH.
Qed.

Lemma store_get_delete_other k k' m :
  k' <> k -> store_get k' (store_delete k m) = store_get k' m.
Proof.
  intros Hne. unfold store_delete. induction m as [| [k0 v0] m IH]; [reflexivity |].
  cbn [filter fst]. destruct (String.eqb k k0) eqn:E; cbn [negb store_get].
  - apply String.eqb_eq in E. subst k0. apply String.eqb_neq in Hne.
    rewrite Hne. exact IH.
  - rewrite IH. reflexivity.
Qed.

Definition thirtyDays : Z := 30 * 24 * 60 * 60 * 1000.

Lemma getStored_after_store verificationId data now store now' :
  getStoredVerificationData verificationId now'
    (snd (_storeVerificationData verificationId data now store))
  = if now' >? now + thirtyDays
    then (Ret Null,
          store_delete verificationId
            (snd (_storeVerificationData verificationId data now store)))
    else (Ret data, snd (_storeVerificationData verificationId data now store)).
Proof.
  unfold _storeVerificationData, Js.mwrite. cbn [snd].
  unfold getStoredVerificationData, Js.mbind, Js.mread, Js.mret, Js.mwrite.
  rewrite store_get_set_same. cbn [Stored.expiresAt Stored.data].
  change (30 * 24 * 60 * 60 * 1000) with thirtyDays.
  destruct (now' >? now + thirtyDays); reflexivity.
Qed.

(** X12: the verification store.  What [_storeVerificationData] stored
    under an id, [getStoredVerificationData] hands back for thirty days
    and leaves in the store; asked later, it answers [null] and removes
    the entry, after which the id stays unknown.  Storing under one id
    changes what no other id reads, and an id never stored reads
    [null]. *)
Theorem stored_payload_is_served_until_it_expires verificationId data now store now' :
  let store' := snd (_storeVerificationData verificationId data now store) in
  getStoredVerificationData verificationId now' store'
  = (if now' >? now + thirtyDays
     then (Ret Null, store_delete verificationId store')
     else (Ret data, store'))
  /\ (forall later,
        getStoredVerificationData verificationId later
          (store_delete verificationId store')
        = (Ret Null, store_delete verificationId store'))
  /\ (forall other,
        other <> verificationId ->
        fst (getStoredVerificationData other now' store')
        = fst (getStoredVerificationData other now' store))
  /\ getStoredVerificationData verificationId now' [] = (Ret Null, []).
Proof.
  cbv zeta. split; [apply getStored_after_store |].
  unfold _storeVerificationData, Js.mwrite. cbn [snd].
  split; [| split].
  - intros later.
    unfold getStoredVerificationData, Js.mbind, Js.mread, Js.mret.
    rewrite store_get_delete_same. reflexivity.
  - intros other Hne.
    unfold getStoredVerificationData, Js.mbind, Js.mread, Js.mret, Js.mwrite.
    rewrite (store_get_set_other _ _ _ _ Hne).
    destruct (store_get other store) as [stored |]; [| reflexivity].
    destruct (now' >? Stored.expiresAt stored); reflexivity.
  - reflexivity.
Qed.

End StoreFacts.

(** ** QR codes, validated and fetched *)

Section QRValidationFacts.
Import QRCodeService.

Lemma truthy_readback v : Js.truthy (JSON.readback v) = Js.truthy v.
Proof. destruct v; reflexivity. Qed.

(** [errors.push(message)] when [member] is falsy. *)
Definition missing (member : value) (message : string) (errors : list string)
  : list string :=
  push_if (negb (Js.truthy member)) message errors.

Definition validation (errors : list string) (type : string) : QRValidation.t :=
  {| QRValidation.valid := (len errors =? 0);
     QRValidation.errors := errors;
     QRValidation.type := Str type |}.

Lemma validateQRData_embedded props sigprops :
  NoDup (map fst props) ->
  Js.lookup "type" props = Str "document_verification" ->
  Js.lookup "signature" props = Obj sigprops ->
  NoDup (map fst sigprops) ->
  validateQRData (stringify_object (Obj props))
  = validation
      (missing (Js.lookup "algorithm" sigprops) "Missing signature algorithm"
         (missing (Js.lookup "documentHash" props) "Missing required field: documentHash"
            (missing (Js.lookup "documentId" props) "Missing required field: documentId"
               [])))
      "document_verification".
Proof.
  intros Hnd Htype Hsig Hnds. unfold validateQRData.
  rewrite parse_stringify_object. cbn [Js.bind Js.get requireFields].
  rewrite !(lookup_readback_members _ _ Hnd), Htype, Hsig, readback_Obj.
  cbn [JSON.readback Js.strict_eq_string String.eqb Ascii.eqb Bool.eqb Js.bind].
  rewrite !truthy_readback.
  cbn [Js.truthy negb push_if Js.get Js.bind].
  rewrite (lookup_readback_members _ _ Hnds), truthy_readback.
  reflexivity.
Qed.

Lemma validateQRData_reference uuid documentId prefix count :
  validateQRData (stringify_object (referenceObject uuid documentId prefix count))
  = validation
      (missing documentId "Missing required field: documentId"
         (missing (Str uuid) "Missing required field: verificationId" []))
      "verification_url".
Proof.
  unfold validateQRData, referenceObject.
  rewrite parse_stringify_object. cbn [Js.bind Js.get requireFields].
  assert (Hnd : NoDup (map fst
            [("type", Str "verification_url"); ("verificationId", Str uuid);
             ("url", Str ("/api/verification/" ++ uuid)); ("documentId", documentId);
             ("quickVerify",
               Obj [("documentHash", prefix); ("signatureCount", Num count)])])).
  { cbn [map fst]. repeat constructor; cbn [In]; intuition discriminate. }
  rewrite !(lookup_readback_members _ _ Hnd).
  cbn [Js.lookup Js.lookup_own String.eqb Ascii.eqb Bool.eqb JSON.readback
       Js.strict_eq_string Js.bind requireFields Js.get].
  rewrite !truthy_readback.
  reflexivity.
Qed.


Lemma verificationPayload_members signatureData documentMetadata now payload :
  verificationPayload signatureData documentMetadata now = Ret payload ->
  exists documentId documentHash algorithm props sigprops,
    Js.get documentMetadata "id" = Ret documentId
    /\ Js.get signatureData "documentHash" = Ret documentHash
    /\ Js.get signatureData "algorithm" = Ret algorithm
    /\ payload = Obj props
    /\ NoDup (map fst props)
    /\ Js.lookup "type" props = Str "document_verification"
    /\ Js.lookup "documentId" props = documentId
    /\ Js.lookup "documentHash" props = documentHash
    /\ Js.lookup "signature" props = Obj sigprops
    /\ NoDup (map fst sigprops)
    /\ Js.lookup "algorithm" sigprops = algorithm.
Proof.
  unfold verificationPayload. intros Ep.
  destruct (Js.get documentMetadata "id") as [id |]; cbn [Js.bind] in Ep;
    [| discriminate Ep].
  destruct (Js.get signatureData "documentHash") as [h |]; cbn [Js.bind] in Ep;
    [| discriminate Ep].
  destruct (Js.get signatureData "type"); cbn [Js.bind] in Ep; [| discriminate Ep].
  destruct (Js.get documentMetadata "title"); cbn [Js.bind] in Ep; [| discriminate Ep].
  destruct (Js.get documentMetadata "type"); cbn [Js.bind] in Ep; [| discriminate Ep].
  destruct (Js.get documentMetadata "issuer"); cbn [Js.bind] in Ep; [| discriminate Ep].
  destruct (Js.get documentMetadata "recipient"); cbn [Js.bind] in Ep;
    [| discriminate Ep].
  destruct (Js.get documentMetadata "issueDate"); cbn [Js.bind] in Ep;
    [| discriminate Ep].
  destruct (Js.get signatureData "algorithm") as [alg |]; cbn [Js.bind] in Ep;
    [| discriminate Ep].
  destruct (Js.get signatureData "signatures"); cbn [Js.bind] in Ep; [| discriminate Ep].
  destruct (Js.get signatureData "signature"); cbn [Js.bind] in Ep; [| discriminate Ep].
  destruct (Js.get signatureData "signers"); cbn [Js.bind] in Ep; [| discriminate Ep].
  destruct (Js.get signatureData "signer"); cbn [Js.bind] in Ep; [| discriminate Ep].
  injection Ep as <-.
  exists id, h, alg. eexists. eexists.
  repeat (split; [reflexivity |]).
  split; [cbn [map fst]; repeat constructor; cbn [In]; intuition discriminate |].
  repeat (split; [reflexivity |]).
  split; [cbn [map fst]; repeat constructor; cbn [In]; intuition discriminate |].
  reflexivity.
Qed.

Section WithRenderer.
Context {qrcode : QRCode}.

(** What a returning call leaves in the store. *)
Lemma generateDocumentQR_store signatureData documentMetadata now uuid store r store' :
  generateDocumentQR signatureData documentMetadata now uuid store = (Ret r, store') ->
  store' = if QRResult.compressed r
           then snd (_storeVerificationData uuid (QRResult.payload r) now store)
           else store.
Proof.
  unfold generateDocumentQR, mrethrow, mbind, mlift, mret.
  destruct (verificationPayload signatureData documentMetadata now) as [payload | m];
    [| discriminate].
  destruct (2000 <? String.length (stringify_object payload))%nat eqn:Hlen.
  - destruct (Js.get documentMetadata "id") as [documentId | ?]; [| discriminate].
    destruct (Js.get signatureData "documentHash") as [documentHash | ?]; [| discriminate].
    destruct (substring_0_16 documentHash) as [prefix | ?]; [| discriminate].
    destruct (Js.get signatureData "signatures") as [signatures | ?]; [| discriminate].
    unfold _storeVerificationData, mwrite.
    destruct (toDataURL _) as [image | ?]; [| discriminate].
    cbn [Js.rethrow]. intro H. injection H as <- <-.
    cbn [QRResult.compressed QRResult.payload snd]. reflexivity.
  - destruct (toDataURL _) as [image | ?]; [| discriminate].
    cbn [Js.rethrow]. intro H. injection H as <- <-.
    cbn [QRResult.compressed]. reflexivity.
Qed.

(** X13: what [validateQRData] says of the text [generateDocumentQR]
    produced.  The embedded form is valid exactly when the document id,
    the document hash and the signature algorithm are truthy, and each one
    that is not is named in the errors; the reference form is valid
    exactly when the document id is truthy (and the verification id not
    empty), whatever the signature data hold. *)
Theorem generated_code_is_validated_by_its_members
    signatureData documentMetadata now uuid store r store' :
  generateDocumentQR signatureData documentMetadata now uuid store = (Ret r, store') ->
  exists documentId documentHash algorithm,
    Js.get documentMetadata "id" = Ret documentId
    /\ Js.get signatureData "documentHash" = Ret documentHash
    /\ Js.get signatureData "algorithm" = Ret algorithm
    /\ validateQRData (QRResult.qrData r)
       = if QRResult.compressed r
         then validation
                (missing documentId "Missing required field: documentId"
                   (missing (Str uuid) "Missing required field: verificationId" []))
                "verification_url"
         else validation
                (missing algorithm "Missing signature algorithm"
                   (missing documentHash "Missing required field: documentHash"
                      (missing documentId "Missing required field: documentId" [])))
                "document_verification".
Proof.
  intros Hgen.
  destruct (generateDocumentQR_returned _ _ _ _ _ _ _ Hgen)
    as (props & Hpayload & _ & _ & _ & _ & _ & Hdata).
  destruct (verificationPayload_members _ _ _ _ Hpayload)
    as (id & h & alg & props' & sigprops & Hid & Hh & Halg & Heq & Hnd & Htype
        & Hlid & Hlh & Hsig & Hnds & Hlalg).
  injection Heq as <-.
  exists id, h, alg. repeat (split; [assumption |]).
  destruct (QRResult.compressed r).
  - destruct Hdata as (documentId & h' & signatures & Hid' & _ & _ & ->).
    rewrite Hid in Hid'. injection Hid' as <-.
    apply validateQRData_reference.
  - rewrite Hdata, (validateQRData_embedded _ _ Hnd Htype Hsig Hnds), Hlid, Hlh, Hlalg.
    reflexivity.
Qed.

(** X14: the payload is stored before the image is rendered.  When the
    payload is longer than 2000 characters and the renderer rejects the
    reference text, [generateDocumentQR] throws the renderer's error under
    its prefix, and the store keeps the payload under the verification id
    all the same. *)
Theorem failed_rendering_keeps_the_stored_payload
    signatureData documentMetadata now uuid store payload documentId h signatures e :
  verificationPayload signatureData documentMetadata now = Ret payload ->
  (2000 < String.length (stringify_object payload))%nat ->
  Js.get documentMetadata "id" = Ret documentId ->
  Js.get signatureData "documentHash" = Ret (Str h) ->
  Js.get signatureData "signatures" = Ret signatures ->
  toDataURL (stringify_object
               (referenceObject uuid documentId (Str (substring0 16 h))
                  (signatureCount signatures))) = Throw e ->
  generateDocumentQR signatureData documentMetadata now uuid store
  = (Throw ("Failed to generate QR code: " ++ e),
     snd (_storeVerificationData uuid payload now store))
  /\ forall now',
       now' <= now + thirtyDays ->
       getStoredVerificationData uuid now'
         (snd (_storeVerificationData uuid payload now store))
       = (Ret payload, snd (_storeVerificationData uuid payload now store)).
Proof.
  intros Hpayload Hlen Hid Hh Hsigs Hrender. split.
  - unfold generateDocumentQR, mrethrow, mbind, mlift, mret.
    rewrite Hpayload. apply Nat.ltb_lt in Hlen. rewrite Hlen, Hid, Hh.
    cbn [substring_0_16]. rewrite Hsigs.
    unfold _storeVerificationData, mwrite. cbn [snd].
    unfold referenceObject in Hrender. rewrite Hrender. reflexivity.
  - intros now' Hnow. rewrite getStored_after_store.
    assert (Hle : (now' >? now + thirtyDays) = false)
      by (rewrite Z.gtb_ltb; apply Z.ltb_ge; exact Hnow).
    rewrite Hle. reflexivity.
Qed.

(** X15: the reference form can be resolved.  When [generateDocumentQR]
    returns the reference form, [parseQRData] reads the verification id
    off the QR text, and [getStoredVerificationData] serves the full
    payload under that id for thirty days; the embedded form leaves the
    store as it was. *)
Theorem reference_code_resolves_to_its_payload
    signatureData documentMetadata now uuid store r store' :
  generateDocumentQR signatureData documentMetadata now uuid store = (Ret r, store') ->
  if QRResult.compressed r
  then
    exists parsed,
      parseQRData (QRResult.qrData r) = Ret parsed
      /\ Js.get parsed "type" = Ret (Str "url_verification")
      /\ Js.get parsed "verificationId" = Ret (Str uuid)
      /\ Js.get parsed "url" = Ret (Str ("/api/verification/" ++ uuid))
      /\ forall now',
           getStoredVerificationData uuid now' store'
           = if now' >? now + thirtyDays
             then (Ret Null, store_delete uuid store')
             else (Ret (QRResult.payload r), store')
  else store' = store.
Proof.
  intros Hgen.
  pose proof (generateDocumentQR_store _ _ _ _ _ _ _ Hgen) as Hstore.
  destruct (generateDocumentQR_returned _ _ _ _ _ _ _ Hgen)
    as (props & _ & _ & _ & _ & _ & _ & Hdata).
  destruct (QRResult.compressed r); [| exact Hstore].
  destruct Hdata as (documentId & h & signatures & _ & _ & _ & ->).
  destruct (reference_parsed uuid documentId (substring0 16 h)
              (signatureCount signatures)) as (fields & _ & _ & _ & Hqr).
  cbv zeta in Hqr. eexists. split; [exact Hqr |].
  repeat (split; [reflexivity |]).
  intros now'. rewrite Hstore. apply getStored_after_store.
Qed.

End WithRenderer.

End QRValidationFacts.

(** ** The hash of a document *)

Section HashMoreFacts.
Import Node.

Lemma hashOfDocument_value document :
  match document with
  | Undefined =>
      hashOfDocument document
      = Throw "Cannot read properties of undefined (reading 'content')"
  | Null =>
      hashOfDocument document
      = Throw "Cannot read properties of null (reading 'content')"
  | _ =>
      exists documentHash,
        hashOfDocument document = Ret documentHash
        /\ String.length documentHash = 64%nat
        /\ all_chars is_hex documentHash = true
  end.
Proof.
  destruct document as [| | [|] | n | s | items | props]; try reflexivity;
    try apply hashOfDocument_object;
    unfold hashOfDocument; cbn [Js.get Js.bind Js.or Js.truthy JSON.stringify];
    (eexists; split; [reflexivity | apply sha256_hex_shape]).
Qed.

(** X16: the document hash.  [hashDocument] gives 64 lower-case hexadecimal
    digits for every string; the hash the services take of a document is
    such a digest for every document but [undefined] and [null], on which
    reading [content] throws; and so a session can be opened on every
    other document, with that digest as its [documentHash]. *)
Theorem document_hash_is_64_hex_digits :
  (forall content, exists h,
      hashDocument (Some content) = Ret h
      /\ String.length h = 64%nat /\ all_chars is_hex h = true)
  /\ (forall document,
        (document = Undefined \/ document = Null ->
         exists m, hashOfDocument document = Throw m)
        /\ (document <> Undefined -> document <> Null ->
            exists h, hashOfDocument document = Ret h
                      /\ String.length h = 64%nat /\ all_chars is_hex h = true))
  /\ (forall document signers threshold now uuid1 uuid2,
        document <> Undefined -> document <> Null ->
        exists session,
          initializeMultiSigSession document signers threshold now uuid1 uuid2
          = Ret session
          /\ hashOfDocument document = Ret (Session.documentHash session)
          /\ String.length (Session.documentHash session) = 64%nat).
Proof.
  split; [| split].
  - intros content. exists (sha256_hex content). split; [reflexivity |].
    apply sha256_hex_shape.
  - intros document. pose proof (hashOfDocument_value document) as H. split.
    + intros [-> | ->]; eexists; exact H.
    + intros H1 H2. destruct document; try contradiction; exact H.
  - intros document signers threshold now uuid1 uuid2 H1 H2.
    pose proof (hashOfDocument_value document) as H.
    assert (Hh : exists h, hashOfDocument document = Ret h
                           /\ String.length h = 64%nat /\ all_chars is_hex h = true)
      by (destruct document; try contradiction; exact H).
    destruct Hh as (h & Hh & Hlen & _).
    assert (Hid : exists id, Js.get document "id" = Ret id)
      by (destruct document; try contradiction; eexists; reflexivity).
    destruct Hid as (id & Hid).
    unfold initializeMultiSigSession. rewrite Hh. cbn [Js.bind]. rewrite Hid.
    cbn [Js.bind Js.rethrow]. eexists. split; [reflexivity |].
    cbn [Session.documentHash]. split; [reflexivity | exact Hlen].
Qed.

(** X17: when [content] is truthy, it alone is hashed.  Two documents with
    the same truthy [content] have the same hash whatever their other
    members are, so that neither [verifyMultiSignature] nor
    [verifyDocumentSignature] tells one from the other: a change of
    title, recipient or metadata after signing goes unnoticed. *)
Theorem only_truthy_content_is_hashed props1 props2 :
  Js.truthy (Js.lookup "content" props1) = true ->
  Js.lookup "content" props2 = Js.lookup "content" props1 ->
  hashOfDocument (Obj props2) = hashOfDocument (Obj props1)
  /\ (forall (core : Nacl.Ed25519) session now,
        verifyMultiSignature session (Obj props2) now
        = verifyMultiSignature session (Obj props1) now)
  /\ (forall (core : Nacl.Ed25519) (buffers : BufferFrom) signatureObject now,
        verifyDocumentSignature signatureObject (Obj props2) now
        = verifyDocumentSignature signatureObject (Obj props1) now)
  /\ (forall (core : Nacl.Ed25519) signers threshold now uuid1 uuid2 session now',
        initializeMultiSigSession (Obj props1) signers threshold now uuid1 uuid2
        = Ret session ->
        exists result,
          verifyMultiSignature session (Obj props2) now' = Ret result
          /\ Verification.documentHashMatch result = true).
Proof.
  intros Htruthy Hsame.
  assert (Hhash : hashOfDocument (Obj props2) = hashOfDocument (Obj props1)).
  { unfold hashOfDocument. cbn [Js.get Js.bind]. unfold Js.or.
    rewrite Hsame, Htruthy. reflexivity. }
  split; [exact Hhash |]. split; [| split].
  - intros core session now. unfold verifyMultiSignature. rewrite Hhash. reflexivity.
  - intros core buffers so now. unfold verifyDocumentSignature. rewrite Hhash.
    reflexivity.
  - intros core signers threshold now uuid1 uuid2 session now' Hinit.
    destruct (initialized_signers _ _ _ _ _ _ _ Hinit) as (_ & _ & _ & Hh & _).
    unfold verifyMultiSignature. rewrite Hhash, Hh. cbn [Js.bind].
    rewrite String.eqb_refl. cbn [negb Js.rethrow].
    eexists. split; reflexivity.
Qed.

End HashMoreFacts.

(** ** The private key, by size *)

Section PrivateKeyFacts.
Import Node.

(** A session that takes a signature of [role] at the instant [now]. *)
Definition awaits (session : Session.t) (role : string) (now : Date.t) : Prop :=
  Session.status session <> "completed"
  /\ now <= Session.expiresAt session
  /\ isRequired role session = true
  /\ hasSigned role session = false.

Lemma awaits_cases session role now :
  awaits session role now ->
  String.eqb (Session.status session) "completed" = false
  /\ (now >? Session.expiresAt session) = false
  /\ isRequired role session = true
  /\ hasSigned role session = false.
Proof.
  intros (Hst & Ht & Hreq & Hsig).
  split; [apply String.eqb_neq; exact Hst |].
  split; [rewrite Z.gtb_ltb; apply Z.ltb_ge; exact Ht |]. split; assumption.
Qed.

(** X18: a private key that does not decode to 64 bytes is refused
    everywhere in the same way.  [sign] and [getPublicKeyFromPrivate]
    throw tweetnacl's size error, [signDocument] and [addSignature] hand
    it on under their own prefixes ([addSignature] leaving the session
    untouched), and [validateKeyPair] answers [false]. *)
Theorem private_key_of_wrong_size_is_refused {core : Nacl.Ed25519} privateKey :
  List.length (from_base64 privateKey) <> 64%nat ->
  (forall message now,
      sign message privateKey now
      = Throw "Failed to create signature: bad secret key size")
  /\ getPublicKeyFromPrivate privateKey
     = Throw "Failed to extract public key: bad secret key size"
  /\ (forall props signerInfo now uuid,
        signDocument (Obj props) privateKey signerInfo now uuid
        = Throw "Failed to sign document: Failed to create signature: bad secret key size")
  /\ (forall publicKey now, validateKeyPair publicKey privateKey now = Ret false)
  /\ (forall session role signerInfo now uuid,
        awaits session role now ->
        addSignature session role privateKey signerInfo now uuid
        = (failed "Failed to create signature: bad secret key size", session)).
Proof.
  intros Hlen. apply Nat.eqb_neq in Hlen.
  assert (Hsign : forall message now,
             sign message privateKey now
             = Throw "Failed to create signature: bad secret key size").
  { intros. rewrite sign_by_size, Hlen. reflexivity. }
  split; [exact Hsign |]. split; [| split; [| split]].
  - rewrite getPublicKeyFromPrivate_by_size, Hlen. reflexivity.
  - intros props signerInfo now uuid.
    destruct (hashOfDocument_object props) as (h & Hh & _).
    rewrite (signDocument_by_size _ _ _ _ _ _ Hh), Hlen. reflexivity.
  - intros publicKey now. unfold validateKeyPair. rewrite Hsign. reflexivity.
  - intros session role signerInfo now uuid Hopen.
    destruct (awaits_cases _ _ _ Hopen) as (Hst & Ht & Hreq & Hsig).
    rewrite addSignature_cases, Hst, Ht, Hreq, Hsig, Hsign. reflexivity.
Qed.

Existing Instance Nacl.tweetnacl.

(** X19: with a private key of 64 bytes nothing throws on the way to a
    signature.  On a session that takes the role's signature,
    [addSignature] stores the 64 signature bytes together with the second
    half of the key as public key when the Ed25519 core accepts that
    signature under that public key, and otherwise rejects the call as
    [Generated signature is invalid], leaving the session as it was. *)
Theorem well_sized_key_signs_or_is_invalid session role privateKey signerInfo now uuid :
  List.length (from_base64 privateKey) = 64%nat ->
  awaits session role now ->
  let key := from_base64 privateKey in
  let message := from_utf8 (Session.documentHash session) in
  let signature := firstn 64 (Nacl.crypto_sign message key) in
  let publicKey := skipn 32 key in
  List.length signature = 64%nat
  /\ List.length publicKey = 32%nat
  /\ addSignature session role privateKey signerInfo now uuid
     = if opens signature message publicKey
       then
         let session' := signedSession session role (to_base64 signature)
                           (to_base64 publicKey) signerInfo now uuid in
         (Ret session', session')
       else (failed "Generated signature is invalid", session).
Proof.
  intros Hlen Hopen. cbv zeta.
  destruct (awaits_cases _ _ _ Hopen) as (Hst & Ht & Hreq & Hsig).
  assert (Hs : List.length (firstn 64 (Nacl.crypto_sign
                                         (from_utf8 (Session.documentHash session))
                                         (from_base64 privateKey))) = 64%nat).
  { rewrite length_firstn, tweetnacl_sign_length. lia. }
  assert (Hp : List.length (skipn 32 (from_base64 privateKey)) = 32%nat).
  { rewrite length_skipn. lia. }
  split; [exact Hs |]. split; [exact Hp |].
  rewrite addSignature_cases, Hst, Ht, Hreq, Hsig. cbn [negb].
  rewrite sign_by_size, getPublicKeyFromPrivate_by_size.
  apply Nat.eqb_eq in Hlen. rewrite Hlen. cbn [SignatureData.signature].
  rewrite (firstn_all2 (n := 32)) by lia.
  rewrite verify_well_sized by (rewrite from_base64_to_base64; assumption).
  rewrite !from_base64_to_base64. unfold opens.
  destruct (Nacl.crypto_sign_open _ _); reflexivity.
Qed.

End PrivateKeyFacts.

(** ** The other QR codes *)

Section OtherCodes.
Import QRCodeService.

Lemma mrethrow_returned {S A} prefix (m : Js.method S A) s a s' :
  Js.mrethrow prefix m s = (Ret a, s') -> m s = (Ret a, s').
Proof.
  unfold Js.mrethrow. destruct (m s) as [[x | e] t]; cbn [Js.rethrow]; congruence.
Qed.

(** X20: the QR code of [generateMultiSigQR] names no algorithm.  Its
    signature data carry the type, the session's hash and one entry per
    stored signature, whatever the status of the session, but no
    [algorithm]; so the embedded form of its QR text never passes
    [validateQRData], which reports the missing signature algorithm. *)
Theorem multisig_code_names_no_algorithm {qrcode : QRCode}
    session documentMetadata now uuid store r store' :
  generateMultiSigQR session documentMetadata now uuid store = (Ret r, store') ->
  exists signature,
    Js.get (QRResult.payload r) "signatureType" = Ret (Str "multi-signature")
    /\ Js.get (QRResult.payload r) "documentHash"
       = Ret (Str (Session.documentHash session))
    /\ Js.get (QRResult.payload r) "signature" = Ret signature
    /\ Js.get signature "algorithm" = Ret Undefined
    /\ Js.get signature "data"
       = Ret (Arr (map aggregatedEntry (Session.signatures session)))
    /\ (QRResult.compressed r = false ->
        QRValidation.valid (validateQRData (QRResult.qrData r)) = false
        /\ In "Missing signature algorithm"
              (QRValidation.errors (validateQRData (QRResult.qrData r)))).
Proof.
  unfold generateMultiSigQR. intros Hgen. apply mrethrow_returned in Hgen.
  pose proof Hgen as Hgen'.
  destruct (generateDocumentQR_returned _ _ _ _ _ _ _ Hgen)
    as (props & Hpayload & _ & Hnd & Hr & _ & _ & Hdata).
  destruct (verificationPayload_members _ _ _ _ Hpayload)
    as (id & h & alg & props' & sigprops & Hid & Hh & Halg & Heq & _ & Htype
        & Hlid & Hlh & Hsig & Hnds & Hlalg).
  injection Heq as <-.
  cbn [Js.get Js.lookup Js.lookup_own String.eqb Ascii.eqb Bool.eqb] in Halg.
  injection Halg as <-.
  unfold verificationPayload in Hpayload.
  destruct (Js.get documentMetadata "id") as [id' |]; cbn [Js.bind] in Hpayload;
    [| discriminate Hpayload].
  destruct (Js.get documentMetadata "title"); cbn [Js.bind Js.get] in Hpayload;
    [| discriminate Hpayload].
  destruct (Js.get documentMetadata "type"); cbn [Js.bind Js.get] in Hpayload;
    [| discriminate Hpayload].
  destruct (Js.get documentMetadata "issuer"); cbn [Js.bind Js.get] in Hpayload;
    [| discriminate Hpayload].
  destruct (Js.get documentMetadata "recipient"); cbn [Js.bind Js.get] in Hpayload;
    [| discriminate Hpayload].
  destruct (Js.get documentMetadata "issueDate"); cbn [Js.bind Js.get] in Hpayload;
    [| discriminate Hpayload].
  injection Hpayload as Hprops.
  rewrite Hr, <- Hprops.
  eexists. split; [reflexivity |]. split; [reflexivity |]. split; [reflexivity |].
  split; [reflexivity |]. split; [reflexivity |].
  intros Hflag. rewrite Hflag in Hdata.
  rewrite Hdata, (validateQRData_embedded _ _ Hnd Htype Hsig Hnds), Hlalg.
  unfold missing at 1. cbn [Js.truthy negb push_if].
  unfold validation. cbn [QRValidation.valid QRValidation.errors]. split.
  - apply Z.eqb_neq. unfold len. rewrite length_app. cbn [List.length]. lia.
  - apply in_or_app. right. left. reflexivity.
Qed.

Section WithOptions.
Context {qrcodeWith : QRCodeWith}.

(** X21: the signing request's QR text.  It reads back as the request, with
    the session id and the role unchanged whatever characters they hold,
    and its URL is [/api/signatures/sign/<sessionId>/<signerRole>].
    [validateQRData] finds nothing to object to in it, and [parseQRData]
    refuses it as an unknown format. *)
Theorem signing_request_code_is_read_back sessionId signerRole now q :
  generateSigningQR sessionId signerRole now = Ret q ->
  let url := "/api/signatures/sign/" ++ sessionId ++ "/" ++ signerRole in
  SigningQR.signingUrl q = url
  /\ JSON.parse (SigningQR.qrData q)
     = Ret (Obj [("type", Str "signing_request");
                 ("sessionId", Str sessionId);
                 ("signerRole", Str signerRole);
                 ("url", Str url);
                 ("timestamp", Str (Date.toISOString now))])
  /\ validateQRData (SigningQR.qrData q) = validation [] "signing_request"
  /\ parseQRData (SigningQR.qrData q)
     = Throw "Failed to parse QR data: Unknown QR code format".
Proof.
  unfold generateSigningQR. cbv zeta.
  destruct (toDataURLWith _ _) as [image | ?]; [| discriminate].
  cbn [Js.bind Js.rethrow]. intros [= <-].
  cbn [SigningQR.signingUrl SigningQR.qrData].
  split; [reflexivity |].
  unfold validateQRData, parseQRData. rewrite !parse_stringify_object.
  repeat split.
Qed.

(** X22: the verification report's QR text.  Its summary always names a
    signer count, 1 when the result gives none (or 0), and its URL ends
    in the verification id as a template literal prints it; like the
    signing request, the text passes [validateQRData] and is refused by
    [parseQRData]. *)
Theorem report_code_is_read_back verificationResult now q :
  generateVerificationReportQR verificationResult now = Ret q ->
  exists documentId valid signatureType signerCount algorithm verificationId,
    Js.get verificationResult "signerCount" = Ret signerCount
    /\ Js.get verificationResult "verificationId" = Ret verificationId
    /\ ReportQR.reportUrl q = "/api/verification/report/" ++ toString verificationId
    /\ JSON.parse (ReportQR.qrData q)
       = Ret (JSON.readback
                (Obj [("type", Str "verification_report");
                      ("documentId", documentId);
                      ("valid", valid);
                      ("verifiedAt", Str (Date.toISOString now));
                      ("summary",
                        Obj [("signatureType", signatureType);
                             ("signerCount",
                               if Js.truthy signerCount then signerCount else Num 1);
                             ("algorithm", algorithm)]);
                      ("reportUrl", Str (ReportQR.reportUrl q))]))
    /\ validateQRData (ReportQR.qrData q) = validation [] "verification_report"
    /\ parseQRData (ReportQR.qrData q)
       = Throw "Failed to parse QR data: Unknown QR code format".
Proof.
  unfold generateVerificationReportQR.
  destruct (Js.get verificationResult "documentId") as [documentId | ?];
    [| discriminate]. cbn [Js.bind].
  destruct (Js.get verificationResult "valid") as [valid | ?]; [| discriminate].
  cbn [Js.bind].
  destruct (Js.get verificationResult "signatureType") as [signatureType | ?];
    [| discriminate]. cbn [Js.bind].
  destruct (Js.get verificationResult "signerCount") as [signerCount | ?];
    [| discriminate]. cbn [Js.bind].
  destruct (Js.get verificationResult "algorithm") as [algorithm | ?];
    [| discriminate]. cbn [Js.bind].
  destruct (Js.get verificationResult "verificationId") as [verificationId | ?];
    [| discriminate]. cbn [Js.bind]. cbv zeta.
  destruct (toDataURLWith _ _) as [image | ?]; [| discriminate].
  cbn [Js.bind Js.rethrow]. intros [= <-].
  cbn [ReportQR.reportUrl ReportQR.qrData].
  exists documentId, valid, signatureType, signerCount, algorithm, verificationId.
  split; [reflexivity |]. split; [reflexivity |]. split; [reflexivity |].
  unfold validateQRData, parseQRData. rewrite !parse_stringify_object.
  set (fields := [("type", Str "verification_report"); ("documentId", documentId);
                  ("valid", valid); ("verifiedAt", Str (Date.toISOString now));
                  ("summary", _); ("reportUrl", _)]).
  assert (Hnd : NoDup (map fst fields)).
  { cbn [map fst fields]. repeat constructor; cbn [In]; intuition discriminate. }
  split; [reflexivity |].
  cbn [Js.bind Js.get]. rewrite !(lookup_readback_members _ _ Hnd).
  split; reflexivity.
Qed.

End WithOptions.
End OtherCodes.

(** ** The properties above, on the scenario *)

Lemma scenario_roles_distinct : NoDup (map SignerSpec.role Scenario.signers).
Proof. cbn [map Scenario.signers]. repeat constructor; cbn [In]; intuition discriminate. Qed.

(** X1, witness: the scanned signature object, which records the hash of the
    scenario's document, against the transcript. *)
Lemma modified_document_is_reported_witness :
  verifyDocumentSignature (core := Nacl.tweetnacl) (buffers := Scenario.buffers)
    Scenario.scanned Scenario.transcriptA (Scenario.created + 9000000)
  = Ret modifiedResult.
Proof.
  apply (modified_document_is_reported (core := Nacl.tweetnacl)
           (buffers := Scenario.buffers) Scenario.scanned Scenario.transcriptA
           (Scenario.created + 9000000)
           "1e9298e2bf9e4b1a55a4de9cd827fdd11f7a34e35ade1cc6396a700cabf2ebcc"
           (Str Scenario.documentHash)).
  - vm_compute. reflexivity.
  - reflexivity.
  - discriminate.
Defined.

(** X2, witness: the scanned signature object, which has no [metadata],
    against the scenario's document. *)
Lemma signature_object_without_metadata_gets_no_verdict_witness :
  (forall result,
      verifyDocumentSignature (core := Nacl.tweetnacl) (buffers := Scenario.buffers)
        Scenario.scanned Scenario.document (Scenario.created + 9000000) = Ret result ->
      result = modifiedResult)
  /\ (forall documentHash signature signer publicKey isSignatureValid,
        hashOfDocument Scenario.document = Ret documentHash ->
        Js.get Scenario.scanned "documentHash" = Ret (Str documentHash) ->
        Js.get Scenario.scanned "signature" = Ret signature ->
        Js.get Scenario.scanned "signer" = Ret signer ->
        Js.get signer "publicKey" = Ret publicKey ->
        verifyValues (core := Nacl.tweetnacl) (buffers := Scenario.buffers)
          signature documentHash publicKey = Ret isSignatureValid ->
        verifyDocumentSignature (core := Nacl.tweetnacl) (buffers := Scenario.buffers)
          Scenario.scanned Scenario.document (Scenario.created + 9000000)
        = Throw ("Failed to verify document signature: "
                 ++ "Cannot read properties of undefined (reading 'signedAt')")).
Proof.
  apply (signature_object_without_metadata_gets_no_verdict (core := Nacl.tweetnacl)
           (buffers := Scenario.buffers)).
  reflexivity.
Defined.

(** X3, witness: the lecturer signs the scenario's document with the scenario's
    key. *)
Lemma signed_document_is_checked_witness :
  exists documentHash signed,
    hashOfDocument Scenario.document = Ret documentHash
    /\ signDocument (core := Nacl.tweetnacl) Scenario.document Scenario.privateKey
         (Scenario.info "Dr. Andi") (Scenario.created + 3600000) "document-1"
       = Ret signed
    /\ verifyDocumentSignature (core := Nacl.tweetnacl) (buffers := Scenario.buffers)
         signed Scenario.document (Scenario.created + 9000000)
       = Ret (checkedResult
                (opens (core := Nacl.tweetnacl)
                   (firstn 64 (Nacl.crypto_sign (Ed25519 := Nacl.tweetnacl)
                                 (Node.from_utf8 documentHash)
                                 (Node.from_base64 Scenario.privateKey)))
                   (Node.from_utf8 documentHash)
                   (skipn 32 (Node.from_base64 Scenario.privateKey)))
                (Obj (Js.set "publicKey"
                        (Str (Node.to_base64
                                (skipn 32 (Node.from_base64 Scenario.privateKey))))
                        (Scenario.info "Dr. Andi")))
                (Str (Date.toISOString (Scenario.created + 3600000)))
                (Scenario.created + 9000000)).
Proof.
  unfold Scenario.document.
  apply (signed_document_is_checked (buffers := Scenario.buffers)
           [("id", Str "doc-1"); ("title", Str "Ijazah");
            ("content", Str "Ijazah Sarjana Informatika"); ("metadata", Obj [])]
           Scenario.privateKey (Scenario.info "Dr. Andi")
           (Scenario.created + 3600000) "document-1" (Scenario.created + 9000000)).
  - vm_compute. reflexivity.
  - cbn [map fst Scenario.info]. repeat constructor. intros [].
Defined.

(** X4, witness: the key pair of the scenario's seed. *)
Lemma generated_key_pair_is_consistent_witness :
  exists publicKey privateKey,
    generateKeyPair Scenario.seed Scenario.created
    = Ret (Obj (keyPairObject publicKey privateKey Scenario.created))
    /\ (forall role name email uuid,
          generateSignerKeyPair role name email Scenario.seed Scenario.created uuid
          = Ret (signerKeyPairObject publicKey privateKey role name email
                   Scenario.created uuid))
    /\ Node.from_base64 publicKey
       = map Node.byte_of_Z
           (Nacl.Ed25519Z.publicKey (map Node.Z_of_byte Scenario.seed))
    /\ List.length (Node.from_base64 publicKey) = 32%nat
    /\ Node.from_base64 privateKey = (Scenario.seed ++ Node.from_base64 publicKey)%list
    /\ getPublicKeyFromPrivate privateKey = Ret publicKey
    /\ forall (core : Nacl.Ed25519) message now',
         exists signatureData, sign message privateKey now' = Ret signatureData.
Proof.
  apply (generated_key_pair_is_consistent Scenario.seed Scenario.created).
  vm_compute. reflexivity.
Defined.

(** X5, witness: the scenario's session after its two signatures. *)
Lemma session_books_balance_witness :
  NoDup (map signatureRole (Session.signatures Scenario.session2))
  /\ incl (map signatureRole (Session.signatures Scenario.session2))
          (map SignerSpec.role Scenario.signers)
  /\ List.length (Session.signatures Scenario.session2) = 2%nat
  /\ (2 <= List.length Scenario.signers)%nat
  /\ map RequiredSigner.role (Session.requiredSigners Scenario.session2)
     = map SignerSpec.role Scenario.signers
  /\ (forall r, In r (Session.requiredSigners Scenario.session2) ->
        match signedBy (RequiredSigner.role r) (Session.signatures Scenario.session2) with
        | Some g => RequiredSigner.status r = "signed"
                    /\ RequiredSigner.signedAt r = Some (Signature.signedAt g)
        | None => RequiredSigner.status r = "pending"
                  /\ RequiredSigner.signedAt r = None
        end)
  /\ Session.metadata Scenario.session2
     = {| Metadata.totalSigners := List.length Scenario.signers;
          Metadata.signedCount := 2;
          Metadata.pendingCount := List.length Scenario.signers - 2 |}.
Proof.
  apply (session_books_balance (core := Nacl.tweetnacl)
           Scenario.document Scenario.signers (Some 2) Scenario.created
           "session-1" "document-1" Scenario.session0 2 Scenario.session2).
  - exact scenario_initialized.
  - exact scenario_roles_distinct.
  - exact scenario_run.
Defined.

(** X6, witness: the progress of the scenario's session after its two
    signatures. *)
Lemma signing_progress_agrees_with_session_witness :
  let progress := getSigningProgress Scenario.session2 (Scenario.created + 9000000) in
  let signed := map Progress.Signed.role
                    (Progress.Signers.signed (Progress.signers progress)) in
  let pending := map Progress.Pending.role
                     (Progress.Signers.pending (Progress.signers progress)) in
  Progress.Counts.signed (Progress.progress progress) = 2%nat
  /\ Progress.Counts.signed (Progress.progress progress)
     = Metadata.signedCount (Session.metadata Scenario.session2)
  /\ Progress.Counts.total (Progress.progress progress) = List.length Scenario.signers
  /\ signed = map signatureRole (Session.signatures Scenario.session2)
  /\ pending = filter (fun role => negb (includes signed role))
                      (map SignerSpec.role Scenario.signers)
  /\ List.length pending = Metadata.pendingCount (Session.metadata Scenario.session2)
  /\ Permutation (signed ++ pending) (map SignerSpec.role Scenario.signers)
  /\ Progress.TimeInfo.isExpired (Progress.timeInfo progress)
     = (Scenario.created + 9000000 >? Scenario.created + 604800000).
Proof.
  apply (signing_progress_agrees_with_session (core := Nacl.tweetnacl)
           Scenario.document Scenario.signers (Some 2) Scenario.created
           "session-1" "document-1" Scenario.session0 2 Scenario.session2
           (Scenario.created + 9000000)).
  - exact scenario_initialized.
  - exact scenario_roles_distinct.
  - exact scenario_run.
Defined.

(** X7, witness: the scenario's session after its two signatures, verified
    against the scenario's document. *)
Lemma stored_signatures_verify_witness :
  exists result,
    verifyMultiSignature (core := Nacl.tweetnacl) Scenario.session2 Scenario.document
      (Scenario.created + 9000000) = Ret result
    /\ Verification.documentHashMatch result = true
    /\ Verification.totalSignatures result = Some 2%nat
    /\ Verification.validSignatures result = Some 2%nat
    /\ List.length (Verification.signatureResults result) = 2%nat
    /\ (forall r, In r (Verification.signatureResults result) ->
          SignatureResult.valid r = true /\ SignatureResult.reason r = "Valid signature")
    /\ (Verification.valid result = true <-> Session.status Scenario.session2 = "completed").
Proof.
  apply (stored_signatures_verify (core := Nacl.tweetnacl)
           Scenario.document Scenario.signers (Some 2) Scenario.created
           "session-1" "document-1" Scenario.session0 2 Scenario.session2
           (Scenario.created + 9000000)).
  - exact scenario_initialized.
  - reflexivity.
  - exact scenario_run.
Defined.

(** X9, witness: the scenario's session, threshold 2, after its two signatures. *)
Lemma progress_percentage_witness :
  Progress.Counts.percentage
    (Progress.progress (getSigningProgress Scenario.session2 (Scenario.created + 9000000)))
  = Number.Integer ((200 * Z.of_nat 2 + Session.threshold Scenario.session0)
                    / (2 * Session.threshold Scenario.session0))
  /\ (Progress.Counts.percentage
        (Progress.progress (getSigningProgress Scenario.session2 (Scenario.created + 9000000)))
      = Number.Integer 100
      <-> Session.status Scenario.session2 = "completed").
Proof.
  apply (progress_percentage (core := Nacl.tweetnacl)
           Scenario.document Scenario.signers (Some 2) Scenario.created
           "session-1" "document-1" Scenario.session0 2 Scenario.session2
           (Scenario.created + 9000000)).
  - exact scenario_initialized.
  - vm_compute. split; discriminate.
  - exact scenario_run.
Defined.

(** X11, witness: the scenario's session at its threshold of two
    signatures. *)
Lemma aggregated_signature_has_threshold_entries_witness :
  exists aggregated metadata,
    createAggregatedSignature Scenario.session2 = Ret aggregated
    /\ Js.get aggregated "type" = Ret (Str "multi-signature")
    /\ Js.get aggregated "algorithm" = Ret (Str "EdDSA-Multi")
    /\ Js.get aggregated "documentHash"
       = Ret (Str (Session.documentHash Scenario.session0))
    /\ Js.get aggregated "threshold" = Ret (Num (Session.threshold Scenario.session0))
    /\ Js.get aggregated "signatures"
       = Ret (Arr (map aggregatedEntry (Session.signatures Scenario.session2)))
    /\ len (Session.signatures Scenario.session2) = Session.threshold Scenario.session0
    /\ Js.get aggregated "metadata" = Ret metadata
    /\ Js.get metadata "totalSigners" = Ret (Num (Session.threshold Scenario.session0)).
Proof.
  apply (aggregated_signature_has_threshold_entries (core := Nacl.tweetnacl)
           Scenario.document Scenario.signers (Some 2) Scenario.created
           "session-1" "document-1" Scenario.session0 2 Scenario.session2).
  - exact scenario_initialized.
  - reflexivity.
  - exact scenario_run.
Defined.

(** X13, witness: the QR code of the two-signature session. *)
Lemma generated_code_is_validated_by_its_members_witness :
  exists documentId documentHash algorithm,
    Js.get (Scenario.diploma "Ijazah") "id" = Ret documentId
    /\ Js.get (Scenario.aggregate Scenario.session2) "documentHash" = Ret documentHash
    /\ Js.get (Scenario.aggregate Scenario.session2) "algorithm" = Ret algorithm
    /\ QRCodeService.validateQRData (QRCodeService.QRResult.qrData Scenario.smallQR)
       = if QRCodeService.QRResult.compressed Scenario.smallQR
         then validation
                (missing documentId "Missing required field: documentId"
                   (missing (Str "verification-1")
                      "Missing required field: verificationId" []))
                "verification_url"
         else validation
                (missing algorithm "Missing signature algorithm"
                   (missing documentHash "Missing required field: documentHash"
                      (missing documentId "Missing required field: documentId" [])))
                "document_verification".
Proof.
  apply (generated_code_is_validated_by_its_members (qrcode := Scenario.renderer)
           (Scenario.aggregate Scenario.session2) (Scenario.diploma "Ijazah")
           (Scenario.created + 9000000) "verification-1" [] Scenario.smallQR
           (snd (QRCodeService.generateDocumentQR (qrcode := Scenario.renderer)
                   (Scenario.aggregate Scenario.session2) (Scenario.diploma "Ijazah")
                   (Scenario.created + 9000000) "verification-1" []))).
  vm_compute. reflexivity.
Defined.

(** X14, witness: the board's session and a renderer that finds every text
    too large. *)
Lemma failed_rendering_keeps_the_stored_payload_witness :
  QRCodeService.generateDocumentQR (qrcode := Scenario.overflowing)
    (Scenario.aggregate Scenario.boardSession) (Scenario.diploma Scenario.longTitle)
    (Scenario.created + 9000000) "verification-2" []
  = (Throw ("Failed to generate QR code: "
            ++ "The amount of data is too big to be stored in a QR Code"),
     snd (QRCodeService._storeVerificationData "verification-2"
            (QRCodeService.QRResult.payload Scenario.boardQR)
            (Scenario.created + 9000000) []))
  /\ forall now',
       now' <= Scenario.created + 9000000 + thirtyDays ->
       QRCodeService.getStoredVerificationData "verification-2" now'
         (snd (QRCodeService._storeVerificationData "verification-2"
                 (QRCodeService.QRResult.payload Scenario.boardQR)
                 (Scenario.created + 9000000) []))
       = (Ret (QRCodeService.QRResult.payload Scenario.boardQR),
          snd (QRCodeService._storeVerificationData "verification-2"
                 (QRCodeService.QRResult.payload Scenario.boardQR)
                 (Scenario.created + 9000000) [])).
Proof.
  apply (failed_rendering_keeps_the_stored_payload (qrcode := Scenario.overflowing)
           (Scenario.aggregate Scenario.boardSession) (Scenario.diploma Scenario.longTitle)
           (Scenario.created + 9000000) "verification-2" []
           (QRCodeService.QRResult.payload Scenario.boardQR)
           (Str "doc-1") Scenario.documentHash
           (Arr (map aggregatedEntry (Session.signatures Scenario.boardSession)))
           "The amount of data is too big to be stored in a QR Code").
  - vm_compute. reflexivity.
  - vm_compute. lia.
  - reflexivity.
  - vm_compute. reflexivity.
  - vm_compute. reflexivity.
  - reflexivity.
Defined.

(** X15, witness: the QR code of the board's session, which takes the
    reference form. *)
Lemma reference_code_resolves_to_its_payload_witness :
  exists parsed,
    QRCodeService.parseQRData (QRCodeService.QRResult.qrData Scenario.boardQR) = Ret parsed
    /\ Js.get parsed "type" = Ret (Str "url_verification")
    /\ Js.get parsed "verificationId" = Ret (Str "verification-2")
    /\ Js.get parsed "url" = Ret (Str ("/api/verification/" ++ "verification-2"))
    /\ forall now',
         QRCodeService.getStoredVerificationData "verification-2" now'
           (snd (QRCodeService.generateDocumentQR (qrcode := Scenario.renderer)
                   (Scenario.aggregate Scenario.boardSession)
                   (Scenario.diploma Scenario.longTitle)
                   (Scenario.created + 9000000) "verification-2" []))
         = if now' >? Scenario.created + 9000000 + thirtyDays
           then (Ret Null,
                 QRCodeService.store_delete "verification-2"
                   (snd (QRCodeService.generateDocumentQR (qrcode := Scenario.renderer)
                           (Scenario.aggregate Scenario.boardSession)
                           (Scenario.diploma Scenario.longTitle)
                           (Scenario.created + 9000000) "verification-2" [])))
           else (Ret (QRCodeService.QRResult.payload Scenario.boardQR),
                 snd (QRCodeService.generateDocumentQR (qrcode := Scenario.renderer)
                        (Scenario.aggregate Scenario.boardSession)
                        (Scenario.diploma Scenario.longTitle)
                        (Scenario.created + 9000000) "verification-2" [])).
Proof.
  apply (reference_code_resolves_to_its_payload (qrcode := Scenario.renderer)
           (Scenario.aggregate Scenario.boardSession)
           (Scenario.diploma Scenario.longTitle)
           (Scenario.created + 9000000) "verification-2" [] Scenario.boardQR
           (snd (QRCodeService.generateDocumentQR (qrcode := Scenario.renderer)
                   (Scenario.aggregate Scenario.boardSession)
                   (Scenario.diploma Scenario.longTitle)
                   (Scenario.created + 9000000) "verification-2" []))).
  vm_compute. reflexivity.
Defined.

(** X17, witness: the scenario's document and the same document under another
    title. *)
Lemma only_truthy_content_is_hashed_witness :
  hashOfDocument Scenario.retitled = hashOfDocument Scenario.document
  /\ (forall (core : Nacl.Ed25519) session now,
        verifyMultiSignature session Scenario.retitled now
        = verifyMultiSignature session Scenario.document now)
  /\ (forall (core : Nacl.Ed25519) (buffers : Node.BufferFrom) signatureObject now,
        verifyDocumentSignature signatureObject Scenario.retitled now
        = verifyDocumentSignature signatureObject Scenario.document now)
  /\ (forall (core : Nacl.Ed25519) signers threshold now uuid1 uuid2 session now',
        initializeMultiSigSession Scenario.document signers threshold now uuid1 uuid2
        = Ret session ->
        exists result,
          verifyMultiSignature session Scenario.retitled now' = Ret result
          /\ Verification.documentHashMatch result = true).
Proof.
  unfold Scenario.document, Scenario.retitled.
  apply (only_truthy_content_is_hashed
           [("id", Str "doc-1"); ("title", Str "Ijazah");
            ("content", Str "Ijazah Sarjana Informatika"); ("metadata", Obj [])]
           [("id", Str "doc-1"); ("title", Str "Ijazah Magister");
            ("content", Str "Ijazah Sarjana Informatika"); ("metadata", Obj [])]).
  - reflexivity.
  - reflexivity.
Defined.

(** X18, witness: a private key that decodes to six bytes. *)
Lemma private_key_of_wrong_size_is_refused_witness :
  (forall message now,
      sign (core := Nacl.tweetnacl) message Scenario.shortKey now
      = Throw "Failed to create signature: bad secret key size")
  /\ getPublicKeyFromPrivate Scenario.shortKey
     = Throw "Failed to extract public key: bad secret key size"
  /\ (forall props signerInfo now uuid,
        signDocument (core := Nacl.tweetnacl) (Obj props) Scenario.shortKey signerInfo
          now uuid
        = Throw "Failed to sign document: Failed to create signature: bad secret key size")
  /\ (forall publicKey now,
        validateKeyPair (core := Nacl.tweetnacl) publicKey Scenario.shortKey now
        = Ret false)
  /\ (forall session role signerInfo now uuid,
        awaits session role now ->
        addSignature (core := Nacl.tweetnacl) session role Scenario.shortKey signerInfo
          now uuid
        = (failed "Failed to create signature: bad secret key size", session)).
Proof.
  apply (private_key_of_wrong_size_is_refused (core := Nacl.tweetnacl) Scenario.shortKey).
  vm_compute. discriminate.
Defined.

(** X19, witness: the lecturer signs the opened session with the scenario's
    key. *)
Lemma well_sized_key_signs_or_is_invalid_witness :
  List.length
    (firstn 64 (Nacl.crypto_sign (Ed25519 := Nacl.tweetnacl)
                  (Node.from_utf8 (Session.documentHash Scenario.session0))
                  (Node.from_base64 Scenario.privateKey))) = 64%nat
  /\ List.length (skipn 32 (Node.from_base64 Scenario.privateKey)) = 32%nat
  /\ addSignature (core := Nacl.tweetnacl) Scenario.session0 "dosen" Scenario.privateKey
       (Scenario.info "Dr. Andi") (Scenario.created + 3600000) "signature-1"
     = if opens (core := Nacl.tweetnacl)
            (firstn 64 (Nacl.crypto_sign (Ed25519 := Nacl.tweetnacl)
                          (Node.from_utf8 (Session.documentHash Scenario.session0))
                          (Node.from_base64 Scenario.privateKey)))
            (Node.from_utf8 (Session.documentHash Scenario.session0))
            (skipn 32 (Node.from_base64 Scenario.privateKey))
       then
         (Ret (signedSession Scenario.session0 "dosen"
                 (Node.to_base64
                    (firstn 64 (Nacl.crypto_sign (Ed25519 := Nacl.tweetnacl)
                                  (Node.from_utf8 (Session.documentHash Scenario.session0))
                                  (Node.from_base64 Scenario.privateKey))))
                 (Node.to_base64 (skipn 32 (Node.from_base64 Scenario.privateKey)))
                 (Scenario.info "Dr. Andi") (Scenario.created + 3600000) "signature-1"),
          signedSession Scenario.session0 "dosen"
            (Node.to_base64
               (firstn 64 (Nacl.crypto_sign (Ed25519 := Nacl.tweetnacl)
                             (Node.from_utf8 (Session.documentHash Scenario.session0))
                             (Node.from_base64 Scenario.privateKey))))
            (Node.to_base64 (skipn 32 (Node.from_base64 Scenario.privateKey)))
            (Scenario.info "Dr. Andi") (Scenario.created + 3600000) "signature-1")
       else (failed "Generated signature is invalid", Scenario.session0).
Proof.
  apply (well_sized_key_signs_or_is_invalid Scenario.session0 "dosen" Scenario.privateKey
           (Scenario.info "Dr. Andi") (Scenario.created + 3600000) "signature-1").
  - vm_compute. reflexivity.
  - split; [discriminate |]. split; [vm_compute; discriminate |].
    split; reflexivity.
Defined.

(** X20, witness: the QR code of the session after its first signature. *)
Lemma multisig_code_names_no_algorithm_witness :
  exists signature,
    Js.get (QRCodeService.QRResult.payload Scenario.multisigQR) "signatureType"
    = Ret (Str "multi-signature")
    /\ Js.get (QRCodeService.QRResult.payload Scenario.multisigQR) "documentHash"
       = Ret (Str (Session.documentHash Scenario.session1))
    /\ Js.get (QRCodeService.QRResult.payload Scenario.multisigQR) "signature"
       = Ret signature
    /\ Js.get signature "algorithm" = Ret Undefined
    /\ Js.get signature "data"
       = Ret (Arr (map aggregatedEntry (Session.signatures Scenario.session1)))
    /\ (QRCodeService.QRResult.compressed Scenario.multisigQR = false ->
        QRCodeService.QRValidation.valid
          (QRCodeService.validateQRData (QRCodeService.QRResult.qrData Scenario.multisigQR))
        = false
        /\ In "Missing signature algorithm"
              (QRCodeService.QRValidation.errors
                 (QRCodeService.validateQRData
                    (QRCodeService.QRResult.qrData Scenario.multisigQR)))).
Proof.
  apply (multisig_code_names_no_algorithm (qrcode := Scenario.renderer)
           Scenario.session1 (Scenario.diploma "Ijazah") (Scenario.created + 9000000)
           "verification-4" [] Scenario.multisigQR
           (snd (QRCodeService.generateMultiSigQR (qrcode := Scenario.renderer)
                   Scenario.session1 (Scenario.diploma "Ijazah")
                   (Scenario.created + 9000000) "verification-4" []))).
  vm_compute. reflexivity.
Defined.

(** X21, witness: the signing request for the dean. *)
Lemma signing_request_code_is_read_back_witness :
  QRCodeService.SigningQR.signingUrl Scenario.signingQR
  = "/api/signatures/sign/" ++ "session-1" ++ "/" ++ "dekan"
  /\ JSON.parse (QRCodeService.SigningQR.qrData Scenario.signingQR)
     = Ret (Obj [("type", Str "signing_request");
                 ("sessionId", Str "session-1");
                 ("signerRole", Str "dekan");
                 ("url", Str ("/api/signatures/sign/" ++ "session-1" ++ "/" ++ "dekan"));
                 ("timestamp", Str (Date.toISOString (Scenario.created + 3600000)))])
  /\ QRCodeService.validateQRData (QRCodeService.SigningQR.qrData Scenario.signingQR)
     = validation [] "signing_request"
  /\ QRCodeService.parseQRData (QRCodeService.SigningQR.qrData Scenario.signingQR)
     = Throw "Failed to parse QR data: Unknown QR code format".
Proof.
  apply (signing_request_code_is_read_back (qrcodeWith := Scenario.rendererWith)
           "session-1" "dekan" (Scenario.created + 3600000) Scenario.signingQR).
  vm_compute. reflexivity.
Defined.

(** X22, witness: the report of a verification that gives no signer count. *)
Lemma report_code_is_read_back_witness :
  exists documentId valid signatureType signerCount algorithm verificationId,
    Js.get Scenario.verificationResult "signerCount" = Ret signerCount
    /\ Js.get Scenario.verificationResult "verificationId" = Ret verificationId
    /\ QRCodeService.ReportQR.reportUrl Scenario.reportQR
       = "/api/verification/report/" ++ QRCodeService.toString verificationId
    /\ JSON.parse (QRCodeService.ReportQR.qrData Scenario.reportQR)
       = Ret (JSON.readback
                (Obj [("type", Str "verification_report");
                      ("documentId", documentId);
                      ("valid", valid);
                      ("verifiedAt", Str (Date.toISOString (Scenario.created + 9000000)));
                      ("summary",
                        Obj [("signatureType", signatureType);
                             ("signerCount",
                               if Js.truthy signerCount then signerCount else Num 1);
                             ("algorithm", algorithm)]);
                      ("reportUrl",
                        Str (QRCodeService.ReportQR.reportUrl Scenario.reportQR))]))
    /\ QRCodeService.validateQRData (QRCodeService.ReportQR.qrData Scenario.reportQR)
       = validation [] "verification_report"
    /\ QRCodeService.parseQRData (QRCodeService.ReportQR.qrData Scenario.reportQR)
       = Throw "Failed to parse QR data: Unknown QR code format".
Proof.
  apply (report_code_is_read_back (qrcodeWith := Scenario.rendererWith)
           Scenario.verificationResult (Scenario.created + 9000000) Scenario.reportQR).
  vm_compute. reflexivity.
Defined.
